(** * Token-vault authentication proxy: a shallow embedding and its properties

    The development follows the layout of the repository:

    - [Js]: the fragment of JavaScript values the handlers rely on
      (truthiness, property access, template strings, [URLSearchParams]);
    - [Sha256], [Base64Url]: what [crypto.createHash('sha256')] and the
      ['base64url'] digest encoding compute;
    - [ReturnAuthzCache], [OidcCache], [OutboundRequestCache],
      [ConnectedAccountSessionCache]: the in-memory correlation maps of [lib/];
    - [JwtAuthorizer]: the JWKS key cache of [lib/jwt_authorizer.js];
    - [TokenVault]: [lib/token_vault.js];
    - [Express], [Axios]: what the two libraries do to the query of a
      request that passes through the forwarder;
    - [TokenRoute], [ProxyRoutes], [Authorize], [OidcCallback],
      [ConnectedAccountsCallback]: the route handlers of [routes/];
    - [Authorizer], [Middleware], [ProxyRoutesPlain], [ProxyRoute],
      [Metadata], [OktaAuth0Exchange]: the authorizer, the two middlewares,
      the forwarder of the earlier revision and the route as a whole, the
      metadata documents, and the exchanges with the identity provider.

    Time ([Date.now()]) is an integer number of milliseconds; every network
    call is an input of the function that performs it (its outcome is either
    a value or a thrown error), and every in-memory [Map] is threaded
    explicitly through the handler that mutates it. *)

From Stdlib Require Import ZArith Lia List Bool Ascii String.
From stdpp Require Import gmap strings list fin_maps.

Set Warnings "-register-all".

Local Open Scope Z_scope.
Local Open Scope string_scope.

(* ===================================================================== *)
(** * JavaScript values *)
(* ===================================================================== *)

Module Js.

(** A JSON-like value; [JObj] lists the own properties of an object.  A
    number is given by the two things the handlers observe of it: the text
    ToString produces for it (a template string inserts that text: [7],
    [1.5], [1e+21], [NaN]), and whether it is truthy, that is neither zero
    nor [NaN]. *)
Inductive jsval : Type :=
  | JUndefined
  | JNull
  | JBool (b : bool)
  | JNum (text : string) (nonzero : bool)
  | JStr (s : string)
  | JObj (fields : list (string * jsval)).

(** A thrown [Error].  [response] and [request] are the two fields axios
    adds to the errors it throws: [response] when the server answered with
    an error status, [request] when the request left but nothing came
    back. *)
Record http_response : Type := mkHttpResponse {
  resp_status : Z;
  resp_data : jsval
}.

Record js_error : Type := mkError {
  message : string;
  code : option string;
  response : option http_response;
  request : bool
}.

(** [new Error(msg)] *)
Definition new_Error (msg : string) : js_error :=
  {| message := msg; code := None; response := None; request := false |}.

(** A computation that returns or throws. *)
Inductive outcome (A : Type) : Type :=
  | Ok (a : A)
  | Throw (e : js_error).
Arguments Ok {A} a.
Arguments Throw {A} e.

Definition bind {A B} (m : outcome A) (k : A -> outcome B) : outcome B :=
  match m with
  | Ok a => k a
  | Throw e => Throw e
  end.

(** [try { m } catch (e) { h e }] *)
Definition try_catch {A} (m : outcome A) (h : js_error -> outcome A) : outcome A :=
  match m with
  | Ok a => Ok a
  | Throw e => h e
  end.

(** ToBoolean *)
Definition truthy (v : jsval) : bool :=
  match v with
  | JUndefined | JNull => false
  | JBool b => b
  | JNum _ nonzero => nonzero
  | JStr s => negb (String.eqb s "")
  | JObj _ => true
  end.

(** Truthiness of a value that is either a string or absent
    ([undefined] / [null]). *)
Definition truthy_str (o : option string) : bool :=
  match o with
  | Some s => negb (String.eqb s "")
  | None => false
  end.

(** [a || b] on such values, with a string default. *)
Definition or_default (o : option string) (d : string) : string :=
  match o with
  | Some s => if String.eqb s "" then d else s
  | None => d
  end.

Fixpoint assoc {V} (k : string) (l : list (string * V)) : option V :=
  match l with
  | [] => None
  | (k', v) :: l' => if String.eqb k k' then Some v else assoc k l'
  end.

(** [v.name].  Reading a property of [undefined] or [null] throws a
    [TypeError]; primitives have none of the property names used here. *)
Definition get_prop (v : jsval) (name : string) : outcome jsval :=
  match v with
  | JUndefined =>
      Throw (new_Error ("Cannot read properties of undefined (reading '" +:+ name +:+ "')"))
  | JNull =>
      Throw (new_Error ("Cannot read properties of null (reading '" +:+ name +:+ "')"))
  | JObj fields =>
      Ok (match assoc name fields with Some x => x | None => JUndefined end)
  | _ => Ok JUndefined
  end.

(** Strict equality with a string literal: [v === s]. *)
Definition strict_eq_str (v : jsval) (s : string) : bool :=
  match v with
  | JStr s' => String.eqb s' s
  | _ => false
  end.

(** The value of an optional string as a JSON value ([null] when absent). *)
Definition of_opt (o : option string) : jsval :=
  match o with
  | Some s => JStr s
  | None => JNull
  end.

(** ToString, as a template string [`${v}`] applies it. *)
Definition to_string (v : jsval) : string :=
  match v with
  | JUndefined => "undefined"
  | JNull => "null"
  | JBool true => "true"
  | JBool false => "false"
  | JNum text _ => text
  | JStr s => s
  | JObj _ => "[object Object]"
  end.

(** [`${o}`] for a value that is a string or [null]. *)
Definition tpl (o : option string) : string :=
  match o with
  | Some s => s
  | None => "null"
  end.

(** [URLSearchParams]: an ordered list of name/value pairs. *)
Definition URLSearchParams : Type := list (string * string).

(** [params.get(name)]: the first value with that name, or [null]. *)
Definition usp_get (p : URLSearchParams) (name : string) : option string :=
  assoc name p.

(** [params.set(name, value)]: overwrite the first pair with that name and
    drop the others, or append. *)
Fixpoint usp_remove (name : string) (p : URLSearchParams) : URLSearchParams :=
  match p with
  | [] => []
  | (k, v) :: p' =>
      if String.eqb name k then usp_remove name p' else (k, v) :: usp_remove name p'
  end.

Fixpoint usp_set (p : URLSearchParams) (name value : string) : URLSearchParams :=
  match p with
  | [] => [(name, value)]
  | (k, v) :: p' =>
      if String.eqb name k then (name, value) :: usp_remove name p'
      else (k, v) :: usp_set p' name value
  end.

(** A value of [req.query], the object the query parser of Express builds
    from the query string of the request: a string for a name that occurs
    once, an array for a name that is repeated or written [a[]], an object
    for a bracketed name such as [a[b]]. *)
Inductive qvalue : Type :=
  | QStr (s : string)
  | QArr (items : list qvalue)
  | QObj (fields : list (string * qvalue)).

(** ToString of such a value: an array joins the texts of its elements
    with commas. *)
Fixpoint qvalue_to_string (v : qvalue) : string :=
  match v with
  | QStr s => s
  | QArr items => String.concat "," (map qvalue_to_string items)
  | QObj _ => "[object Object]"
  end.

(** [new URLSearchParams(obj)] for an object like [req.query]: one pair
    for each own property, in order, the value converted to a string. *)
Definition new_URLSearchParams (obj : list (string * qvalue)) : URLSearchParams :=
  map (fun kv => (fst kv, qvalue_to_string (snd kv))) obj.

End Js.

Import Js.

(** stdpp's monadic notation [x ← m; k] for computations that may throw. *)
#[global] Instance outcome_ret : MRet outcome := @Ok.
#[global] Instance outcome_bind : MBind outcome := fun A B k m => Js.bind m k.

(* ===================================================================== *)
(** * SHA-256 and base64url

    [crypto.createHash('sha256').update(s).digest('base64url')] of
    [routes/token.js], written out after FIPS 180-4 on 32-bit words held in
    [Z] with the wrap-around explicit. *)
(* ===================================================================== *)

Module Sha256.

Definition w32 (x : Z) : Z := x mod 4294967296.
Definition add32 (a b : Z) : Z := w32 (a + b).

Definition rotr (n x : Z) : Z :=
  Z.lor (Z.shiftr x n) (w32 (Z.shiftl x (32 - n))).
Definition shr (n x : Z) : Z := Z.shiftr x n.

Definition Ch (x y z : Z) : Z := Z.lxor (Z.land x y) (Z.land (Z.lnot x) z).
Definition Maj (x y z : Z) : Z :=
  Z.lxor (Z.lxor (Z.land x y) (Z.land x z)) (Z.land y z).
Definition Sigma0 (x : Z) : Z := Z.lxor (Z.lxor (rotr 2 x) (rotr 13 x)) (rotr 22 x).
Definition Sigma1 (x : Z) : Z := Z.lxor (Z.lxor (rotr 6 x) (rotr 11 x)) (rotr 25 x).
Definition sigma0 (x : Z) : Z := Z.lxor (Z.lxor (rotr 7 x) (rotr 18 x)) (shr 3 x).
Definition sigma1 (x : Z) : Z := Z.lxor (Z.lxor (rotr 17 x) (rotr 19 x)) (shr 10 x).

(** The constants are the first 32 bits of the fractional parts of the cube
    roots (the round constants) and of the square roots (the initial hash
    value) of the first primes; they are computed here rather than listed. *)
Definition primes : list Z :=
  [2; 3; 5; 7; 11; 13; 17; 19; 23; 29; 31; 37; 41; 43; 47; 53; 59; 61; 67; 71; 73; 79;
   83; 89; 97; 101; 103; 107; 109; 113; 127; 131; 137; 139; 149; 151; 157; 163; 167;
   173; 179; 181; 191; 193; 197; 199; 211; 223; 227; 229; 233; 239; 241; 251; 257; 263;
   269; 271; 277; 281; 283; 293; 307; 311].

(** The integer [k]-th root of [n < 2 ^ (40 * k)], one bit at a time. *)
Definition iroot (k n : Z) : Z :=
  fold_left
    (fun r b => let r' := r + 2 ^ Z.of_nat b in if Z.leb (r' ^ k) n then r' else r)
    (rev (seq 0 40)) 0.

Definition K : list Z := map (fun p => w32 (iroot 3 (p * 2 ^ 96))) primes.

Definition H0 : list Z := map (fun p => w32 (iroot 2 (p * 2 ^ 64))) (firstn 8 primes).

(** The [n] low-order bytes of [x], most significant first. *)
Fixpoint be_bytes (n : nat) (x : Z) : list Z :=
  match n with
  | O => []
  | S n' => Z.land (Z.shiftr x (8 * Z.of_nat n')) 255 :: be_bytes n' x
  end.

(** Padding: a [1] bit, zeros up to 56 modulo 64 bytes, the bit length on
    eight bytes. *)
Definition pad (msg : list Z) : list Z :=
  let len := Z.of_nat (length msg) in
  msg ++ [128] ++ repeat 0 (Z.to_nat ((55 - len) mod 64)) ++ be_bytes 8 (8 * len).

Fixpoint words (fuel : nat) (bytes : list Z) : list Z :=
  match fuel, bytes with
  | S fuel', a :: b :: c :: d :: rest =>
      Z.lor (Z.lor (Z.lor (Z.shiftl a 24) (Z.shiftl b 16)) (Z.shiftl c 8)) d
      :: words fuel' rest
  | _, _ => []
  end.

Fixpoint blocks (fuel : nat) (ws : list Z) : list (list Z) :=
  match fuel, ws with
  | O, _ | _, [] => []
  | S fuel', _ => firstn 16 ws :: blocks fuel' (skipn 16 ws)
  end.

(** Message schedule: the sixteen block words extended to sixty-four. *)
Definition W_at (w : list Z) (t : nat) : Z := nth t w 0.

Definition extend (w : list Z) : list Z :=
  let t := length w in
  w ++ [ add32 (add32 (sigma1 (W_at w (t - 2))) (W_at w (t - 7)))
               (add32 (sigma0 (W_at w (t - 15))) (W_at w (t - 16))) ].

Definition schedule (block : list Z) : list Z := Nat.iter 48 extend block.

Record regs : Type := mkRegs { ra : Z; rb : Z; rc : Z; rd : Z; re : Z; rf : Z; rg : Z; rh : Z }.

Definition round (s : regs) (kw : Z * Z) : regs :=
  let T1 := add32 (add32 (add32 (add32 (rh s) (Sigma1 (re s))) (Ch (re s) (rf s) (rg s)))
                         (fst kw)) (snd kw) in
  let T2 := add32 (Sigma0 (ra s)) (Maj (ra s) (rb s) (rc s)) in
  {| ra := add32 T1 T2; rb := ra s; rc := rb s; rd := rc s;
     re := add32 (rd s) T1; rf := re s; rg := rf s; rh := rg s |}.

Definition compress (s : regs) (block : list Z) : regs :=
  let s' := fold_left round (combine K (schedule block)) s in
  {| ra := add32 (ra s) (ra s'); rb := add32 (rb s) (rb s');
     rc := add32 (rc s) (rc s'); rd := add32 (rd s) (rd s');
     re := add32 (re s) (re s'); rf := add32 (rf s) (rf s');
     rg := add32 (rg s) (rg s'); rh := add32 (rh s) (rh s') |}.

Definition init : regs :=
  {| ra := nth 0 H0 0; rb := nth 1 H0 0; rc := nth 2 H0 0; rd := nth 3 H0 0;
     re := nth 4 H0 0; rf := nth 5 H0 0; rg := nth 6 H0 0; rh := nth 7 H0 0 |}.

(** The digest of a byte string: 32 bytes. *)
Definition digest (msg : list Z) : list Z :=
  let padded := pad msg in
  let ws := words (length padded) padded in
  let s := fold_left compress (blocks (length ws) ws) init in
  flat_map (be_bytes 4) [ra s; rb s; rc s; rd s; re s; rf s; rg s; rh s].

(** The bytes of a string (its UTF-8 encoding). *)
Fixpoint bytes_of_string (s : string) : list Z :=
  match s with
  | EmptyString => []
  | String c s' => Z.of_N (Ascii.N_of_ascii c) :: bytes_of_string s'
  end.

End Sha256.

Module Base64Url.

Definition alphabet : string :=
  "ABCDEFGHIJKLMNOPQRSTUVWXYZabcdefghijklmnopqrstuvwxyz0123456789-_".

Definition sextet (i : Z) : string :=
  match String.get (Z.to_nat i) alphabet with
  | Some c => String c EmptyString
  | None => EmptyString
  end.

(** Unpadded base64url, as Node's ['base64url'] encoding produces it. *)
Fixpoint encode (bytes : list Z) : string :=
  match bytes with
  | a :: b :: c :: rest =>
      sextet (Z.shiftr a 2)
      +:+ sextet (Z.lor (Z.shiftl (Z.land a 3) 4) (Z.shiftr b 4))
      +:+ sextet (Z.lor (Z.shiftl (Z.land b 15) 2) (Z.shiftr c 6))
      +:+ sextet (Z.land c 63)
      +:+ encode rest
  | [a; b] =>
      sextet (Z.shiftr a 2)
      +:+ sextet (Z.lor (Z.shiftl (Z.land a 3) 4) (Z.shiftr b 4))
      +:+ sextet (Z.shiftl (Z.land b 15) 2)
  | [a] =>
      sextet (Z.shiftr a 2) +:+ sextet (Z.shiftl (Z.land a 3) 4)
  | [] => EmptyString
  end.

End Base64Url.

(** [crypto.createHash('sha256').update(s).digest('base64url')] *)
Definition sha256_base64url (s : string) : string :=
  Base64Url.encode (Sha256.digest (Sha256.bytes_of_string s)).

(* ===================================================================== *)
(** * The correlation caches of [lib/]

    Each module is one JavaScript module holding a [Map]; the map is the
    last argument and part of the result of the functions that touch it,
    and [now] stands for the value [Date.now()] returns during the call. *)
(* ===================================================================== *)

(** ** [lib/return_authz_cache.js] *)

Module ReturnAuthzCache.

Record entry : Type := mkEntry {
  originalState : option string;
  tenantId : string;
  originalParameters : URLSearchParams;
  accessToken : option string;
  createdAt : Z
}.

(** Cache TTL in milliseconds (15 minutes). *)
Definition CACHE_TTL_MS : Z := 15 * 60 * 1000.

Definition addToCache (returnAuthzCode : string) (accessToken : option string)
    (originalState : option string) (tenantId : string)
    (originalParameters : URLSearchParams)
    (now : Z) (returningAuthorizationCache : gmap string entry)
    : entry * gmap string entry :=
  let cacheEntry :=
    {| originalState := originalState;
       tenantId := tenantId;
       originalParameters := originalParameters;
       accessToken := accessToken;
       createdAt := now |} in
  (cacheEntry, <[returnAuthzCode := cacheEntry]> returningAuthorizationCache).

Definition getCacheItem (returnAuthzCode : string)
    (now : Z) (returningAuthorizationCache : gmap string entry)
    : option entry * gmap string entry :=
  match returningAuthorizationCache !! returnAuthzCode with
  | None => (None, returningAuthorizationCache)
  | Some cached =>
      if Z.gtb (now - createdAt cached) CACHE_TTL_MS
      then (None, delete returnAuthzCode returningAuthorizationCache)
      else (Some cached, returningAuthorizationCache)
  end.

Definition clearCacheItem (returnAuthzCode : string)
    (returningAuthorizationCache : gmap string entry) : gmap string entry :=
  delete returnAuthzCode returningAuthorizationCache.

End ReturnAuthzCache.

(** ** [lib/oidc_cache.js] *)

Module OidcCache.

Record entry : Type := mkEntry {
  tenantId : string;
  parameters : URLSearchParams;
  originalState : option string;
  originalParameters : URLSearchParams;
  accessToken : option string;
  accessTokenScope : option string;
  accessTokenExpiresIn : option Z;
  createdAt : Z
}.

Definition CACHE_TTL_MS : Z := 15 * 60 * 1000.

Definition cacheOidcRequest (outboundState : string) (parameters : URLSearchParams)
    (originalState : option string) (originalParameters : URLSearchParams)
    (accessToken accessTokenScope : option string) (accessTokenExpiresIn : option Z)
    (tenantId : string)
    (now : Z) (oidcCache : gmap string entry) : entry * gmap string entry :=
  let cacheEntry :=
    {| tenantId := tenantId;
       parameters := parameters;
       originalState := originalState;
       originalParameters := originalParameters;
       accessToken := accessToken;
       accessTokenScope := accessTokenScope;
       accessTokenExpiresIn := accessTokenExpiresIn;
       createdAt := now |} in
  (cacheEntry, <[outboundState := cacheEntry]> oidcCache).

Definition getOidcRequest (state : string)
    (now : Z) (oidcCache : gmap string entry) : option entry * gmap string entry :=
  match oidcCache !! state with
  | None => (None, oidcCache)
  | Some cached =>
      if Z.gtb (now - createdAt cached) CACHE_TTL_MS
      then (None, delete state oidcCache)
      else (Some cached, oidcCache)
  end.

Definition clearOidcRequest (state : string) (oidcCache : gmap string entry)
    : gmap string entry :=
  delete state oidcCache.

End OidcCache.

(** ** [lib/outbound_request_cache.js] *)

Module OutboundRequestCache.

Record entry : Type := mkEntry {
  tenantId : string;
  parameters : URLSearchParams;
  originalState : option string;
  originalParameters : URLSearchParams;
  accessToken : option string;
  createdAt : Z
}.

Definition CACHE_TTL_MS : Z := 15 * 60 * 1000.

Definition cacheOutboundRequest (outboundState : string) (parameters : URLSearchParams)
    (originalState : option string) (originalParameters : URLSearchParams)
    (accessToken : option string) (tenantId : string)
    (now : Z) (outboundRequestsCache : gmap string entry) : entry * gmap string entry :=
  let cacheEntry :=
    {| tenantId := tenantId;
       parameters := parameters;
       originalState := originalState;
       originalParameters := originalParameters;
       accessToken := accessToken;
       createdAt := now |} in
  (cacheEntry, <[outboundState := cacheEntry]> outboundRequestsCache).

Definition getCachedOutboundRequest (state : string)
    (now : Z) (outboundRequestsCache : gmap string entry)
    : option entry * gmap string entry :=
  match outboundRequestsCache !! state with
  | None => (None, outboundRequestsCache)
  | Some cached =>
      if Z.gtb (now - createdAt cached) CACHE_TTL_MS
      then (None, delete state outboundRequestsCache)
      else (Some cached, outboundRequestsCache)
  end.

Definition clearCachedOutboundRequest (state : string)
    (outboundRequestsCache : gmap string entry) : gmap string entry :=
  delete state outboundRequestsCache.

End OutboundRequestCache.

(** ** [lib/connected_account_session_cache.js] *)

Module ConnectedAccountSessionCache.

Record entry : Type := mkEntry {
  authSession : jsval;
  state : string;
  oidcState : string;
  userToken : jsval;
  createdAt : Z
}.

Definition CACHE_TTL_MS : Z := 15 * 60 * 1000.

Definition cacheAuthSession (state oidcState : string) (authSession userToken : jsval)
    (now : Z) (connectedAccountsCache : gmap string entry) : gmap string entry :=
  <[state := {| authSession := authSession;
                state := state;
                oidcState := oidcState;
                userToken := userToken;
                createdAt := now |}]> connectedAccountsCache.

Definition getCachedAuthSession (state : string)
    (now : Z) (connectedAccountsCache : gmap string entry)
    : option entry * gmap string entry :=
  match connectedAccountsCache !! state with
  | None => (None, connectedAccountsCache)
  | Some cached =>
      if Z.gtb (now - createdAt cached) CACHE_TTL_MS
      then (None, delete state connectedAccountsCache)
      else (Some cached, connectedAccountsCache)
  end.

Definition clearCachedAuthSession (state : string)
    (connectedAccountsCache : gmap string entry) : gmap string entry :=
  delete state connectedAccountsCache.

End ConnectedAccountSessionCache.

(* ===================================================================== *)
(** * What a handler sends back *)
(* ===================================================================== *)

(** [headers] lists the headers the handler sets itself with [res.set] or
    [res.setHeader], in order. *)
Record answer : Type := mkAnswer {
  status : Z;
  headers : list (string * string);
  body : jsval
}.

Inductive reply : Type :=
  | Respond (r : answer)                (* res.status(..).json(..) / .send(..) *)
  | Redirect (location : string)        (* res.redirect(url) *)
  | Unhandled (e : js_error).           (* the async handler rejects *)

(** [res.status(st).json({ ... })] *)
Definition json (st : Z) (fields : list (string * jsval)) : answer :=
  {| status := st; headers := []; body := JObj fields |}.

Definition opt_string_eqb (a b : option string) : bool :=
  match a, b with
  | Some x, Some y => String.eqb x y
  | None, None => true
  | _, _ => false
  end.

(* ===================================================================== *)
(** * [routes/token.js]: POST /token *)
(* ===================================================================== *)

Module TokenRoute.

Import ReturnAuthzCache.

(** Validates the PKCE code_verifier against the original code_challenge. *)
Definition validatePKCE (codeVerifier codeChallenge codeChallengeMethod : option string)
    : bool :=
  if negb (truthy_str codeVerifier) || negb (truthy_str codeChallenge) then false
  else if opt_string_eqb codeChallengeMethod (Some "S256") then
    String.eqb (sha256_base64url (default "" codeVerifier)) (default "" codeChallenge)
  else false.

(** The parsed request body; a field is [None] when the body lacks it. *)
Record token_body : Type := mkBody {
  grant_type : option string;
  code : option string;
  client_id : option string;
  code_verifier : option string;
  redirect_uri : option string
}.

Definition invalid_grant_unknown_code : answer :=
  json 400
    [("error", JStr "invalid_grant");
     ("error_description",
      JStr "The authorization code is invalid, expired, or has already been used.")].

(** The handler.  As in the source, the call to [validatePKCE] between the
    [code_challenge] check and the [client_id] check is commented out and
    therefore absent here. *)
Definition post_token (req_body : token_body)
    (now : Z) (returningAuthorizationCache : gmap string entry)
    : answer * gmap string entry :=
  if negb (opt_string_eqb (grant_type req_body) (Some "authorization_code")) then
    (json 400
       [("error", JStr "unsupported_grant_type");
        ("error_description", JStr "Only authorization_code grant type is supported.")],
     returningAuthorizationCache)
  else if negb (truthy_str (code req_body)) then
    (json 400
       [("error", JStr "invalid_request");
        ("error_description", JStr "The code parameter is required.")],
     returningAuthorizationCache)
  else if negb (truthy_str (client_id req_body)) then
    (json 400
       [("error", JStr "invalid_request");
        ("error_description", JStr "The client_id parameter is required.")],
     returningAuthorizationCache)
  else if negb (truthy_str (code_verifier req_body)) then
    (json 400
       [("error", JStr "invalid_request");
        ("error_description", JStr "The code_verifier parameter is required for PKCE.")],
     returningAuthorizationCache)
  else if negb (truthy_str (redirect_uri req_body)) then
    (json 400
       [("error", JStr "invalid_request");
        ("error_description", JStr "Redirect_uri is required.")],
     returningAuthorizationCache)
  else
    (* [code] is a non-empty string from here on *)
    let code := default "" (code req_body) in
    let '(cachedAuthz, cache1) := getCacheItem code now returningAuthorizationCache in
    let cache2 := clearCacheItem code cache1 in
    match cachedAuthz with
    | None => (invalid_grant_unknown_code, cache2)
    | Some cachedAuthz =>
        let originalParameters := originalParameters cachedAuthz in
        let codeChallenge := usp_get originalParameters "code_challenge" in
        let codeChallengeMethod := usp_get originalParameters "code_challenge_method" in
        if negb (truthy_str codeChallenge) then
          (json 400
             [("error", JStr "invalid_request");
              ("error_description",
               JStr "No code_challenge was found in the original authorization request.")],
           cache2)
        else
          let originalClientId := usp_get originalParameters "client_id" in
          if truthy_str originalClientId
             && negb (opt_string_eqb originalClientId (client_id req_body)) then
            (json 400
               [("error", JStr "invalid_grant");
                ("error_description",
                 JStr "The client_id does not match the original authorization request.")],
             cache2)
          else
            (json 200
               [("access_token", of_opt (accessToken cachedAuthz));
                ("token_type", JStr "Bearer")],
             cache2)
    end.

(** The request with another [code_verifier]. *)
Definition with_code_verifier (v : option string) (b : token_body) : token_body :=
  {| grant_type := grant_type b; code := code b; client_id := client_id b;
     code_verifier := v; redirect_uri := redirect_uri b |}.

(** The request passes the parameter checks that precede the cache lookup. *)
Definition params_ok (req_body : token_body) : bool :=
  opt_string_eqb (grant_type req_body) (Some "authorization_code")
  && truthy_str (code req_body)
  && truthy_str (client_id req_body)
  && truthy_str (code_verifier req_body)
  && truthy_str (redirect_uri req_body).

(** A history of the return-code cache: callbacks mint codes, clients post
    to /token. *)
Inductive event : Type :=
  | EvIssue (returnAuthzCode : string) (accessToken originalState : option string)
          (tenantId : string) (originalParameters : URLSearchParams) (now : Z)
  | EvToken (req_body : token_body) (now : Z).

Definition step (ev : event) (cache : gmap string entry)
    : option (token_body * answer) * gmap string entry :=
  match ev with
  | EvIssue k tok st tid ps now => (None, snd (addToCache k tok st tid ps now cache))
  | EvToken b now =>
      let '(r, cache') := post_token b now cache in (Some (b, r), cache')
  end.

(** The /token exchanges of a history, oldest first, and the final cache. *)
Fixpoint run (evs : list event) (cache : gmap string entry)
    : list (token_body * answer) * gmap string entry :=
  match evs with
  | [] => ([], cache)
  | ev :: evs' =>
      let '(o, cache1) := step ev cache in
      let '(rs, cache2) := run evs' cache1 in
      (match o with Some br => br :: rs | None => rs end, cache2)
  end.

(** The exchange handed out a token for the code [k]. *)
Definition obtained (k : string) (br : token_body * answer) : bool :=
  opt_string_eqb (code (fst br)) (Some k) && Z.eqb (status (snd br)) 200.

Definition successes (k : string) (evs : list event) (cache : gmap string entry) : nat :=
  length (filter (fun br => obtained k br = true) (fst (run evs cache))).

(** The code [k] is not minted again in the history. *)
Definition not_issued (k : string) (ev : event) : Prop :=
  match ev with
  | EvIssue k' _ _ _ _ _ => k' <> k
  | EvToken _ _ => True
  end.

End TokenRoute.

(* ===================================================================== *)
(** * The string operations behind [join], [replace] and [split] *)
(* ===================================================================== *)

Module JsString.

(** [l.join(sep)] *)
Definition join (sep : string) (l : list string) : string := String.concat sep l.

Fixpoint drop (n : nat) (s : string) : string :=
  match n, s with
  | O, _ => s
  | S _, EmptyString => EmptyString
  | S n', String _ s' => drop n' s'
  end.

(** [s.replace(pat, rep)] with a string pattern: only the first
    occurrence of [pat], wherever it starts, is replaced. *)
Fixpoint replace (pat rep s : string) : string :=
  if String.prefix pat s then rep +:+ drop (String.length pat) s
  else match s with
       | EmptyString => EmptyString
       | String c s' => String c (replace pat rep s')
       end.

(** [s.split(sep)] for a one-character separator. *)
Fixpoint split (sep : Ascii.ascii) (s : string) : list string :=
  match s with
  | EmptyString => [EmptyString]
  | String c s' =>
      if Ascii.eqb c sep then EmptyString :: split sep s'
      else match split sep s' with
           | piece :: pieces => String c piece :: pieces
           | [] => [String c EmptyString]
           end
  end.

(** [pat] occurs somewhere in [s]. *)
Fixpoint occurs (pat s : string) : bool :=
  String.prefix pat s
  || match s with
     | EmptyString => false
     | String _ s' => occurs pat s'
     end.

(** [c] occurs in [s]. *)
Fixpoint contains (c : ascii) (s : string) : bool :=
  match s with
  | EmptyString => false
  | String c' s' => Ascii.eqb c' c || contains c s'
  end.

(** [a || b] on values. *)
Definition or (a b : jsval) : jsval := if truthy a then a else b.

End JsString.

(* ===================================================================== *)
(** * [lib/token_vault.js] *)
(* ===================================================================== *)

Module TokenVault.

(** The object [exchangeOktaAccessToken] resolves to. *)
Record vault_result : Type := mkVaultResult {
  success : bool;
  needsLinking : bool;
  accessToken : jsval;
  message : jsval
}.

(** [first] is the outcome of [oktaAuth0.getAuth0VaultTokenFromOktaToken]
    and [post] the outcome of [axios.post(tokenUrl, requestBody, ...)],
    as the data of the response or the error axios throws.  The function
    resolves to an object, to [null] ([None]), or rejects. *)
Definition exchangeOktaAccessToken (first : outcome jsval) (post : outcome jsval)
    : outcome (option vault_result) :=
  auth0Token ← try_catch first (fun err =>
    Throw (new_Error ("Token exchange request failed: " +:+ Js.message err)));
  if negb (truthy auth0Token) then mret None
  else
    try_catch
      (data ← post;
       access_token ← get_prop data "access_token";
       mret (Some {| success := true;
                     needsLinking := false;
                     message := JStr "Token retrieved successfully!";
                     accessToken := access_token |}))
      (fun error =>
         match response error with
         | Some error_response =>
             (* Auth0 returned an error response *)
             let errorData := resp_data error_response in
             notFound ←
               (if Z.eqb (resp_status error_response) 401 then
                  e ← get_prop errorData "error";
                  mret (strict_eq_str e "federated_connection_refresh_token_not_found")
                else mret false);
             if (notFound : bool) then
               mret (Some {| success := false;
                             needsLinking := true;
                             accessToken := JNull;
                             message := JStr "No credentials found in the vault." |})
             else
               (* Some other auth0 error. *)
               e ← get_prop errorData "error";
               mret (Some {| success := false;
                             needsLinking := false;
                             accessToken := JNull;
                             message := e |})
         | None =>
             if request error then
               (* Request was made but no response received *)
               mret (Some {| success := false;
                             needsLinking := false;
                             accessToken := JNull;
                             message :=
                               JStr "Token exchange request failed: No response received" |})
             else
               (* Error setting up the request *)
               mret (Some {| success := false;
                             needsLinking := false;
                             accessToken := JNull;
                             message :=
                               JStr ("Token exchange request failed: "
                                     +:+ Js.message error) |})
         end).

(** How the callers read the outcome: [resp.success] first, then
    [resp.needsLinking]. *)
Inductive kind : Type := Success | NeedsLinking | Failure.

Definition classify (o : outcome (option vault_result)) : kind :=
  match o with
  | Ok (Some r) =>
      if success r then Success
      else if needsLinking r then NeedsLinking
      else Failure
  | Ok None | Throw _ => Failure
  end.

(** If we find a scope called "refresh_token" replace it with offline
    access when we send it. *)
Definition finalScopes (externalScopes : list string) : list string :=
  JsString.split " "%char
    (JsString.replace "refresh_token" "offline_access" (JsString.join " " externalScopes)).

(** The body posted to [/me/v1/connected-accounts/connect]. *)
Record connect_request : Type := mkConnectRequest {
  connection : option string;
  redirect_uri : string;
  state : string;
  scopes : list string
}.

(** [requestBody] of [beginConnectedAccountFlow]. *)
Definition connect_requestBody (connection : option string)
    (completeRedirectUri state : string) (externalScopes : list string)
    : connect_request :=
  let finalScopes := finalScopes externalScopes in
  {| connection := connection;
     redirect_uri := completeRedirectUri;
     state := state;
     scopes := finalScopes |}.

(** The list the specification describes: every element equal to
    [refresh_token] replaced by [offline_access], the others unchanged. *)
Definition scopes_as_specified (externalScopes : list string) : list string :=
  map (fun scope => if String.eqb scope "refresh_token" then "offline_access" else scope)
      externalScopes.

(** A scope is plain when it has no space and does not contain the text
    [refresh_token]. *)
Definition plain (scope : string) : Prop :=
  JsString.contains " " scope = false /\ JsString.occurs "refresh_token" scope = false.

(** The upstream answer that means the vault holds no credential: an
    HTTP 401 whose body has the error code
    [federated_connection_refresh_token_not_found]. *)
Definition refresh_token_not_found (error : js_error) : bool :=
  match response error with
  | Some error_response =>
      Z.eqb (resp_status error_response) 401
      && match get_prop (resp_data error_response) "error" with
         | Ok e => strict_eq_str e "federated_connection_refresh_token_not_found"
         | Throw _ => false
         end
  | None => false
  end.

(** The first exchange produced a token, so the vault is asked. *)
Definition reaches_vault (first : outcome jsval) : bool :=
  match first with
  | Ok auth0Token => truthy auth0Token
  | Throw _ => false
  end.

Record connect_result : Type := mkConnectResult {
  cr_success : bool;
  connectUrl : jsval;
  cr_authSession : jsval;
  cr_state : option string;
  cr_message : jsval
}.

(** [first] is the outcome of [getAuth0ConnectedAcctTokenFromOktaToken],
    [axios_post] answers the connect request, [state] is the value
    [crypto.randomBytes(32).toString('base64url')] returns. *)
Definition beginConnectedAccountFlow
    (first : outcome jsval) (axios_post : connect_request -> outcome jsval)
    (state : string)
    (oidcState : string) (connection : option string) (completeRedirectUri : string)
    (externalScopes : list string)
    (now : Z) (connectedAccountsCache : gmap string ConnectedAccountSessionCache.entry)
    : outcome connect_result * gmap string ConnectedAccountSessionCache.entry :=
  match first with
  | Throw err =>
      (Throw (new_Error ("Token exchange request failed: " +:+ Js.message err)),
       connectedAccountsCache)
  | Ok auth0Token =>
      let requestBody :=
        connect_requestBody connection completeRedirectUri state externalScopes in
      let attempt : outcome (jsval * string) :=
        data ← axios_post requestBody;
        auth_session ← get_prop data "auth_session";
        connect_uri ← get_prop data "connect_uri";
        connect_params ← get_prop data "connect_params";
        ticket ← get_prop connect_params "ticket";
        mret (auth_session, to_string connect_uri +:+ "?ticket=" +:+ to_string ticket) in
      match attempt with
      | Ok (auth_session, fullConnectUrl) =>
          (Ok {| cr_success := true;
                 connectUrl := JStr fullConnectUrl;
                 cr_authSession := auth_session;
                 cr_state := Some state;
                 cr_message := JStr "Connected account flow initiated successfully" |},
           ConnectedAccountSessionCache.cacheAuthSession
             state oidcState auth_session auth0Token now connectedAccountsCache)
      | Throw error =>
          (match response error with
           | Some error_response =>
               let errorData := resp_data error_response in
               d ← get_prop errorData "error_description";
               e ← get_prop errorData "error";
               mret {| cr_success := false;
                       connectUrl := JNull;
                       cr_authSession := JNull;
                       cr_state := None;
                       cr_message :=
                         JsString.or (JsString.or d e)
                           (JStr "Failed to initiate connected account flow") |}
           | None =>
               if request error then
                 mret {| cr_success := false;
                         connectUrl := JNull;
                         cr_authSession := JNull;
                         cr_state := None;
                         cr_message :=
                           JStr "Connected accounts request failed: No response received" |}
               else
                 mret {| cr_success := false;
                         connectUrl := JNull;
                         cr_authSession := JNull;
                         cr_state := None;
                         cr_message :=
                           JStr ("Connected accounts request failed: "
                                 +:+ Js.message error) |}
           end,
           connectedAccountsCache)
      end
  end.

End TokenVault.

(* ===================================================================== *)
(** * [lib/jwt_authorizer.js]: the signing-key cache *)
(* ===================================================================== *)

Module JwtAuthorizer.

(** An entry of a JWKS document: its [kid] and the rest of the key. *)
Record jwk : Type := mkJwk {
  kid : string;
  material : string
}.

Record cached_key : Type := mkCachedKey {
  key : jwk;
  timestamp : Z
}.

(** 1 hour in milliseconds *)
Definition KEY_CACHE_TTL : Z := 3600000.

Definition generic_error : js_error :=
  new_Error "Error retrieving signing keys from authorization server".

(** [now] is the clock at the cache check and [now'] the clock when the
    fetched key is stored.  [fetch] is the outcome of the [axios.request]
    for the JWKS document, as the array [keysResponse.data.keys]; a
    document without such an array makes [.filter] throw inside the same
    [try], so it is one of the [Throw] outcomes. *)
Definition getSigningKey (keysUrl kid_wanted : string)
    (now : Z) (fetch : outcome (list jwk)) (now' : Z)
    (keyCache : gmap string cached_key)
    : outcome jwk * gmap string cached_key :=
  let cacheKey := keysUrl +:+ ":" +:+ kid_wanted in
  let cached := keyCache !! cacheKey in
  let hit :=
    match cached with
    | Some c =>
        if Z.ltb (now - timestamp c) KEY_CACHE_TTL then Some (key c) else None
    | None => None
    end in
  match hit with
  | Some k => (Ok k, keyCache)
  | None =>
      let attempt : outcome jwk :=
        keys ← fetch;
        let keyByKid := List.filter (fun k => String.eqb (kid k) kid_wanted) keys in
        match keyByKid with
        | [k] => mret k
        | _ => Throw (new_Error ("Unable to locate signing key with kid: " +:+ kid_wanted))
        end in
      match try_catch attempt (fun error => Throw generic_error) with
      | Ok k => (Ok k, <[cacheKey := {| key := k; timestamp := now' |}]> keyCache)
      | Throw e => (Throw e, keyCache)
      end
  end.

End JwtAuthorizer.

(* ===================================================================== *)
(** * [lib/tenant_config.js] *)
(* ===================================================================== *)

Module TenantConfig.

Record tenant_config : Type := mkTenant {
  id : string;
  name : string;
  backend_url : string;
  issuer : string;
  keys_endpoint : string;
  vault_connection : option string;
  external_scopes : list string
}.

(** [configData] is the outcome of reading and parsing [tenants.json]. *)
Definition getTenantConfig (configData : outcome (list tenant_config)) (tenantId : string)
    : option tenant_config :=
  match configData with
  | Ok configData =>
      match List.filter (fun config => String.eqb (id config) tenantId) configData with
      | found :: _ => Some found
      | [] => None
      end
  | Throw _ => None
  end.

End TenantConfig.

(* ===================================================================== *)
(** * The query of a request on its way through the forwarder

    Express parses the query string of the inbound request into
    [req.query]; the forwarder hands that object to axios as [params], and
    axios writes the query string of the outbound request from it.  The
    two libraries are modelled on plain parameter names only: non-empty
    names made of letters, digits, [_] and [-] that are not a number and
    not [__proto__].  On other names (brackets, dots, surrounding white
    space) the parsers and the versions of axios differ in ways that are
    not modelled; the functions answer [None] there. *)
(* ===================================================================== *)

Definition is_digit (c : ascii) : bool :=
  let n := Z.of_N (N_of_ascii c) in Z.leb 48 n && Z.leb n 57.

Definition is_name_char (c : ascii) : bool :=
  let n := Z.of_N (N_of_ascii c) in
  (Z.leb 48 n && Z.leb n 57) || (Z.leb 65 n && Z.leb n 90) || (Z.leb 97 n && Z.leb n 122)
  || Z.eqb n 95 || Z.eqb n 45.

Fixpoint all_chars (p : ascii -> bool) (s : string) : bool :=
  match s with
  | EmptyString => true
  | String c s' => p c && all_chars p s'
  end.

Definition plain_name (k : string) : bool :=
  negb (String.eqb k "") && all_chars is_name_char k
  && negb (all_chars is_digit k) && negb (String.eqb k "__proto__").

Module Express.

(** The values of the name [k] seen so far get [v] as one more. *)
Fixpoint add_value (k v : string) (seen : list (string * list string))
    : list (string * list string) :=
  match seen with
  | [] => [(k, [v])]
  | (k', vs) :: seen' =>
      if String.eqb k k' then (k', (vs ++ [v])%list) :: seen'
      else (k', vs) :: add_value k v seen'
  end.

(** [req.query] for a query string given by its name/value pairs, already
    decoded, in order: a name that occurs once has its value, a repeated
    name has the array of its values.  At most twenty pairs, the size up
    to which the parser keeps arrays. *)
Definition query (pairs : list (string * string)) : option (list (string * qvalue)) :=
  if forallb (fun kv => plain_name (fst kv)) pairs && Nat.leb (length pairs) 20 then
    Some (map (fun entry =>
                 (fst entry,
                  match snd entry with
                  | [v] => QStr v
                  | vs => QArr (map QStr vs)
                  end))
              (fold_left (fun seen kv => add_value (fst kv) (snd kv) seen) pairs []))
  else None.

End Express.

Module Axios.

(** The strings of an array that holds nothing else. *)
Fixpoint strings (items : list qvalue) : option (list string) :=
  match items with
  | [] => Some []
  | QStr s :: items' =>
      match strings items' with
      | Some l => Some (s :: l)
      | None => None
      end
  | _ :: _ => None
  end.

(** The name/value pairs axios writes into the query string for the
    [params] object it is given, before they are percent-encoded: a string
    under its name, each element of an array of strings under the name
    followed by [[]]. *)
Fixpoint params_pairs (params : list (string * qvalue)) : option (list (string * string)) :=
  match params with
  | [] => Some []
  | (k, v) :: params' =>
      if negb (plain_name k) then None
      else
        match v, params_pairs params' with
        | QStr s, Some rest => Some ((k, s) :: rest)
        | QArr items, Some rest =>
            match strings items with
            | Some l => Some (map (fun s => (k +:+ "[]", s)) l ++ rest)%list
            | None => None
            end
        | _, _ => None
        end
  end.

End Axios.

(* ===================================================================== *)
(** * [routes/proxy_routes.js]: the forwarder, with the vault exchange *)
(* ===================================================================== *)

Module ProxyRoutes.

Import TenantConfig.

(** The inbound request as Express hands it to the handler, after the
    tenant and authorization middlewares: [req_headers] has lower-case
    names and includes [authorization] and [host]; [req_query] is
    [req.query]; [req_accessToken] is [req.authContext.accessToken]. *)
Record request : Type := mkRequest {
  req_method : string;
  req_params0 : string;
  req_headers : list (string * string);
  req_body : jsval;
  req_query : list (string * qvalue);
  req_accessToken : string
}.

(** The argument of the [axios({...})] call. *)
Record axios_request : Type := mkAxiosRequest {
  ax_method : string;
  ax_url : string;
  ax_headers : list (string * string);
  ax_data : jsval;
  ax_params : list (string * qvalue);
  ax_timeout : Z
}.

Record backend_response : Type := mkBackendResponse {
  br_status : Z;
  br_headers : list (string * string);
  br_data : jsval
}.

Definition includes (l : list string) (s : string) : bool :=
  existsb (String.eqb s) l.

Definition backendHeaders (req : request) (vaultedToken : jsval) : list (string * string) :=
  [("Content-Type", or_default (assoc "content-type" (req_headers req)) "application/json");
   ("Accept", or_default (assoc "accept" (req_headers req)) "application/json")]
  ++ (if truthy vaultedToken
      then [("Authorization", "Bearer " +:+ to_string vaultedToken)]
      else []).

(** The request forwarded to the backend. *)
Definition backend_request (tenantConfig : tenant_config) (req : request)
    (vaultedToken : jsval) : axios_request :=
  {| ax_method := req_method req;
     ax_url := backend_url tenantConfig +:+ "/" +:+ req_params0 req;
     ax_headers := backendHeaders req vaultedToken;
     ax_data := if includes ["POST"; "PUT"; "PATCH"] (req_method req)
                then req_body req else JUndefined;
     ax_params := req_query req;
     ax_timeout := 30000 |}.

Definition headersToForward : list string :=
  ["content-type"; "cache-control"; "etag"; "last-modified"].

Definition relay (backendResponse : backend_response) : answer :=
  {| status := br_status backendResponse;
     headers :=
       flat_map
         (fun header =>
            match assoc header (br_headers backendResponse) with
            | Some v => if truthy_str (Some v) then [(header, v)] else []
            | None => []
            end)
         headersToForward;
     body := br_data backendResponse |}.

Definition proxy_error (error : js_error) : answer :=
  if opt_string_eqb (code error) (Some "ECONNREFUSED") then
    json 502 [("error", JStr "Bad Gateway");
              ("message", JStr "Unable to connect to backend service.")]
  else if opt_string_eqb (code error) (Some "ETIMEDOUT")
          || opt_string_eqb (code error) (Some "ECONNABORTED") then
    json 504 [("error", JStr "Gateway Timeout");
              ("message", JStr "Backend service request timed out.")]
  else
    json 500 [("error", JStr "Internal Server Error");
              ("message", JStr "An error occurred while processing the request.")].

(** The [try] block: forward, then relay the backend's answer.  Next to
    the reply stands the list of requests made to the backend. *)
Definition forward (tenantConfig : tenant_config) (req : request) (vaultedToken : jsval)
    (axios : axios_request -> outcome backend_response) : reply * list axios_request :=
  let outbound := backend_request tenantConfig req vaultedToken in
  (match axios outbound with
   | Ok backendResponse => Respond (relay backendResponse)
   | Throw error => Respond (proxy_error error)
   end,
   [outbound]).

Definition linking_required : answer :=
  json 401
    [("error", JStr "Account Linking Required");
     ("message",
      JStr "A connected account linking is required to obtain tokens for the backend service. Please re-log in.")].

Definition token_request_failed : answer :=
  json 403
    [("error", JStr "Token Request Failed");
     ("message", JStr "Unable to obtain proper tokens.")].

(** The handler of [app.all('/:tenantId/*', ...)].  [vault] is
    [vault.exchangeOktaAccessToken] as a function of the subject token it
    is given; [axios] is the backend.  The [await] on the vault exchange
    is outside the [try], so a rejection, or reading [.success] of
    [null], leaves the handler with an unhandled error. *)
Definition handler (tenantConfig : tenant_config) (req : request)
    (vault : string -> outcome (option TokenVault.vault_result))
    (axios : axios_request -> outcome backend_response) : reply * list axios_request :=
  if truthy_str (vault_connection tenantConfig) then
    match vault (req_accessToken req) with
    | Throw e => (Unhandled e, [])
    | Ok None =>
        (Unhandled (new_Error "Cannot read properties of null (reading 'success')"), [])
    | Ok (Some vaultedTokenResponse) =>
        if TokenVault.success vaultedTokenResponse then
          forward tenantConfig req (TokenVault.accessToken vaultedTokenResponse) axios
        else if TokenVault.needsLinking vaultedTokenResponse then
          (* We failed due to lack of credentials *)
          (Respond linking_required, [])
        else
          (* We straight up failed. *)
          (Respond token_request_failed, [])
    end
  else forward tenantConfig req (JStr "") axios.

(** Another bearer token on the same request: the [authorization] header
    and the token the authorization middleware extracted from it. *)
Definition with_bearer (token : string) (req : request) : request :=
  {| req_method := req_method req;
     req_params0 := req_params0 req;
     req_headers := usp_set (req_headers req) "authorization" ("Bearer " +:+ token);
     req_body := req_body req;
     req_query := req_query req;
     req_accessToken := token |}.

End ProxyRoutes.

(* ===================================================================== *)
(** * Query strings

    [serialize] is [URLSearchParams.prototype.toString()], which the
    authorize handler uses for the redirect to the identity provider;
    [query_param] is how the receiver of a redirect reads a parameter of
    its query string. *)
(* ===================================================================== *)

Module Url.

Definition hex_digit (d : Z) : string :=
  match String.get (Z.to_nat d) "0123456789ABCDEF" with
  | Some c => String c EmptyString
  | None => EmptyString
  end.

Definition is_unreserved (c : ascii) : bool :=
  let n := Z.of_N (N_of_ascii c) in
  (Z.leb 48 n && Z.leb n 57) || (Z.leb 65 n && Z.leb n 90) || (Z.leb 97 n && Z.leb n 122)
  || Z.eqb n 42 || Z.eqb n 45 || Z.eqb n 46 || Z.eqb n 95.

(** The application/x-www-form-urlencoded byte serializer. *)
Fixpoint encode (s : string) : string :=
  match s with
  | EmptyString => EmptyString
  | String c s' =>
      (if is_unreserved c then String c EmptyString
       else if Ascii.eqb c " " then "+"
       else let n := Z.of_N (N_of_ascii c) in
            "%" +:+ hex_digit (Z.shiftr n 4) +:+ hex_digit (Z.land n 15))
      +:+ encode s'
  end.

Definition serialize (p : URLSearchParams) : string :=
  JsString.join "&" (map (fun kv => encode (fst kv) +:+ "=" +:+ encode (snd kv)) p).

Definition hex_value (c : ascii) : option Z :=
  let n := Z.of_N (N_of_ascii c) in
  if Z.leb 48 n && Z.leb n 57 then Some (n - 48)
  else if Z.leb 65 n && Z.leb n 70 then Some (n - 55)
  else if Z.leb 97 n && Z.leb n 102 then Some (n - 87)
  else None.

(** Percent-decoding with [+] read as a space; [skip] counts the hex
    digits already consumed by the escape before them. *)
Fixpoint decode_from (skip : nat) (s : string) : string :=
  match s with
  | EmptyString => EmptyString
  | String c s' =>
      match skip with
      | S skip' => decode_from skip' s'
      | O =>
          if Ascii.eqb c "+" then String " " (decode_from 0 s')
          else if Ascii.eqb c "%" then
            match s' with
            | String h (String l _) =>
                match hex_value h, hex_value l with
                | Some a, Some b =>
                    String (ascii_of_N (Z.to_N (16 * a + b))) (decode_from 2 s')
                | _, _ => String c (decode_from 0 s')
                end
            | _ => String c (decode_from 0 s')
            end
          else String c (decode_from 0 s')
      end
  end.

Definition decode (s : string) : string := decode_from 0 s.

(** The part of [s] after the first [c], if [c] occurs. *)
Fixpoint after (c : ascii) (s : string) : option string :=
  match s with
  | EmptyString => None
  | String c' s' => if Ascii.eqb c' c then Some s' else after c s'
  end.

(** The part of [s] before the first [c], all of [s] if [c] does not occur. *)
Fixpoint before (c : ascii) (s : string) : string :=
  match s with
  | EmptyString => EmptyString
  | String c' s' => if Ascii.eqb c' c then EmptyString else String c' (before c s')
  end.

(** The name/value pairs of the query of [url]. *)
Definition query_pairs (url : string) : list (string * string) :=
  match after "?" (before "#" url) with
  | None => []
  | Some q =>
      flat_map
        (fun piece =>
           if String.eqb piece "" then []
           else [(decode (before "=" piece), decode (default "" (after "=" piece)))])
        (JsString.split "&" q)
  end.

(** The first value of the parameter [name] in the query of [url]. *)
Definition query_param (name url : string) : option string :=
  assoc name (query_pairs url).

End Url.

(* ===================================================================== *)
(** * The browser flow: [routes/authorize.js], [routes/oidc_callback.js],
      [routes/connected_accounts_callback.js]

    The sources hold two revisions of the authorize and callback handlers:
    one keeps the outbound request in [lib/oidc_cache.js], the other in
    [lib/outbound_request_cache.js], which is the map the link callback
    reads.  Both are modelled, each on its own map. *)
(* ===================================================================== *)

(** The environment variables the handlers read. *)
Record environment : Type := mkEnv {
  PROXY_BASE_URL : string;
  OKTA_DOMAIN : string;
  VSCODE_CLIENT : string;
  AUTH0_DOMAIN : string
}.

(** The four maps. *)
Record stores : Type := mkStores {
  oidcCache : gmap string OidcCache.entry;
  outboundRequestsCache : gmap string OutboundRequestCache.entry;
  connectedAccountsCache : gmap string ConnectedAccountSessionCache.entry;
  returningAuthorizationCache : gmap string ReturnAuthzCache.entry
}.

Definition empty_stores : stores :=
  {| oidcCache := ∅; outboundRequestsCache := ∅;
     connectedAccountsCache := ∅; returningAuthorizationCache := ∅ |}.

Definition set_oidcCache (m : gmap string OidcCache.entry) (st : stores) : stores :=
  {| oidcCache := m;
     outboundRequestsCache := outboundRequestsCache st;
     connectedAccountsCache := connectedAccountsCache st;
     returningAuthorizationCache := returningAuthorizationCache st |}.

Definition set_outboundRequestsCache (m : gmap string OutboundRequestCache.entry)
    (st : stores) : stores :=
  {| oidcCache := oidcCache st;
     outboundRequestsCache := m;
     connectedAccountsCache := connectedAccountsCache st;
     returningAuthorizationCache := returningAuthorizationCache st |}.

Definition set_connectedAccountsCache (m : gmap string ConnectedAccountSessionCache.entry)
    (st : stores) : stores :=
  {| oidcCache := oidcCache st;
     outboundRequestsCache := outboundRequestsCache st;
     connectedAccountsCache := m;
     returningAuthorizationCache := returningAuthorizationCache st |}.

Definition set_returningAuthorizationCache (m : gmap string ReturnAuthzCache.entry)
    (st : stores) : stores :=
  {| oidcCache := oidcCache st;
     outboundRequestsCache := outboundRequestsCache st;
     connectedAccountsCache := connectedAccountsCache st;
     returningAuthorizationCache := m |}.

Definition tenant_not_found (tenantId : string) : answer :=
  json 404 [("error", JStr "Not Found");
            ("message", JStr ("Tenant '" +:+ tenantId +:+ "' not found."))].

(** ** GET /authorize/:tenantId *)

Module Authorize.

Import TenantConfig.

(** The revision on [oidc_cache].  [query] is [req.query];
    [outboundState] and [outboundNonce] are the two values
    [crypto.randomBytes(32).toString('base64url')] returns.  Nothing in
    the [try] block throws, so its [catch] (a 500 answer) does not
    appear. *)
Definition authorize (env : environment) (configData : outcome (list tenant_config))
    (tenantId : string) (query : list (string * qvalue))
    (outboundState outboundNonce : string) (now : Z) (st : stores) : reply * stores :=
  match getTenantConfig configData tenantId with
  | None => (Respond (tenant_not_found tenantId), st)
  | Some tenant =>
      let inboundAuthParameters := new_URLSearchParams query in
      let inboundState := usp_get inboundAuthParameters "state" in
      let inboundClientId := usp_get inboundAuthParameters "client_id" in
      let authorizeEndpoint := OKTA_DOMAIN env +:+ "/oauth2/v1/authorize" in
      let proxyQueryParams :=
        usp_set (usp_set (usp_set (usp_set (usp_set (usp_set []
          "client_id" (tpl inboundClientId))
          "redirect_uri" (PROXY_BASE_URL env +:+ "/callback"))
          "response_type" "code")
          "scope" "openid profile")
          "state" outboundState)
          "nonce" outboundNonce in
      let cache' :=
        snd (OidcCache.cacheOidcRequest outboundState proxyQueryParams inboundState
               inboundAuthParameters None None None tenantId now (oidcCache st)) in
      let redirectUrl := authorizeEndpoint +:+ "?" +:+ Url.serialize proxyQueryParams in
      (Redirect redirectUrl, set_oidcCache cache' st)
  end.

(** The revision on [outbound_request_cache]. *)
Definition authorize_outbound (env : environment)
    (configData : outcome (list tenant_config))
    (tenantId : string) (query : list (string * qvalue))
    (outboundState outboundNonce : string) (now : Z) (st : stores) : reply * stores :=
  match getTenantConfig configData tenantId with
  | None => (Respond (tenant_not_found tenantId), st)
  | Some tenant =>
      let inboundAuthParameters := new_URLSearchParams query in
      let inboundState := usp_get inboundAuthParameters "state" in
      let authorizeEndpoint := OKTA_DOMAIN env +:+ "/oauth2/v1/authorize" in
      let proxyQueryParams :=
        usp_set (usp_set (usp_set (usp_set (usp_set (usp_set []
          "client_id" (VSCODE_CLIENT env))
          "redirect_uri" (PROXY_BASE_URL env +:+ "/callback"))
          "response_type" "code")
          "scope" "openid")
          "state" outboundState)
          "nonce" outboundNonce in
      let cache' :=
        snd (OutboundRequestCache.cacheOutboundRequest outboundState proxyQueryParams
               inboundState inboundAuthParameters None tenantId now
               (outboundRequestsCache st)) in
      let redirectUrl := authorizeEndpoint +:+ "?" +:+ Url.serialize proxyQueryParams in
      (Redirect redirectUrl, set_outboundRequestsCache cache' st)
  end.

End Authorize.

(** ** GET /callback *)

Module OidcCallback.

Import TenantConfig.

Record callback_query : Type := mkCallbackQuery {
  q_state : option string;
  q_code : option string;
  q_error : option string;
  q_error_description : option string
}.

(** What the calls into [lib/okta_auth0_exchange.js] produce: the ID
    token of [completeOktaOIDCLogin], and the agent access token that
    [getIdJagFromOkta] followed by [getAccessTokenFromIDJag] obtain. *)
Record agent_tokens : Type := mkAgentTokens {
  idToken : string;
  agentAccessToken : string;
  agentAccessTokenScope : option string;
  agentAccessTokenExpires : option Z
}.

Definition cannot_read_null (name : string) : js_error :=
  new_Error ("Cannot read properties of null (reading '" +:+ name +:+ "')").

(** The [catch] block of the handler, after the cache entry is cleared. *)
Definition exchange_failure (error : js_error) : outcome answer :=
  match Js.response error with
  | Some error_response =>
      let errorData := resp_data error_response in
      e ← get_prop errorData "error";
      d ← get_prop errorData "error_description";
      mret (json (resp_status error_response)
              [("error", JsString.or e (JStr "token_exchange_error"));
               ("error_description",
                JsString.or d (JStr "Failed to exchange authorization code for tokens."));
               ("details", errorData)])
  | None =>
      if request error then
        mret (json 502
                [("error", JStr "bad_gateway");
                 ("error_description",
                  JStr "No response received from the authorization server during token exchange.")])
      else
        mret (json 500
                [("error", JStr "server_error");
                 ("error_description",
                  JStr ("Failed to exchange authorization code: " +:+ Js.message error))])
  end.

Definition idp_error (query : callback_query) : answer :=
  json 400
    [("error", of_opt (q_error query));
     ("error_description",
      JStr (or_default (q_error_description query)
              "Authorization failed at the identity provider."))].

Definition state_required : answer :=
  json 400 [("error", JStr "invalid_request");
            ("error_description", JStr "The state parameter is required.")].

Definition code_required : answer :=
  json 400 [("error", JStr "invalid_request");
            ("error_description", JStr "The code parameter is required.")].

Definition invalid_state : answer :=
  json 400
    [("error", JStr "invalid_state");
     ("error_description",
      JStr "The state parameter is invalid or has expired. Please restart the authorization flow.")].

Definition token_request_failed : answer :=
  json 403 [("error", JStr "Token Request Failed");
            ("message", JStr "Unable to obtain proper tokens.")].

(** The final redirect back to the client:
    [`${originalParameters.get("redirect_uri")}?code=${newAuthzCode}&state=${originalState}`] *)
Definition finalRedirectUrl (originalParameters : URLSearchParams)
    (newAuthzCode : string) (originalState : option string) : string :=
  tpl (usp_get originalParameters "redirect_uri")
  +:+ "?code=" +:+ newAuthzCode +:+ "&state=" +:+ tpl originalState.

Section Handlers.

Variable env : environment.
Variable configData : outcome (list tenant_config).
(** The chain of calls into [lib/okta_auth0_exchange.js], given the
    tenant and the authorization code. *)
Variable chain : option tenant_config -> string -> outcome agent_tokens.
(** [vault.exchangeOktaAccessToken], given the agent access token. *)
Variable vault : string -> outcome (option TokenVault.vault_result).
(** The two network calls of [vault.beginConnectedAccountFlow]. *)
Variable linkFirst : outcome jsval.
Variable linkPost : TokenVault.connect_request -> outcome jsval.
(** The values of the two [crypto.randomBytes(32)] calls. *)
Variable newAuthzCode linkState : string.

(** The revision of [returningAuthzCache.addToCache] with the eight
    parameters [routes/oidc_callback.js] passes is not among the
    sources; its effect on the return-code map is left open. *)
Variable addToCache8 :
  string -> string -> option string -> option Z -> string -> option string ->
  string -> URLSearchParams -> Z ->
  gmap string ReturnAuthzCache.entry -> gmap string ReturnAuthzCache.entry.

(** [routes/oidc_callback.js], on [oidc_cache]. *)
Definition callback (query : callback_query) (now : Z) (st : stores) : reply * stores :=
  if truthy_str (q_error query) then (Respond (idp_error query), st)
  else if negb (truthy_str (q_state query)) then (Respond state_required, st)
  else if negb (truthy_str (q_code query)) then (Respond code_required, st)
  else
    let state := default "" (q_state query) in
    let code := default "" (q_code query) in
    let '(cachedRequest, oidc1) := OidcCache.getOidcRequest state now (oidcCache st) in
    let st1 := set_oidcCache oidc1 st in
    match cachedRequest with
    | None => (Respond invalid_state, st1)
    | Some cachedRequest =>
        let tenantId := OidcCache.tenantId cachedRequest in
        let originalState := OidcCache.originalState cachedRequest in
        let originalParameters := OidcCache.originalParameters cachedRequest in
        let parameters := OidcCache.parameters cachedRequest in
        let tenant := getTenantConfig configData tenantId in
        let attempt : outcome (reply * stores) :=
          tokens ← chain tenant code;
          tenant ← match tenant with
                   | Some t => mret t
                   | None => Throw (cannot_read_null "vault_connection")
                   end;
          vaultedTokenResponse ← vault (agentAccessToken tokens);
          vaultedTokenResponse ← match vaultedTokenResponse with
                                 | Some r => mret r
                                 | None => Throw (cannot_read_null "success")
                                 end;
          if TokenVault.success vaultedTokenResponse then
            (* Our credentials are vaulted already -- return back to the client. *)
            let oidc2 := OidcCache.clearOidcRequest state (oidcCache st1) in
            let ret2 :=
              addToCache8 newAuthzCode (agentAccessToken tokens)
                (agentAccessTokenScope tokens) (agentAccessTokenExpires tokens)
                (idToken tokens) originalState tenantId originalParameters now
                (returningAuthorizationCache st1) in
            mret (Redirect (finalRedirectUrl originalParameters newAuthzCode originalState),
                  set_returningAuthorizationCache ret2 (set_oidcCache oidc2 st1))
          else if TokenVault.needsLinking vaultedTokenResponse then
            (* We failed due to lack of credentials. Begin the account linking flow. *)
            let '(connectedAccountResponse, sessions2) :=
              TokenVault.beginConnectedAccountFlow linkFirst linkPost linkState
                state (vault_connection tenant)
                (PROXY_BASE_URL env +:+ "/connected_account_callback")
                (external_scopes tenant) now (connectedAccountsCache st1) in
            connectedAccountResponse ← connectedAccountResponse;
            if TokenVault.cr_success connectedAccountResponse then
              let oidc2 :=
                snd (OidcCache.cacheOidcRequest state parameters originalState
                       originalParameters (Some (agentAccessToken tokens))
                       (agentAccessTokenScope tokens) (agentAccessTokenExpires tokens)
                       tenantId now (oidcCache st1)) in
              mret (Redirect (to_string (TokenVault.connectUrl connectedAccountResponse)),
                    set_oidcCache oidc2 (set_connectedAccountsCache sessions2 st1))
            else
              mret (Respond token_request_failed,
                    set_connectedAccountsCache sessions2 st1)
          else
            mret (Respond token_request_failed, st1) in
        match attempt with
        | Ok result => result
        | Throw error =>
            (* Clear the cached outbound request even on failure *)
            let st2 := set_oidcCache (OidcCache.clearOidcRequest state (oidcCache st1)) st1 in
            match exchange_failure error with
            | Ok a => (Respond a, st2)
            | Throw e => (Unhandled e, st2)
            end
        end
    end.

(** The revision on [outbound_request_cache], with the five-parameter
    [addToCache] of [lib/return_authz_cache.js]. *)
Definition callback_outbound (query : callback_query) (now : Z) (st : stores)
    : reply * stores :=
  if truthy_str (q_error query) then (Respond (idp_error query), st)
  else if negb (truthy_str (q_state query)) then (Respond state_required, st)
  else if negb (truthy_str (q_code query)) then (Respond code_required, st)
  else
    let state := default "" (q_state query) in
    let code := default "" (q_code query) in
    let '(cachedRequest, out1) :=
      OutboundRequestCache.getCachedOutboundRequest state now (outboundRequestsCache st) in
    let st1 := set_outboundRequestsCache out1 st in
    match cachedRequest with
    | None => (Respond invalid_state, st1)
    | Some cachedRequest =>
        let tenantId := OutboundRequestCache.tenantId cachedRequest in
        let originalState := OutboundRequestCache.originalState cachedRequest in
        let originalParameters := OutboundRequestCache.originalParameters cachedRequest in
        let parameters := OutboundRequestCache.parameters cachedRequest in
        let tenant := getTenantConfig configData tenantId in
        let attempt : outcome (reply * stores) :=
          tokens ← chain tenant code;
          tenant ← match tenant with
                   | Some t => mret t
                   | None => Throw (cannot_read_null "vault_connection")
                   end;
          vaultedTokenResponse ← vault (agentAccessToken tokens);
          vaultedTokenResponse ← match vaultedTokenResponse with
                                 | Some r => mret r
                                 | None => Throw (cannot_read_null "success")
                                 end;
          if TokenVault.success vaultedTokenResponse then
            let out2 :=
              OutboundRequestCache.clearCachedOutboundRequest state
                (outboundRequestsCache st1) in
            let ret2 :=
              snd (ReturnAuthzCache.addToCache newAuthzCode
                     (Some (agentAccessToken tokens)) originalState tenantId
                     originalParameters now (returningAuthorizationCache st1)) in
            mret (Redirect (finalRedirectUrl originalParameters newAuthzCode originalState),
                  set_returningAuthorizationCache ret2
                    (set_outboundRequestsCache out2 st1))
          else if TokenVault.needsLinking vaultedTokenResponse then
            let '(connectedAccountResponse, sessions2) :=
              TokenVault.beginConnectedAccountFlow linkFirst linkPost linkState
                state (vault_connection tenant)
                (PROXY_BASE_URL env +:+ "/connected_account_callback")
                (external_scopes tenant) now (connectedAccountsCache st1) in
            connectedAccountResponse ← connectedAccountResponse;
            if TokenVault.cr_success connectedAccountResponse then
              let out2 :=
                snd (OutboundRequestCache.cacheOutboundRequest state parameters
                       originalState originalParameters
                       (Some (agentAccessToken tokens)) tenantId now
                       (outboundRequestsCache st1)) in
              mret (Redirect (to_string (TokenVault.connectUrl connectedAccountResponse)),
                    set_outboundRequestsCache out2
                      (set_connectedAccountsCache sessions2 st1))
            else
              mret (Respond token_request_failed,
                    set_connectedAccountsCache sessions2 st1)
          else
            mret (Respond token_request_failed, st1) in
        match attempt with
        | Ok result => result
        | Throw error =>
            let st2 :=
              set_outboundRequestsCache
                (OutboundRequestCache.clearCachedOutboundRequest state
                   (outboundRequestsCache st1)) st1 in
            match exchange_failure error with
            | Ok a => (Respond a, st2)
            | Throw e => (Unhandled e, st2)
            end
        end
    end.

End Handlers.

End OidcCallback.

(** ** GET /connected_account_callback *)

Module ConnectedAccountsCallback.

Record link_query : Type := mkLinkQuery {
  q_state : option string;
  q_connect_code : option string
}.

Definition missing (what : string) : answer :=
  json 400 [("error", JStr "Missing Parameter");
            ("message", JStr ("The " +:+ what +:+ " parameter is required."))].

Definition invalid_or_expired_state : answer :=
  json 400
    [("error", JStr "Invalid or Expired State");
     ("message",
      JStr "The state parameter is invalid or has expired. Please restart the connection flow.")].

(** The [catch] block, after the session entry is cleared again. *)
Definition complete_failure (error : js_error) : outcome answer :=
  match Js.response error with
  | Some error_response =>
      let errorData := resp_data error_response in
      d ← get_prop errorData "error_description";
      e ← get_prop errorData "error";
      mret (json (resp_status error_response)
              [("error", JStr "Connected Accounts Error");
               ("message",
                JsString.or (JsString.or d e)
                  (JStr "Failed to complete the connected account flow."));
               ("details", errorData)])
  | None =>
      if request error then
        mret (json 502
                [("error", JStr "Bad Gateway");
                 ("message",
                  JStr "No response received from Auth0 when completing the connected account flow.")])
      else
        mret (json 500
                [("error", JStr "Internal Server Error");
                 ("message",
                  JStr ("Failed to complete the connected account flow: "
                        +:+ Js.message error))])
  end.

(** [complete] is the outcome of the [axios.post] to
    [/me/v1/connected-accounts/complete]; [newAuthzCode] the value of
    [crypto.randomBytes(32).toString('base64url')]. *)
Definition connected_account_callback (query : link_query)
    (complete : outcome jsval) (newAuthzCode : string)
    (now : Z) (st : stores) : reply * stores :=
  if negb (truthy_str (q_state query)) then (Respond (missing "state"), st)
  else if negb (truthy_str (q_connect_code query)) then
    (Respond (missing "connect_code"), st)
  else
    let state := default "" (q_state query) in
    let '(cachedData, sessions1) :=
      ConnectedAccountSessionCache.getCachedAuthSession state now
        (connectedAccountsCache st) in
    (* Clear the cached session data as soon as we get it. *)
    let sessions2 := ConnectedAccountSessionCache.clearCachedAuthSession state sessions1 in
    let st1 := set_connectedAccountsCache sessions2 st in
    match cachedData with
    | None => (Respond invalid_or_expired_state, st1)
    | Some cachedData =>
        let oidcState := ConnectedAccountSessionCache.oidcState cachedData in
        let catch (error : js_error) (st' : stores) : reply * stores :=
          let st'' :=
            set_connectedAccountsCache
              (ConnectedAccountSessionCache.clearCachedAuthSession state
                 (connectedAccountsCache st')) st' in
          match complete_failure error with
          | Ok a => (Respond a, st'')
          | Throw e => (Unhandled e, st'')
          end in
        match complete with
        | Throw error => catch error st1
        | Ok _ =>
            let '(oidcCachedData, out1) :=
              OutboundRequestCache.getCachedOutboundRequest oidcState now
                (outboundRequestsCache st1) in
            let out2 := OutboundRequestCache.clearCachedOutboundRequest oidcState out1 in
            let st2 := set_outboundRequestsCache out2 st1 in
            match oidcCachedData with
            | None => catch (OidcCallback.cannot_read_null "accessToken") st2
            | Some oidcCachedData =>
                let originalState := OutboundRequestCache.originalState oidcCachedData in
                let originalParameters :=
                  OutboundRequestCache.originalParameters oidcCachedData in
                let ret2 :=
                  snd (ReturnAuthzCache.addToCache newAuthzCode
                         (OutboundRequestCache.accessToken oidcCachedData)
                         originalState
                         (OutboundRequestCache.tenantId oidcCachedData)
                         originalParameters now (returningAuthorizationCache st2)) in
                let finalRedirectUrl :=
                  tpl (usp_get originalParameters "redirect_uri")
                  +:+ "?code=" +:+ newAuthzCode +:+ "&state=" +:+ tpl originalState in
                (Redirect finalRedirectUrl, set_returningAuthorizationCache ret2 st2)
            end
        end
    end.

End ConnectedAccountsCallback.

(* ===================================================================== *)
(** * A concrete deployment, for the worked examples *)
(* ===================================================================== *)

Module Scenario.

Import TenantConfig OidcCallback.

Definition env : environment :=
  {| PROXY_BASE_URL := "https://proxy.example";
     OKTA_DOMAIN := "https://idp.example";
     VSCODE_CLIENT := "vscode";
     AUTH0_DOMAIN := "vault.example" |}.

Definition github : tenant_config :=
  {| id := "github"; name := "GitHub";
     backend_url := "https://api.github.example";
     issuer := "https://idp.example/oauth2/default";
     keys_endpoint := "https://idp.example/oauth2/default/v1/keys";
     vault_connection := Some "github";
     external_scopes := ["repo"] |}.

Definition configData : outcome (list tenant_config) := Ok [github].

(** The PKCE pair of RFC 7636, appendix B. *)
Definition verifier : string := "dBjftJeZ4CVP-mB92K27uhbUJU1p1r_wW1gFWFOEjXk".
Definition challenge : string := "E9Melhoa2OwvFrEMTJguCHaoeK1t8URWbuGJSstw-cM".

(** The query of the client's /authorize request, with the given state. *)
Definition inbound_query (state : string) : list (string * string) :=
  [("state", state); ("client_id", "C"); ("redirect_uri", "http://c/cb");
   ("code_challenge", challenge); ("code_challenge_method", "S256")].

(** [req.query] of that request: every name occurs once, so every value
    is a string. *)
Definition inbound_req_query (state : string) : list (string * qvalue) :=
  map (fun kv => (fst kv, QStr (snd kv))) (inbound_query state).

Definition tokens : agent_tokens :=
  {| idToken := "ID1"; agentAccessToken := "AT1";
     agentAccessTokenScope := Some "repo"; agentAccessTokenExpires := Some 3600 |}.

Definition chain (tenant : option tenant_config) (code : string) : outcome agent_tokens :=
  match tenant with
  | Some _ => Ok tokens
  | None => Throw (new_Error "tenantConfig is required")
  end.

Definition vault_ok : TokenVault.vault_result :=
  {| TokenVault.success := true; TokenVault.needsLinking := false;
     TokenVault.accessToken := JStr "D1";
     TokenVault.message := JStr "Token retrieved successfully!" |}.

Definition vault_needs_linking : TokenVault.vault_result :=
  {| TokenVault.success := false; TokenVault.needsLinking := true;
     TokenVault.accessToken := JNull;
     TokenVault.message := JStr "No credentials found in the vault." |}.

Definition vault_failed : TokenVault.vault_result :=
  {| TokenVault.success := false; TokenVault.needsLinking := false;
     TokenVault.accessToken := JNull;
     TokenVault.message := JStr "access_denied" |}.

Definition connect_response (_ : TokenVault.connect_request) : outcome jsval :=
  Ok (JObj [("auth_session", JStr "AS1");
            ("connect_uri", JStr "http://v/connect");
            ("connect_params", JObj [("ticket", JStr "T")])]).

(** A stand-in for the eight-parameter [addToCache]: it stores the fields
    the five-parameter one has. *)
Definition addToCache8 (returnAuthzCode accessToken : string)
    (scope : option string) (expires : option Z) (idToken : string)
    (originalState : option string) (tenantId : string)
    (originalParameters : URLSearchParams) (now : Z)
    (cache : gmap string ReturnAuthzCache.entry) : gmap string ReturnAuthzCache.entry :=
  snd (ReturnAuthzCache.addToCache returnAuthzCode (Some accessToken) originalState
         tenantId originalParameters now cache).

(** The flow without linking: /authorize at time 0, /callback at 1000. *)
Definition no_link_flow (state : string) : reply * stores :=
  let '(_, st1) :=
    Authorize.authorize env configData "github" (inbound_req_query state) "OUT1" "N1" 0
      empty_stores in
  callback env configData chain (fun _ => Ok (Some vault_ok))
    (Ok (JStr "LT1")) connect_response "R1" "LS1" addToCache8
    {| q_state := Some "OUT1"; q_code := Some "AUTH1";
       q_error := None; q_error_description := None |}
    1000 st1.

(** The flow with linking: /authorize at 0, /callback at 1000,
    /connected_account_callback at 2000. *)
Definition link_flow (state : string) : reply * reply * stores :=
  let '(_, st1) :=
    Authorize.authorize_outbound env configData "github" (inbound_req_query state)
      "OUT1" "N1" 0 empty_stores in
  let '(r2, st2) :=
    callback_outbound env configData chain (fun _ => Ok (Some vault_needs_linking))
      (Ok (JStr "LT1")) connect_response "R0" "LS1"
      {| q_state := Some "OUT1"; q_code := Some "AUTH1";
         q_error := None; q_error_description := None |}
      1000 st1 in
  let '(r3, st3) :=
    ConnectedAccountsCallback.connected_account_callback
      {| ConnectedAccountsCallback.q_state := Some "LS1";
         ConnectedAccountsCallback.q_connect_code := Some "CC" |}
      (Ok (JObj [])) "R1" 2000 st2 in
  (r2, r3, st3).

(** The return-code cache after a callback minted [R1] at time 1000. *)
Definition issued : gmap string ReturnAuthzCache.entry :=
  snd (ReturnAuthzCache.addToCache "R1" (Some "AT1") (Some "S1") "github"
         (inbound_query "S1") 1000 ∅).

Definition token_request (code_verifier : string) : TokenRoute.token_body :=
  {| TokenRoute.grant_type := Some "authorization_code";
     TokenRoute.code := Some "R1";
     TokenRoute.client_id := Some "C";
     TokenRoute.code_verifier := Some code_verifier;
     TokenRoute.redirect_uri := Some "http://c/cb" |}.

(** The same request without its [client_id]. *)
Definition token_request_no_client : TokenRoute.token_body :=
  {| TokenRoute.grant_type := Some "authorization_code";
     TokenRoute.code := Some "R1";
     TokenRoute.client_id := None;
     TokenRoute.code_verifier := Some verifier;
     TokenRoute.redirect_uri := Some "http://c/cb" |}.

(** A request through the forwarder. *)
Definition proxied : ProxyRoutes.request :=
  {| ProxyRoutes.req_method := "POST";
     ProxyRoutes.req_params0 := "mcp";
     ProxyRoutes.req_headers :=
       [("host", "proxy.example"); ("authorization", "Bearer AT1");
        ("content-type", "application/json"); ("accept", "text/event-stream")];
     ProxyRoutes.req_body := JObj [("jsonrpc", JStr "2.0")];
     ProxyRoutes.req_query := [("session", QStr "7")];
     ProxyRoutes.req_accessToken := "AT1" |}.

(** The same request with the query string [a=1&a=2]. *)
Definition proxied_repeated : ProxyRoutes.request :=
  {| ProxyRoutes.req_method := "POST";
     ProxyRoutes.req_params0 := "mcp";
     ProxyRoutes.req_headers :=
       [("host", "proxy.example"); ("authorization", "Bearer AT1");
        ("content-type", "application/json"); ("accept", "text/event-stream")];
     ProxyRoutes.req_body := JObj [("jsonrpc", JStr "2.0")];
     ProxyRoutes.req_query := [("a", QArr [QStr "1"; QStr "2"])];
     ProxyRoutes.req_accessToken := "AT1" |}.

Definition backend (_ : ProxyRoutes.axios_request)
    : outcome ProxyRoutes.backend_response :=
  Ok {| ProxyRoutes.br_status := 200;
        ProxyRoutes.br_headers := [("content-type", "application/json")];
        ProxyRoutes.br_data := JObj [] |}.

(** The error axios throws for a 401 answer with the given error code. *)
Definition vault_401 (error_code : string) : js_error :=
  {| Js.message := "Request failed with status code 401";
     code := Some "ERR_BAD_REQUEST";
     response := Some {| resp_status := 401;
                         resp_data := JObj [("error", JStr error_code)] |};
     request := true |}.

(** The error axios throws when the server cannot be reached. *)
Definition unreachable : js_error :=
  {| Js.message := "connect ECONNREFUSED"; code := Some "ECONNREFUSED";
     response := None; request := true |}.

(** The same token request presenting the client id "D". *)
Definition token_request_other_client : TokenRoute.token_body :=
  {| TokenRoute.grant_type := Some "authorization_code";
     TokenRoute.code := Some "R1";
     TokenRoute.client_id := Some "D";
     TokenRoute.code_verifier := Some verifier;
     TokenRoute.redirect_uri := Some "http://c/cb" |}.

(** A key cached at time 0. *)
Definition key_cache : gmap string JwtAuthorizer.cached_key :=
  <["https://idp.example/keys:kid1" :=
      {| JwtAuthorizer.key := {| JwtAuthorizer.kid := "kid1";
                                 JwtAuthorizer.material := "n1" |};
         JwtAuthorizer.timestamp := 0 |}]> ∅.

End Scenario.

(* ===================================================================== *)
(** * [lib/jwt_authorizer.js]: authorizing a request *)
(* ===================================================================== *)

Module Authorizer.

Import TenantConfig JwtAuthorizer.

(** ** The pattern [/^\s*bearer\s+(.+)$/i]

    A header value is a string of one-byte characters.  Among these [\s]
    matches the codes 9 to 13, 32 and 160, and [.] matches everything but
    the line terminators 10 and 13; the flag [i] lets each letter of
    [bearer] match in either case. *)

Definition is_space (c : ascii) : bool :=
  let n := Z.of_N (N_of_ascii c) in
  (Z.leb 9 n && Z.leb n 13) || Z.eqb n 32 || Z.eqb n 160.

Definition is_line_terminator (c : ascii) : bool :=
  let n := Z.of_N (N_of_ascii c) in
  Z.eqb n 10 || Z.eqb n 13.

Definition lower (c : ascii) : ascii :=
  let n := Z.of_N (N_of_ascii c) in
  if Z.leb 65 n && Z.leb n 90 then ascii_of_N (Z.to_N (n + 32)) else c.

(** [\s*] at the start of [s]: what follows the leading white space. *)
Fixpoint skip_spaces (s : string) : string :=
  match s with
  | EmptyString => EmptyString
  | String c s' => if is_space c then skip_spaces s' else s
  end.

(** The literal [word], given in lower case, at the start of [s] in any
    case: what follows it. *)
Fixpoint skip_word (word s : string) : option string :=
  match word with
  | EmptyString => Some s
  | String w word' =>
      match s with
      | EmptyString => None
      | String c s' => if Ascii.eqb (lower c) w then skip_word word' s' else None
      end
  end.

Fixpoint has_line_terminator (s : string) : bool :=
  match s with
  | EmptyString => false
  | String c s' => is_line_terminator c || has_line_terminator s'
  end.

Fixpoint last_two (s : string) : option (ascii * ascii) :=
  match s with
  | String a (String b EmptyString) => Some (a, b)
  | String _ s' => last_two s'
  | EmptyString => None
  end.

(** [authHeader.match(authHeaderPattern)]: the captured group, or [None]
    when the pattern does not match.  [\s+] takes all the white space after
    the word and the group takes the rest up to the end, which must then be
    free of line terminators; when nothing but white space follows the
    word, [\s+] gives its last character back to the group. *)
Definition match_bearer (authHeader : string) : option string :=
  match skip_word "bearer" (skip_spaces authHeader) with
  | None => None
  | Some rest =>
      let token := skip_spaces rest in
      if String.eqb token "" then
        match last_two rest with
        | Some (_, c) => if is_line_terminator c then None else Some (String c EmptyString)
        | None => None
        end
      else if Nat.eqb (String.length token) (String.length rest) then None
      else if has_line_terminator token then None
      else Some token
  end.

(** ** The claims of a token *)

(** A claim that is read as a string or as an array of strings ([aud],
    [scope]); [ClaimMissing] stands for a claim that is absent or
    [null]. *)
Inductive claim : Type :=
  | ClaimMissing
  | ClaimString (s : string)
  | ClaimArray (l : list string).

Definition claim_truthy (c : claim) : bool :=
  match c with
  | ClaimMissing => false
  | ClaimString s => negb (String.eqb s "")
  | ClaimArray _ => true
  end.

(** [verifiedJWT.body] *)
Record jwt_body : Type := mkJwtBody {
  aud : claim;
  scope : claim
}.

(** What [authorizeRequest] resolves to: [{ success: true, message: '',
    token }] or [{ success: false, statusCode, message, token: null }]. *)
Inductive auth_result : Type :=
  | Authorized (token : string)
  | Denied (statusCode : Z) (message : string).

Definition missing_header : auth_result :=
  Denied 401 "Missing or invalid authorization header. Bearer token required.".

Definition invalid_token : auth_result :=
  Denied 401 "Invalid or expired access token.".

Definition untrusted_issuer : auth_result :=
  Denied 403 "Access token was not issued by a trusted issuer for this tenant.".

Definition wrong_audience : auth_result :=
  Denied 403 "Access token has incorrect audience for this tenant.".

Definition insufficient_scopes : auth_result :=
  Denied 403 "Access token does not have sufficient scopes for this request.".

(** [getSigningKey] for the value [getTokenKid] returns.  The entries of a
    JWKS document have a string [kid], so a [kid] that is not a string
    equals none of them: only a key cached under the same text can be
    returned. *)
Definition getSigningKey_for (keysUrl : string) (kid_wanted : jsval)
    (now : Z) (fetch : outcome (list jwk)) (now' : Z)
    (keyCache : gmap string cached_key) : outcome jwk * gmap string cached_key :=
  match kid_wanted with
  | JStr k => getSigningKey keysUrl k now fetch now' keyCache
  | _ =>
      match keyCache !! (keysUrl +:+ ":" +:+ to_string kid_wanted) with
      | Some c =>
          if Z.ltb (now - timestamp c) KEY_CACHE_TTL then (Ok (key c), keyCache)
          else (Throw generic_error, keyCache)
      | None => (Throw generic_error, keyCache)
      end
  end.

Section Authorize.

(** [JSON.parse(Buffer.from(segment, 'base64').toString('utf-8'))] *)
Variable parse_segment : string -> outcome jsval.
(** [njwt.verify(accessToken, jwk2pem(key), 'RS256')] *)
Variable verify : string -> jwk -> outcome jwt_body.
(** [process.env.API_BASE_URL] *)
Variable API_BASE_URL : option string.

(** [accessToken.split('.')[i]], handed to [Buffer.from]. *)
Definition segment (i : nat) (accessToken : string) : outcome string :=
  match nth_error (JsString.split "." accessToken) i with
  | Some s => Ok s
  | None =>
      Throw (new_Error "The first argument must be of type string or an instance of Buffer, ArrayBuffer, or Array or an Array-like Object. Received undefined")
  end.

(** Extracts the kid (key ID) from a JWT token header. *)
Definition getTokenKid (accessToken : string) : outcome jsval :=
  try_catch
    (s ← segment 0 accessToken; header ← parse_segment s; get_prop header "kid")
    (fun error => Throw (new_Error "Unable to parse token header")).

(** Extracts the issuer from a JWT token body. *)
Definition getTokenIssuer (accessToken : string) : outcome jsval :=
  try_catch
    (s ← segment 1 accessToken; body ← parse_segment s; get_prop body "iss")
    (fun error => Throw (new_Error "Unable to parse token body")).

(** Validates that the token issuer matches the tenant configuration. *)
Definition validateIssuer (issuer : jsval) (tenantConfig : tenant_config) : bool :=
  strict_eq_str issuer (TenantConfig.issuer tenantConfig).

(** Validates required scopes for the request. *)
Definition validateScopes (tokenScopes : list string) (httpMethod : string) : bool :=
  true.

(** [Array.isArray(tokenAud) ? tokenAud.includes(expectedAudience)
      : tokenAud === expectedAudience || tokenAud.startsWith(expectedAudience)] *)
Definition validAudience (tokenAud : claim) (expectedAudience : string) : bool :=
  match tokenAud with
  | ClaimArray l => existsb (String.eqb expectedAudience) l
  | ClaimString s => String.eqb s expectedAudience || String.prefix expectedAudience s
  | ClaimMissing => false
  end.

(** [Array.isArray(scope) ? scope : (scope || '').split(' ')] *)
Definition scopesArray (scope : claim) : list string :=
  match scope with
  | ClaimArray l => l
  | ClaimString s => JsString.split " " s
  | ClaimMissing => JsString.split " " ""
  end.

(** [headers.authorization || headers.Authorization || ''] *)
Definition authHeader (headers : list (string * string)) : string :=
  or_default (assoc "authorization" headers)
    (or_default (assoc "Authorization" headers) "").

(** [process.env.API_BASE_URL ? `${process.env.API_BASE_URL}/${tenantConfig.id}` : null] *)
Definition expectedAudience (tenantConfig : tenant_config) : option string :=
  if truthy_str API_BASE_URL
  then Some (default "" API_BASE_URL +:+ "/" +:+ id tenantConfig)
  else None.

(** The audience test fails: an audience is expected, the token has one,
    and it is not valid. *)
Definition audienceRejected (tenantConfig : tenant_config) (verifiedJWT : jwt_body)
    : bool :=
  match expectedAudience tenantConfig with
  | Some expected =>
      claim_truthy (aud verifiedJWT) && negb (validAudience (aud verifiedJWT) expected)
  | None => false
  end.

(** Main authorization function: validates the JWT and authorizes the
    request.  [now], [fetch] and [now'] are what [getSigningKey] reads:
    the clock, the JWKS document and the clock when the key is stored. *)
Definition authorizeRequest (tenantConfig : tenant_config) (httpMethod : string)
    (headers : list (string * string))
    (now : Z) (fetch : outcome (list jwk)) (now' : Z)
    (keyCache : gmap string cached_key) : auth_result * gmap string cached_key :=
  match match_bearer (authHeader headers) with
  | None => (missing_header, keyCache)
  | Some accessToken =>
      match getTokenIssuer accessToken with
      | Throw err => (invalid_token, keyCache)
      | Ok issuer =>
          if negb (validateIssuer issuer tenantConfig) then (untrusted_issuer, keyCache)
          else
            match getTokenKid accessToken with
            | Throw err => (invalid_token, keyCache)
            | Ok kid =>
                let '(key, keyCache') :=
                  getSigningKey_for (keys_endpoint tenantConfig) kid now fetch now'
                    keyCache in
                match (key ← key; verify accessToken key) with
                | Throw err => (invalid_token, keyCache')
                | Ok verifiedJWT =>
                    if audienceRejected tenantConfig verifiedJWT
                    then (wrong_audience, keyCache')
                    else if negb (validateScopes (scopesArray (scope verifiedJWT))
                                    httpMethod)
                    then (insufficient_scopes, keyCache')
                    else (Authorized accessToken, keyCache')
                end
            end
      end
  end.

End Authorize.

End Authorizer.

(* ===================================================================== *)
(** * [middleware/tenant_middleware.js], [middleware/auth_middleware.js] *)
(* ===================================================================== *)

Module Middleware.

Import TenantConfig.

(** A middleware either answers, or calls [next()] after attaching a value
    to the request. *)
Inductive passed (A : Type) : Type :=
  | Next (attached : A)
  | Done (r : answer).
Arguments Next {A} attached.
Arguments Done {A} r.

(** Extracts and validates the tenant of the request; on success
    [req.tenantConfig] is the attached value. *)
Definition tenantMiddleware (configData : outcome (list tenant_config))
    (tenantId : option string) : passed tenant_config :=
  if negb (truthy_str tenantId) then
    Done (json 400 [("error", JStr "Bad Request");
                    ("message", JStr "Tenant ID is required in the URL path.")])
  else
    let tenantId := default "" tenantId in
    match getTenantConfig configData tenantId with
    | None =>
        Done (json 404 [("error", JStr "Not Found");
                        ("message", JStr ("Tenant '" +:+ tenantId +:+ "' not found."))])
    | Some tenantConfig => Next tenantConfig
    end.

(** The double-quote character of the challenge parameters. *)
Definition dquote : string := String (ascii_of_nat 34) EmptyString.

(** [`${process.env.PROXY_BASE_URL}/.well-known/oauth-protected-resource/${req.tenantConfig.id}/${req.params[0]}`] *)
Definition resourceMetadataUrl (env : environment) (tenantConfig : tenant_config)
    (params0 : string) : string :=
  PROXY_BASE_URL env +:+ "/.well-known/oauth-protected-resource/" +:+ id tenantConfig
  +:+ "/" +:+ params0.

Definition wwwAuthValue (env : environment) (tenantConfig : tenant_config)
    (params0 message : string) : string :=
  "Bearer error=" +:+ dquote +:+ "invalid_or_misssing_jwt" +:+ dquote
  +:+ ", error_description=" +:+ dquote +:+ message +:+ dquote
  +:+ ", resource_metadata=" +:+ dquote
  +:+ resourceMetadataUrl env tenantConfig params0 +:+ dquote.

(** Validates the JWT authorization; on success [req.authContext.accessToken]
    is the attached value.  [authorizeRequest] is the authorizer as the
    middleware calls it, with the tenant and the headers of the request;
    [tenantConfig] is [req.tenantConfig], absent when the tenant middleware
    did not run. *)
Definition authMiddleware (env : environment)
    (authorizeRequest : tenant_config -> list (string * string) -> Authorizer.auth_result)
    (tenantConfig : option tenant_config) (headers : list (string * string))
    (params0 : string) : passed string :=
  match tenantConfig with
  | None =>
      Done (json 500
              [("error", JStr "Internal Server Error");
               ("message",
                JStr "Tenant configuration not available. Ensure tenant middleware runs first.")])
  | Some tenantConfig =>
      match authorizeRequest tenantConfig headers with
      | Authorizer.Denied statusCode message =>
          Done {| status := statusCode;
                  headers :=
                    [("WWW-Authenticate", wwwAuthValue env tenantConfig params0 message)];
                  body :=
                    JObj [("error",
                           JStr (if Z.eqb statusCode 401 then "Unauthorized" else "Forbidden"));
                          ("message", JStr message)] |}
      | Authorizer.Authorized token => Next token
      end
  end.

End Middleware.

(* ===================================================================== *)
(** * [routes/proxy_routes.js]: the forwarder without the vault exchange,
      and the route with its middlewares *)
(* ===================================================================== *)

Module ProxyRoutesPlain.

Import TenantConfig ProxyRoutes.

(** The handler of the revision that does not know the vault: the request
    goes to the backend with the two mirrored headers. *)
Definition handler (tenantConfig : tenant_config) (req : request)
    (axios : axios_request -> outcome backend_response) : reply * list axios_request :=
  let outbound :=
    {| ax_method := req_method req;
       ax_url := backend_url tenantConfig +:+ "/" +:+ req_params0 req;
       ax_headers :=
         [("Content-Type",
           or_default (assoc "content-type" (req_headers req)) "application/json");
          ("Accept", or_default (assoc "accept" (req_headers req)) "application/json")];
       ax_data := if includes ["POST"; "PUT"; "PATCH"] (req_method req)
                  then req_body req else JUndefined;
       ax_params := req_query req;
       ax_timeout := 30000 |} in
  (match axios outbound with
   | Ok backendResponse => Respond (relay backendResponse)
   | Throw error => Respond (proxy_error error)
   end,
   [outbound]).

End ProxyRoutesPlain.

Module ProxyRoute.

Import TenantConfig Middleware.

(** The request as Express hands it to the first middleware of
    [app.all('/:tenantId/*', tenantMiddleware, authMiddleware, handler)]. *)
Record inbound : Type := mkInbound {
  in_method : string;
  in_tenantId : option string;
  in_params0 : string;
  in_headers : list (string * string);
  in_body : jsval;
  in_query : list (string * qvalue)
}.

(** The route: the two middlewares, then the handler with what they
    attached to the request. *)
Definition route (env : environment) (configData : outcome (list tenant_config))
    (authorizeRequest : tenant_config -> list (string * string) -> Authorizer.auth_result)
    (vault : string -> outcome (option TokenVault.vault_result))
    (axios : ProxyRoutes.axios_request -> outcome ProxyRoutes.backend_response)
    (req : inbound) : reply * list ProxyRoutes.axios_request :=
  match tenantMiddleware configData (in_tenantId req) with
  | Done r => (Respond r, [])
  | Next tenantConfig =>
      match authMiddleware env authorizeRequest (Some tenantConfig) (in_headers req)
              (in_params0 req) with
      | Done r => (Respond r, [])
      | Next accessToken =>
          ProxyRoutes.handler tenantConfig
            {| ProxyRoutes.req_method := in_method req;
               ProxyRoutes.req_params0 := in_params0 req;
               ProxyRoutes.req_headers := in_headers req;
               ProxyRoutes.req_body := in_body req;
               ProxyRoutes.req_query := in_query req;
               ProxyRoutes.req_accessToken := accessToken |}
            vault axios
      end
  end.

End ProxyRoute.

(* ===================================================================== *)
(** * The metadata documents: [routes/protected_resource_metadata.js],
      [routes/authorization_server_metadata.js] *)
(* ===================================================================== *)

Module Metadata.

Import TenantConfig.

(** [res.status(200).json(metadata)], or an error answer. *)
Inductive served (D : Type) : Type :=
  | Document (metadata : D)
  | Problem (r : answer).
Arguments Document {D} metadata.
Arguments Problem {D} r.

Record protected_resource : Type := mkProtectedResource {
  resource : string;
  authorization_servers : list string;
  resource_name : string
}.

(** GET /.well-known/oauth-protected-resource/:tenantId/*.  Nothing in the
    [try] block throws, so its [catch] (a 500 answer) does not appear. *)
Definition protected_resource_metadata (env : environment)
    (configData : outcome (list tenant_config)) (tenantId proxyPath : string)
    : served protected_resource :=
  match getTenantConfig configData tenantId with
  | None => Problem (tenant_not_found tenantId)
  | Some tenant =>
      Document
        {| resource := PROXY_BASE_URL env +:+ "/" +:+ tenantId +:+ "/" +:+ proxyPath;
           authorization_servers :=
             [PROXY_BASE_URL env +:+ "/" +:+ tenantId +:+ "/" +:+ proxyPath];
           resource_name := "Okta AI Relay Protected Resource - " +:+ tenantId |}
  end.

Record authorization_server : Type := mkAuthorizationServer {
  issuer : string;
  authorization_endpoint : string;
  token_endpoint : string;
  jwks_uri : string;
  registration_endpoint : string;
  scopes_supported : list string;
  response_types_supported : list string;
  response_modes_supported : list string;
  grant_types_supported : list string;
  token_endpoint_auth_methods_supported : list string;
  code_challenge_methods_supported : list string;
  protected_resources : list string
}.

(** GET /.well-known/oauth-authorization-server/:tenantId/* *)
Definition authorization_server_metadata (env : environment)
    (configData : outcome (list tenant_config)) (tenantId proxyPath : string)
    : served authorization_server :=
  match getTenantConfig configData tenantId with
  | None => Problem (tenant_not_found tenantId)
  | Some tenant =>
      Document
        {| issuer := TenantConfig.issuer tenant;
           authorization_endpoint := PROXY_BASE_URL env +:+ "/authorize/" +:+ tenantId;
           token_endpoint := PROXY_BASE_URL env +:+ "/token";
           jwks_uri := keys_endpoint tenant;
           registration_endpoint := PROXY_BASE_URL env +:+ "/register";
           scopes_supported := external_scopes tenant;
           response_types_supported := ["code"];
           response_modes_supported := ["query"];
           grant_types_supported := ["authorization_code"];
           token_endpoint_auth_methods_supported :=
             ["none"; "client_secret_basic"; "client_secret_post"];
           code_challenge_methods_supported := ["S256"];
           protected_resources :=
             [PROXY_BASE_URL env +:+ "/.well-known/oauth-protected-resource/"
              +:+ tenantId +:+ "/" +:+ proxyPath] |}
  end.

End Metadata.

(* ===================================================================== *)
(** * [lib/okta_auth0_exchange.js] *)
(* ===================================================================== *)

Module OktaAuth0Exchange.

Import TenantConfig.

(** The payload of a client assertion. *)
Record assertion_payload : Type := mkAssertionPayload {
  iss : string;
  sub : string;
  aud : string;
  iat : Z;
  exp : Z;
  jti : string
}.

(** The body posted to the token endpoint of the vault for a token
    exchange. *)
Record exchange_request : Type := mkExchangeRequest {
  grant_type : string;
  subject_token : string;
  subject_token_type : string;
  client_id : string;
  client_secret : string;
  audience : string;
  scope : string
}.

Section Exchange.

(** [fs.readFileSync(privateKeyPath, 'utf8')] *)
Variable readFileSync : string -> outcome string.
(** [jwt.sign(payload, privateKey, { algorithm: 'RS256', keyid: kid })] *)
Variable sign : assertion_payload -> string -> string -> outcome string.
(** [axios.post(url, body, ...)] with a JSON body, as the data of the
    response or the error axios throws. *)
Variable post_json : string -> exchange_request -> outcome jsval.
(** [axios.post(url, body, ...)] with a form-encoded body. *)
Variable post_form : string -> string -> outcome jsval.

(** Generates a client assertion JWT for private_key_jwt authentication.
    [now] is [Date.now()] and [jti] the value of [crypto.randomUUID()]. *)
Definition generateClientAssertion (clientId tokenEndpoint privateKeyPath kid : string)
    (now : Z) (jti : string) : outcome string :=
  privateKey ← readFileSync privateKeyPath;
  let now := now / 1000 in
  let payload :=
    {| iss := clientId;
       sub := clientId;
       aud := tokenEndpoint;
       iat := now;
       exp := now + 300;
       jti := jti |} in
  sign payload privateKey kid.

Definition getExchangedAuth0Token
    (auth0Domain accessToken clientId clientSecret scope audience connection : string)
    : outcome jsval :=
  let tokenUrl := "https://" +:+ auth0Domain +:+ "/oauth/token" in
  let subjectTokenType := "https://danc-ai-beta/gateway/" +:+ connection in
  data ← post_json tokenUrl
           {| grant_type := "urn:ietf:params:oauth:grant-type:token-exchange";
              subject_token := accessToken;
              subject_token_type := subjectTokenType;
              client_id := clientId;
              client_secret := clientSecret;
              audience := audience;
              scope := scope |};
  get_prop data "access_token".

Definition getAuth0VaultTokenFromOktaToken
    (auth0Domain accessToken clientId clientSecret scope audience connection : string)
    : outcome jsval :=
  getExchangedAuth0Token auth0Domain accessToken clientId clientSecret scope audience
    connection.

Definition getAuth0ConnectedAcctTokenFromOktaToken
    (auth0Domain accessToken clientId clientSecret connection : string) : outcome jsval :=
  let connectedAccountScope :=
    "create:me:connected_accounts read:me:connected_accounts delete:me:connected_accounts" in
  let connectedAccountAudience := "https://" +:+ auth0Domain +:+ "/me/" in
  getExchangedAuth0Token auth0Domain accessToken clientId clientSecret
    connectedAccountScope connectedAccountAudience connection.

(** Completes the Okta login and gets the ID token of the user.
    [redirectUri] is the value of [parameters.get("redirect_uri")]. *)
Definition completeOktaOIDCLogin (tokenEndpoint code : string)
    (redirectUri : option string) (scope client_id client_secret : string)
    : outcome jsval :=
  let tokenRequestBody :=
    usp_set (usp_set (usp_set (usp_set (usp_set (usp_set []
      "grant_type" "authorization_code")
      "code" code)
      "redirect_uri" (tpl redirectUri))
      "client_id" client_id)
      "client_secret" client_secret)
      "scope" scope in
  data ← post_form tokenEndpoint (Url.serialize tokenRequestBody);
  get_prop data "id_token".

(** The [catch] block of the two ID-JAG exchanges; [what] is the text that
    tells them apart. *)
Definition id_jag_failure {A} (what : string) (error : js_error) : outcome A :=
  let errorData :=
    match response error with
    | Some error_response => resp_data error_response
    | None => JUndefined
    end in
  if truthy errorData then
    d ← get_prop errorData "error_description";
    e ← get_prop errorData "error";
    let errorMessage := JsString.or (JsString.or d e) (JStr "Unknown error") in
    Throw (new_Error (what +:+ " failed: " +:+ to_string errorMessage))
  else
    Throw (new_Error (what +:+ " request failed: " +:+ Js.message error)).

(** Exchanges the ID token for an ID-JAG. *)
Definition getIdJagFromOkta (tokenEndpoint : string) (tenantConfig : option tenant_config)
    (idToken : jsval) (clientId clientSecretKeyFile kid : string)
    (now : Z) (jti : string) : outcome jsval :=
  match tenantConfig with
  | None => Throw (new_Error "tenantConfig is required")
  | Some tenantConfig =>
      if negb (truthy idToken) then
        Throw (new_Error "idJag (Identity Assertion JWT Authorization Grant) is required")
      else
        let requestBody : URLSearchParams :=
          [("grant_type", "urn:ietf:params:oauth:grant-type:token-exchange");
           ("requested_token_type", "urn:ietf:params:oauth:token-type:id-jag");
           ("audience", issuer tenantConfig);
           ("scope", JsString.join " " (external_scopes tenantConfig));
           ("subject_token_type", "urn:ietf:params:oauth:token-type:id_token");
           ("subject_token", to_string idToken)] in
        clientAssertion ←
          generateClientAssertion clientId tokenEndpoint clientSecretKeyFile kid now jti;
        let requestBody :=
          (requestBody
           ++ [("client_id", clientId);
               ("client_assertion_type",
                "urn:ietf:params:oauth:client-assertion-type:jwt-bearer");
               ("client_assertion", clientAssertion)])%list in
        try_catch
          (data ← post_form tokenEndpoint (Url.serialize requestBody);
           get_prop data "access_token")
          (id_jag_failure "ID-JAG exchange")
  end.

(** Exchanges the ID-JAG for the access token of the agent. *)
Definition getAccessTokenFromIDJag (tenantConfig : option tenant_config)
    (idJagToken : jsval) (clientId clientSecretKeyFile kid : string)
    (now : Z) (jti : string) : outcome jsval :=
  match tenantConfig with
  | None => Throw (new_Error "tenantConfig is required")
  | Some tenantConfig =>
      if negb (truthy idJagToken) then
        Throw (new_Error "idJag (Identity Assertion JWT Authorization Grant) is required")
      else
        let tokenEndpoint := issuer tenantConfig +:+ "/v1/token" in
        clientAssertion ←
          generateClientAssertion clientId tokenEndpoint clientSecretKeyFile kid now jti;
        let requestBody : URLSearchParams :=
          [("grant_type", "urn:ietf:params:oauth:grant-type:jwt-bearer");
           ("assertion", to_string idJagToken);
           ("client_id", clientId);
           ("client_assertion_type",
            "urn:ietf:params:oauth:client-assertion-type:jwt-bearer");
           ("client_assertion", clientAssertion)] in
        try_catch
          (data ← post_form tokenEndpoint (Url.serialize requestBody);
           get_prop data "access_token")
          (id_jag_failure "ID-JAG Access exchange")
  end.

End Exchange.

End OktaAuth0Exchange.


(* ===================================================================== *)
(** * Further examples *)
(* ===================================================================== *)

Module Examples.

Import TenantConfig.

(** A tenant without a vault connection. *)
Definition direct : tenant_config :=
  {| id := "direct"; name := "Direct";
     backend_url := "https://mcp.example";
     issuer := "https://idp.example/oauth2/default";
     keys_endpoint := "https://idp.example/oauth2/default/v1/keys";
     vault_connection := None;
     external_scopes := [] |}.

(** An authorizer that accepts the bearer token [AT1] and nothing else. *)
Definition authorizer (tenantConfig : tenant_config) (headers : list (string * string))
    : Authorizer.auth_result :=
  match assoc "authorization" headers with
  | Some "Bearer AT1" => Authorizer.Authorized "AT1"
  | _ => Authorizer.invalid_token
  end.

(** The scenario request as it reaches the route, and the same request
    with another bearer token. *)
Definition inbound (authorization : string) : ProxyRoute.inbound :=
  {| ProxyRoute.in_method := "POST";
     ProxyRoute.in_tenantId := Some "github";
     ProxyRoute.in_params0 := "mcp";
     ProxyRoute.in_headers :=
       [("host", "proxy.example"); ("authorization", authorization);
        ("content-type", "application/json"); ("accept", "text/event-stream")];
     ProxyRoute.in_body := JObj [("jsonrpc", JStr "2.0")];
     ProxyRoute.in_query := [("session", QStr "7")] |}.

(** A request filed by /authorize at time 0 under the state [OUT1]. *)
Definition filed_request : OutboundRequestCache.entry :=
  {| OutboundRequestCache.tenantId := "github";
     OutboundRequestCache.parameters := [];
     OutboundRequestCache.originalState := Some "S1";
     OutboundRequestCache.originalParameters := Scenario.inbound_query "S1";
     OutboundRequestCache.accessToken := None;
     OutboundRequestCache.createdAt := 0 |}.

Definition filed : stores :=
  {| oidcCache := ∅;
     outboundRequestsCache := <["OUT1" := filed_request]> ∅;
     connectedAccountsCache := ∅;
     returningAuthorizationCache := ∅ |}.

Definition callback_query (code : string) : OidcCallback.callback_query :=
  {| OidcCallback.q_state := Some "OUT1"; OidcCallback.q_code := Some code;
     OidcCallback.q_error := None; OidcCallback.q_error_description := None |}.

(** The parts of a token: the header [H] names [kid1]; the body [P] names
    the issuer of the tenant, the body [Q] another one. *)
Definition parse_segment (s : string) : outcome jsval :=
  if String.eqb s "H" then Ok (JObj [("kid", JStr "kid1")])
  else if String.eqb s "P" then Ok (JObj [("iss", JStr "https://idp.example/oauth2/default")])
  else if String.eqb s "Q" then Ok (JObj [("iss", JStr "https://elsewhere.example")])
  else Throw (new_Error "Unexpected end of JSON input").

Definition signing_key : JwtAuthorizer.jwk :=
  {| JwtAuthorizer.kid := "kid1"; JwtAuthorizer.material := "n1" |}.

(** Every token verifies, with an audience that extends the one of the
    tenant [github]. *)
Definition verify (accessToken : string) (key : JwtAuthorizer.jwk)
    : outcome Authorizer.jwt_body :=
  Ok {| Authorizer.aud := Authorizer.ClaimString "https://proxy.example/github-admin";
        Authorizer.scope := Authorizer.ClaimString "repo" |}.

Definition readFileSync (path : string) : outcome string := Ok "KEY".

Definition sign (payload : OktaAuth0Exchange.assertion_payload) (privateKey kid : string)
    : outcome string :=
  Ok "ASSERTION".

(** An identity provider that answers every token request with 401. *)
Definition post_form_401 (url body : string) : outcome jsval :=
  Throw (Scenario.vault_401 "invalid_grant").

(** A vault that cannot be reached. *)
Definition post_json_down (url : string) (body : OktaAuth0Exchange.exchange_request)
    : outcome jsval :=
  Throw Scenario.unreachable.

End Examples.

(* ===================================================================== *)
(** * Properties *)
(* ===================================================================== *)

(* ===================================================================== *)
(** * Sanity checks of the model against known values *)
(* ===================================================================== *)

(** SHA-256 of "abc" (FIPS 180-4, appendix B.1), in base64url. *)
Example sha256_abc :
  sha256_base64url "abc" = "ungWv48Bz-pBQUDeXa4iI7ADYaOWF3qctBD_YfIAFa0".
Proof. vm_compute. reflexivity. Qed.

(** A message of 56 bytes, which needs a second block for its padding. *)
Example sha256_two_blocks :
  sha256_base64url "aaaaaaaaaaaaaaaaaaaaaaaaaaaaaaaaaaaaaaaaaaaaaaaaaaaaaaaa"
  = "s1Q5pKxvCUi21vnjxq8PX1kM4g8b3nCQ73lwaG7Gc4o".
Proof. vm_compute. reflexivity. Qed.

(** The code verifier and challenge of RFC 7636, appendix B. *)
Example pkce_rfc7636 :
  TokenRoute.validatePKCE (Some Scenario.verifier) (Some Scenario.challenge) (Some "S256")
  = true.
Proof. vm_compute. reflexivity. Qed.

Example pkce_plain_rejected :
  TokenRoute.validatePKCE (Some Scenario.challenge) (Some Scenario.challenge) (Some "plain")
  = false.
Proof. vm_compute. reflexivity. Qed.

Example query_param_reads_state :
  Url.query_param "state" "http://c/cb?code=R1&state=S%201#x" = Some "S 1".
Proof. vm_compute. reflexivity. Qed.

Example serialize_escapes :
  Url.serialize [("state", "a&b c")] = "state=a%26b+c".
Proof. vm_compute. reflexivity. Qed.

Example express_parses_inbound_query :
  Express.query (Scenario.inbound_query "S1") = Some (Scenario.inbound_req_query "S1")
  /\ new_URLSearchParams (Scenario.inbound_req_query "S1") = Scenario.inbound_query "S1".
Proof. split; reflexivity. Qed.

Example repeated_parameter_is_joined :
  Express.query [("state", "a"); ("state", "b")] = Some [("state", QArr [QStr "a"; QStr "b"])]
  /\ new_URLSearchParams [("state", QArr [QStr "a"; QStr "b"])] = [("state", "a,b")].
Proof. split; reflexivity. Qed.

Example no_link_flow_S1 :
  fst (Scenario.no_link_flow "S1") = Redirect "http://c/cb?code=R1&state=S1".
Proof. vm_compute. reflexivity. Qed.

(* ===================================================================== *)
(** * POST /token and the return-code cache *)
(* ===================================================================== *)

Section TokenFacts.
Import ReturnAuthzCache TokenRoute.

Lemma truthy_str_Some o : truthy_str o = true -> exists s, o = Some s /\ s <> "".
Proof.
  destruct o as [s|]; simpl; [|discriminate].
  intros H. exists s. split; [reflexivity|].
  intros ->. discriminate.
Qed.

Lemma opt_string_eqb_eq a b : opt_string_eqb a b = true <-> a = b.
Proof.
  destruct a as [x|], b as [y|]; simpl; split; try congruence; try discriminate.
  - intros H. apply String.eqb_eq in H. congruence.
  - intros [= ->]. apply String.eqb_refl.
Qed.

Lemma params_ok_inv b :
  params_ok b = true ->
  grant_type b = Some "authorization_code" /\ truthy_str (code b) = true
  /\ truthy_str (client_id b) = true /\ truthy_str (code_verifier b) = true
  /\ truthy_str (redirect_uri b) = true.
Proof.
  unfold params_ok. rewrite !andb_true_iff, opt_string_eqb_eq. tauto.
Qed.

(** Past the parameter checks the handler is the lookup, the deletion and
    the checks on the cached entry. *)
Lemma post_token_params_ok b k now c :
  params_ok b = true -> code b = Some k ->
  post_token b now c =
    let '(cachedAuthz, cache1) := getCacheItem k now c in
    let cache2 := clearCacheItem k cache1 in
    match cachedAuthz with
    | None => (invalid_grant_unknown_code, cache2)
    | Some cachedAuthz =>
        if negb (truthy_str (usp_get (originalParameters cachedAuthz) "code_challenge")) then
          (json 400
             [("error", JStr "invalid_request");
              ("error_description",
               JStr "No code_challenge was found in the original authorization request.")],
           cache2)
        else if truthy_str (usp_get (originalParameters cachedAuthz) "client_id")
                && negb (opt_string_eqb (usp_get (originalParameters cachedAuthz) "client_id")
                                        (client_id b)) then
          (json 400
             [("error", JStr "invalid_grant");
              ("error_description",
               JStr "The client_id does not match the original authorization request.")],
           cache2)
        else
          (json 200
             [("access_token", of_opt (accessToken cachedAuthz));
              ("token_type", JStr "Bearer")],
           cache2)
    end.
Proof.
  intros Hok Hk. apply params_ok_inv in Hok as (Hg & Hc & Hi & Hv & Hr).
  unfold post_token.
  rewrite Hg, Hc, Hi, Hv, Hr, Hk. simpl. reflexivity.
Qed.

Lemma post_token_params_bad b now c :
  params_ok b = false ->
  status (fst (post_token b now c)) = 400 /\ snd (post_token b now c) = c.
Proof.
  unfold params_ok, post_token. intros H.
  destruct (opt_string_eqb (grant_type b) _); simpl in *; [|auto].
  destruct (truthy_str (code b)); simpl in *; [|auto].
  destruct (truthy_str (client_id b)); simpl in *; [|auto].
  destruct (truthy_str (code_verifier b)); simpl in *; [|auto].
  destruct (truthy_str (redirect_uri b)); simpl in *; [discriminate|auto].
Qed.

Lemma getCacheItem_cases k now c :
  (fst (getCacheItem k now c) = None \/ fst (getCacheItem k now c) = c !! k)
  /\ (snd (getCacheItem k now c) = c \/ snd (getCacheItem k now c) = delete k c).
Proof.
  unfold getCacheItem. destruct (c !! k) as [e|] eqn:E; simpl; [|auto].
  destruct (Z.gtb _ _); simpl; auto.
Qed.

Lemma getCacheItem_clear k now c :
  clearCacheItem k (snd (getCacheItem k now c)) = delete k c.
Proof.
  unfold clearCacheItem.
  destruct (getCacheItem_cases k now c) as [_ [-> | ->]]; [reflexivity|].
  apply delete_delete_eq.
Qed.

Lemma getCacheItem_absent k now c :
  c !! k = None -> getCacheItem k now c = (None, c).
Proof. unfold getCacheItem. intros ->. reflexivity. Qed.

(** Whatever the outcome, a request that reaches the lookup leaves the
    cache without its code. *)
Lemma post_token_consumes b k now c :
  params_ok b = true -> code b = Some k ->
  snd (post_token b now c) = delete k c.
Proof.
  intros Hok Hk. rewrite (post_token_params_ok b k now c Hok Hk).
  rewrite <- (getCacheItem_clear k now c).
  destruct (getCacheItem k now c) as [[e|] c1]; simpl; [|reflexivity].
  destruct (negb _); [reflexivity|].
  destruct (_ && _); reflexivity.
Qed.

Lemma post_token_absent b k now c :
  params_ok b = true -> code b = Some k -> c !! k = None ->
  fst (post_token b now c) = invalid_grant_unknown_code.
Proof.
  intros Hok Hk Hc. rewrite (post_token_params_ok b k now c Hok Hk).
  rewrite (getCacheItem_absent k now c Hc). reflexivity.
Qed.

Lemma post_token_keeps_absent b k now c :
  c !! k = None -> snd (post_token b now c) !! k = None.
Proof.
  intros Hc. destruct (params_ok b) eqn:Hok.
  - destruct (truthy_str_Some (code b)) as (k' & Hk' & _).
    { apply params_ok_inv in Hok. tauto. }
    rewrite (post_token_consumes b k' now c Hok Hk').
    destruct (decide (k' = k)) as [->|Hne].
    + apply lookup_delete_eq.
    + rewrite lookup_delete_ne; auto.
  - destruct (post_token_params_bad b now c Hok) as [_ ->]. exact Hc.
Qed.

(** A token is only handed out by a request that reaches the lookup. *)
Lemma post_token_200_params_ok b now c :
  status (fst (post_token b now c)) = 200 -> params_ok b = true.
Proof.
  intros H. destruct (params_ok b) eqn:Hok; [reflexivity|].
  destruct (post_token_params_bad b now c Hok) as [H400 _]. lia.
Qed.

Lemma post_token_never_200_absent b k now c :
  code b = Some k -> c !! k = None -> status (fst (post_token b now c)) = 400.
Proof.
  intros Hk Hc. destruct (params_ok b) eqn:Hok.
  - rewrite (post_token_absent b k now c Hok Hk Hc). reflexivity.
  - apply post_token_params_bad, Hok.
Qed.

Lemma run_cons ev evs c :
  run (ev :: evs) c =
    (match fst (step ev c) with
     | Some br => br :: fst (run evs (snd (step ev c)))
     | None => fst (run evs (snd (step ev c)))
     end, snd (run evs (snd (step ev c)))).
Proof.
  simpl. destruct (step ev c) as [o c1]. simpl.
  destruct (run evs c1) as [rs c2]. reflexivity.
Qed.

Lemma step_keeps_absent ev k c :
  not_issued k ev -> c !! k = None -> snd (step ev c) !! k = None.
Proof.
  destruct ev as [k' tok st tid ps now | b now]; simpl; intros Hni Hc.
  - rewrite lookup_insert_ne; auto.
  - pose proof (post_token_keeps_absent b k now c Hc) as H.
    destruct (post_token b now c); exact H.
Qed.

Lemma run_keeps_absent evs k c :
  Forall (not_issued k) evs -> c !! k = None -> snd (run evs c) !! k = None.
Proof.
  intros Hf. revert c. induction Hf as [|ev evs Hev _ IH]; intros c Hc.
  - exact Hc.
  - rewrite run_cons. simpl. apply IH, step_keeps_absent; assumption.
Qed.

Lemma successes_cons ev evs k c :
  successes k (ev :: evs) c =
    ((match fst (step ev c) with
      | Some br => if obtained k br then 1 else 0
      | None => 0
      end) + successes k evs (snd (step ev c)))%nat.
Proof.
  unfold successes. rewrite run_cons. simpl.
  destruct (fst (step ev c)) as [br|]; [|reflexivity].
  rewrite filter_cons. destruct (obtained k br); simpl.
  - destruct (decide (true = true)); [reflexivity|congruence].
  - destruct (decide (false = true)); [discriminate|reflexivity].
Qed.

Lemma step_token_not_obtained ev k c br :
  c !! k = None -> fst (step ev c) = Some br -> obtained k br = false.
Proof.
  destruct ev as [k' tok st tid ps now | b now]; simpl; [discriminate|].
  intros Hc. destruct (post_token b now c) as [r c'] eqn:E. simpl.
  intros [= <-]. unfold obtained. simpl.
  destruct (opt_string_eqb (code b) (Some k)) eqn:Hk; [|reflexivity].
  apply opt_string_eqb_eq in Hk.
  pose proof (post_token_never_200_absent b k now c Hk Hc) as H.
  rewrite E in H. simpl in H. rewrite H. reflexivity.
Qed.

Lemma successes_absent evs k c :
  Forall (not_issued k) evs -> c !! k = None -> successes k evs c = 0%nat.
Proof.
  intros Hf. revert c. induction Hf as [|ev evs Hev _ IH]; intros c Hc.
  - reflexivity.
  - rewrite successes_cons, IH by (apply step_keeps_absent; assumption).
    destruct (fst (step ev c)) as [br|] eqn:E; [|reflexivity].
    rewrite (step_token_not_obtained ev k c br Hc E). reflexivity.
Qed.

Lemma step_obtained_consumes ev k c br :
  fst (step ev c) = Some br -> obtained k br = true -> snd (step ev c) !! k = None.
Proof.
  destruct ev as [k' tok st tid ps now | b now]; simpl; [discriminate|].
  destruct (post_token b now c) as [r c'] eqn:E. simpl.
  intros [= <-]. unfold obtained. simpl. rewrite andb_true_iff.
  intros [Hk H200]. apply opt_string_eqb_eq in Hk. apply Z.eqb_eq in H200.
  assert (Hok : params_ok b = true).
  { apply (post_token_200_params_ok b now c). rewrite E. exact H200. }
  pose proof (post_token_consumes b k now c Hok Hk) as Hc.
  rewrite E in Hc. simpl in Hc. rewrite Hc. apply lookup_delete_eq.
Qed.

Lemma successes_at_most_one evs k c :
  Forall (not_issued k) evs -> (successes k evs c <= 1)%nat.
Proof.
  intros Hf. revert c. induction Hf as [|ev evs Hev Hf IH]; intros c.
  - unfold successes. simpl. lia.
  - rewrite successes_cons.
    destruct (fst (step ev c)) as [br|] eqn:E; [|apply IH].
    destruct (obtained k br) eqn:Ho; [|apply IH].
    rewrite (successes_absent evs k _ Hf (step_obtained_consumes ev k c br E Ho)). lia.
Qed.
End TokenFacts.

Section TokenClaims.
Import ReturnAuthzCache TokenRoute.

(** The handler reads [code_verifier] only to require that it is present:
    two non-empty verifiers get the same answer. *)
Lemma post_token_ignores_code_verifier b v now c :
  truthy_str (code_verifier b) = true -> truthy_str v = true ->
  post_token (with_code_verifier v b) now c = post_token b now c.
Proof.
  intros Hb Hv. unfold post_token. simpl. rewrite Hb, Hv. reflexivity.
Qed.

(** C1 (the code departs from the claim).  The return code [R1] was
    issued for an authorization request with [code_challenge_method=S256]
    and the challenge of RFC 7636; the verifier "wrong" does not hash to
    that challenge, [validatePKCE] says so, and POST /token still answers
    200 with the staged access token, where the claim requires 400
    [invalid_grant]. *)
Theorem token_accepts_mismatched_verifier :
  usp_get (Scenario.inbound_query "S1") "code_challenge_method" = Some "S256"
  /\ sha256_base64url "wrong" <> Scenario.challenge
  /\ validatePKCE (Some "wrong") (Some Scenario.challenge) (Some "S256") = false
  /\ fst (post_token (Scenario.token_request "wrong") 2000 Scenario.issued)
     = json 200 [("access_token", JStr "AT1"); ("token_type", JStr "Bearer")].
Proof.
  split; [reflexivity|]. split; [|split].
  - vm_compute. discriminate.
  - vm_compute. reflexivity.
  - vm_compute. reflexivity.
Qed.

(** C2, the claim as stated fails: a first request that presents the code
    [R1] without a [client_id] is answered 400 and leaves the code in the
    cache; a later lookup finds it and a second request obtains the
    token. *)
Lemma rejected_request_keeps_the_code :
  code Scenario.token_request_no_client = Some "R1"
  /\ status (fst (post_token Scenario.token_request_no_client 2000 Scenario.issued)) = 400
  /\ fst (getCacheItem "R1" 3000
            (snd (post_token Scenario.token_request_no_client 2000 Scenario.issued)))
     <> None
  /\ status (fst (post_token (Scenario.token_request Scenario.verifier) 3000
                    (snd (post_token Scenario.token_request_no_client 2000
                            Scenario.issued))))
     = 200.
Proof.
  split; [reflexivity|]. split; [reflexivity|]. split.
  - vm_compute. discriminate.
  - vm_compute. reflexivity.
Qed.

(** C2 (amended).  In any history in which the code [k] is not minted
    again, at most one POST /token obtains a token with [k].  After a
    POST /token that presents [k] and passes the parameter checks
    (whatever it then answers), [k] is absent from the cache and stays
    absent; every later lookup returns nothing, every later POST /token
    with [k] is answered 400, and with [invalid_grant] when it passes the
    parameter checks. *)
Theorem return_code_single_use
    (k : string) (b : token_body) (now : Z) (c : gmap string entry)
    (evs : list event) (b' : token_body) (now' : Z) :
  Forall (not_issued k) evs ->
  params_ok b = true -> code b = Some k ->
  code b' = Some k ->
  let after := snd (run evs (snd (post_token b now c))) in
  (successes k (EvToken b now :: evs) c <= 1)%nat
  /\ snd (post_token b now c) !! k = None
  /\ after !! k = None
  /\ getCacheItem k now' after = (None, after)
  /\ status (fst (post_token b' now' after)) = 400
  /\ (params_ok b' = true -> fst (post_token b' now' after) = invalid_grant_unknown_code).
Proof.
  intros Hevs Hok Hk Hk' after.
  assert (Hgone : snd (post_token b now c) !! k = None).
  { rewrite (post_token_consumes b k now c Hok Hk). apply lookup_delete_eq. }
  assert (Hafter : after !! k = None).
  { apply run_keeps_absent; assumption. }
  split; [|split; [|split; [|split; [|split]]]].
  - apply successes_at_most_one. constructor; [exact I | exact Hevs].
  - exact Hgone.
  - exact Hafter.
  - apply getCacheItem_absent, Hafter.
  - apply (post_token_never_200_absent b' k); assumption.
  - intros Hok'. apply (post_token_absent b' k); assumption.
Qed.

Lemma return_code_single_use_witness :
  (successes "R1"
     [EvToken (Scenario.token_request Scenario.verifier) 2000;
      EvIssue "R2" (Some "AT2") (Some "S2") "github" (Scenario.inbound_query "S2") 2500;
      EvToken (Scenario.token_request Scenario.verifier) 3000]
     Scenario.issued <= 1)%nat
  /\ fst (post_token (Scenario.token_request "retry") 4000
            (snd (run [EvIssue "R2" (Some "AT2") (Some "S2") "github"
                         (Scenario.inbound_query "S2") 2500;
                       EvToken (Scenario.token_request Scenario.verifier) 3000]
                    (snd (post_token (Scenario.token_request Scenario.verifier) 2000
                            Scenario.issued)))))
     = invalid_grant_unknown_code.
Proof.
  assert (Hevs : Forall (not_issued "R1")
            [EvIssue "R2" (Some "AT2") (Some "S2") "github"
               (Scenario.inbound_query "S2") 2500;
             EvToken (Scenario.token_request Scenario.verifier) 3000]).
  { repeat constructor. simpl. discriminate. }
  pose proof (return_code_single_use "R1" (Scenario.token_request Scenario.verifier)
                2000 Scenario.issued _ (Scenario.token_request "retry") 4000
                Hevs eq_refl eq_refl eq_refl) as H.
  simpl in H. destruct H as (H1 & _ & _ & _ & _ & H6).
  split; [exact H1 | exact (H6 eq_refl)].
Defined.

(** C10.  A POST /token whose code [k] resolves to a live entry [e], and
    which then fails because the original request carried no
    [code_challenge] or because the presented [client_id] differs from
    the original one, is answered 400 and leaves the cache without [k];
    after any history that does not mint [k] again, a retry with [k] is
    answered 400, with [invalid_grant] whenever it passes the parameter
    checks, whatever its other parameters. *)
Theorem code_consumed_before_later_checks
    (k : string) (e : entry) (b : token_body) (now : Z) (c : gmap string entry)
    (evs : list event) (b' : token_body) (now' : Z) :
  c !! k = Some e -> now - createdAt e <= CACHE_TTL_MS ->
  params_ok b = true -> code b = Some k ->
  truthy_str (usp_get (originalParameters e) "code_challenge") = false
  \/ (truthy_str (usp_get (originalParameters e) "client_id") = true
      /\ usp_get (originalParameters e) "client_id" <> client_id b) ->
  Forall (not_issued k) evs ->
  code b' = Some k ->
  let after := snd (run evs (snd (post_token b now c))) in
  status (fst (post_token b now c)) = 400
  /\ snd (post_token b now c) = delete k c
  /\ after !! k = None
  /\ status (fst (post_token b' now' after)) = 400
  /\ (params_ok b' = true -> fst (post_token b' now' after) = invalid_grant_unknown_code).
Proof.
  intros Hc Hlive Hok Hk Hfail Hevs Hk' after.
  assert (Hgone : snd (post_token b now c) !! k = None).
  { rewrite (post_token_consumes b k now c Hok Hk). apply lookup_delete_eq. }
  assert (Hafter : after !! k = None).
  { apply run_keeps_absent; assumption. }
  split; [|split; [|split; [|split]]].
  - rewrite (post_token_params_ok b k now c Hok Hk).
    unfold getCacheItem. rewrite Hc.
    replace (Z.gtb (now - createdAt e) CACHE_TTL_MS) with false
      by (symmetry; rewrite Z.gtb_ltb; apply Z.ltb_ge; exact Hlive).
    simpl. destruct Hfail as [Hch | [Hcl Hne]].
    + rewrite Hch. reflexivity.
    + destruct (negb (truthy_str _)); [reflexivity|].
      rewrite Hcl. simpl.
      destruct (opt_string_eqb _ (client_id b)) eqn:E; [|reflexivity].
      apply opt_string_eqb_eq in E. contradiction.
  - apply post_token_consumes; assumption.
  - exact Hafter.
  - apply (post_token_never_200_absent b' k); assumption.
  - intros Hok'. apply (post_token_absent b' k); assumption.
Qed.

(** The presented [client_id] "D" differs from the original "C"; the
    retry presents "C". *)
Lemma code_consumed_before_later_checks_witness :
  status (fst (post_token
                 Scenario.token_request_other_client 2000 Scenario.issued)) = 400
  /\ fst (post_token (Scenario.token_request Scenario.verifier) 3000
            (snd (post_token
                    Scenario.token_request_other_client 2000 Scenario.issued)))
     = invalid_grant_unknown_code.
Proof.
  assert (Hc : Scenario.issued !! "R1"
               = Some (fst (addToCache "R1" (Some "AT1") (Some "S1") "github"
                              (Scenario.inbound_query "S1") 1000 ∅))).
  { apply lookup_insert_eq. }
  assert (Hlive : 2000 - createdAt (fst (addToCache "R1" (Some "AT1") (Some "S1") "github"
                                           (Scenario.inbound_query "S1") 1000 ∅))
                  <= CACHE_TTL_MS).
  { simpl. unfold CACHE_TTL_MS. lia. }
  pose proof (code_consumed_before_later_checks "R1" _
                Scenario.token_request_other_client
                2000 Scenario.issued [] (Scenario.token_request Scenario.verifier) 3000
                Hc Hlive eq_refl eq_refl) as H.
  simpl in H.
  destruct H as (H1 & _ & _ & _ & H5).
  - right. split; [reflexivity | discriminate].
  - constructor.
  - reflexivity.
  - split; [exact H1 | exact (H5 eq_refl)].
Defined.

End TokenClaims.

(* ===================================================================== *)
(** * The fifteen-minute lifetime of a correlation entry *)
(* ===================================================================== *)

(** The four [get] functions have the same shape; one tactic settles each. *)
Ltac ttl_get H :=
  rewrite H; rewrite Z.gtb_ltb;
  match goal with
  | |- context [Z.ltb ?a ?b] =>
      destruct (Z.ltb_spec a b); match goal with
      | |- context [Z.leb ?x ?y] => destruct (Z.leb_spec x y)
      end
  end; try reflexivity; exfalso; lia.

Lemma getCacheItem_ttl k now (c : gmap string ReturnAuthzCache.entry) e :
  c !! k = Some e ->
  ReturnAuthzCache.getCacheItem k now c
  = if Z.leb (now - ReturnAuthzCache.createdAt e) (900 * 1000)
    then (Some e, c) else (None, delete k c).
Proof.
  intros H. unfold ReturnAuthzCache.getCacheItem, ReturnAuthzCache.CACHE_TTL_MS. ttl_get H.
Qed.

Lemma getOidcRequest_ttl k now (c : gmap string OidcCache.entry) e :
  c !! k = Some e ->
  OidcCache.getOidcRequest k now c
  = if Z.leb (now - OidcCache.createdAt e) (900 * 1000)
    then (Some e, c) else (None, delete k c).
Proof.
  intros H. unfold OidcCache.getOidcRequest, OidcCache.CACHE_TTL_MS. ttl_get H.
Qed.

Lemma getCachedOutboundRequest_ttl k now (c : gmap string OutboundRequestCache.entry) e :
  c !! k = Some e ->
  OutboundRequestCache.getCachedOutboundRequest k now c
  = if Z.leb (now - OutboundRequestCache.createdAt e) (900 * 1000)
    then (Some e, c) else (None, delete k c).
Proof.
  intros H.
  unfold OutboundRequestCache.getCachedOutboundRequest, OutboundRequestCache.CACHE_TTL_MS.
  ttl_get H.
Qed.

Lemma getCachedAuthSession_ttl k now (c : gmap string ConnectedAccountSessionCache.entry) e :
  c !! k = Some e ->
  ConnectedAccountSessionCache.getCachedAuthSession k now c
  = if Z.leb (now - ConnectedAccountSessionCache.createdAt e) (900 * 1000)
    then (Some e, c) else (None, delete k c).
Proof.
  intros H.
  unfold ConnectedAccountSessionCache.getCachedAuthSession,
    ConnectedAccountSessionCache.CACHE_TTL_MS.
  ttl_get H.
Qed.

(** An entry is stamped with the clock of the call that stores it. *)
Lemma addToCache_created k tok st tid ps now (c : gmap string ReturnAuthzCache.entry) :
  snd (ReturnAuthzCache.addToCache k tok st tid ps now c) !! k
  = Some (fst (ReturnAuthzCache.addToCache k tok st tid ps now c))
  /\ ReturnAuthzCache.createdAt (fst (ReturnAuthzCache.addToCache k tok st tid ps now c)) = now.
Proof. split; [apply lookup_insert_eq | reflexivity]. Qed.

Lemma cacheOidcRequest_created k ps st ops tok sc ex tid now
    (c : gmap string OidcCache.entry) :
  snd (OidcCache.cacheOidcRequest k ps st ops tok sc ex tid now c) !! k
  = Some (fst (OidcCache.cacheOidcRequest k ps st ops tok sc ex tid now c))
  /\ OidcCache.createdAt (fst (OidcCache.cacheOidcRequest k ps st ops tok sc ex tid now c))
     = now.
Proof. split; [apply lookup_insert_eq | reflexivity]. Qed.

Lemma cacheOutboundRequest_created k ps st ops tok tid now
    (c : gmap string OutboundRequestCache.entry) :
  snd (OutboundRequestCache.cacheOutboundRequest k ps st ops tok tid now c) !! k
  = Some (fst (OutboundRequestCache.cacheOutboundRequest k ps st ops tok tid now c))
  /\ OutboundRequestCache.createdAt
       (fst (OutboundRequestCache.cacheOutboundRequest k ps st ops tok tid now c)) = now.
Proof. split; [apply lookup_insert_eq | reflexivity]. Qed.

Lemma cacheAuthSession_created k os a u now
    (c : gmap string ConnectedAccountSessionCache.entry) :
  exists e, ConnectedAccountSessionCache.cacheAuthSession k os a u now c !! k = Some e
            /\ ConnectedAccountSessionCache.createdAt e = now.
Proof. eexists. split; [apply lookup_insert_eq | reflexivity]. Qed.

(** C5.  In each family of the correlation store (the OIDC-outbound map in
    both its revisions, the link-session map, the return-code map), a get
    of a stored entry at most 900 seconds (900 * 1000 ms) after the time
    the entry was created returns the entry and leaves the map as it is; a
    get later than that returns nothing and removes the entry. *)
Theorem correlation_entry_lifetime
    (key : string) (now : Z)
    (oidc : gmap string OidcCache.entry) (eo : OidcCache.entry)
    (outbound : gmap string OutboundRequestCache.entry) (eb : OutboundRequestCache.entry)
    (sessions : gmap string ConnectedAccountSessionCache.entry)
    (es : ConnectedAccountSessionCache.entry)
    (codes : gmap string ReturnAuthzCache.entry) (ec : ReturnAuthzCache.entry) :
  oidc !! key = Some eo -> outbound !! key = Some eb ->
  sessions !! key = Some es -> codes !! key = Some ec ->
  OidcCache.getOidcRequest key now oidc
    = (if Z.leb (now - OidcCache.createdAt eo) (900 * 1000)
       then (Some eo, oidc) else (None, delete key oidc))
  /\ OutboundRequestCache.getCachedOutboundRequest key now outbound
    = (if Z.leb (now - OutboundRequestCache.createdAt eb) (900 * 1000)
       then (Some eb, outbound) else (None, delete key outbound))
  /\ ConnectedAccountSessionCache.getCachedAuthSession key now sessions
    = (if Z.leb (now - ConnectedAccountSessionCache.createdAt es) (900 * 1000)
       then (Some es, sessions) else (None, delete key sessions))
  /\ ReturnAuthzCache.getCacheItem key now codes
    = (if Z.leb (now - ReturnAuthzCache.createdAt ec) (900 * 1000)
       then (Some ec, codes) else (None, delete key codes)).
Proof.
  intros Ho Hb Hs Hc. repeat split.
  - apply getOidcRequest_ttl, Ho.
  - apply getCachedOutboundRequest_ttl, Hb.
  - apply getCachedAuthSession_ttl, Hs.
  - apply getCacheItem_ttl, Hc.
Qed.

(** Entries created at time 5000 and read 900 seconds later are all
    returned; the same entries read one millisecond after that are all
    gone. *)
Lemma correlation_entry_lifetime_witness :
  let oidc := snd (OidcCache.cacheOidcRequest "K" [] (Some "S1") [] None None None
                     "github" 5000 ∅) in
  let outbound := snd (OutboundRequestCache.cacheOutboundRequest "K" [] (Some "S1") []
                         None "github" 5000 ∅) in
  let sessions := ConnectedAccountSessionCache.cacheAuthSession "K" "OUT1" (JStr "AS1")
                    (JStr "LT1") 5000 ∅ in
  let codes := snd (ReturnAuthzCache.addToCache "K" (Some "AT1") (Some "S1") "github" []
                      5000 ∅) in
  (fst (OidcCache.getOidcRequest "K" 905000 oidc) = oidc !! "K"
   /\ fst (OutboundRequestCache.getCachedOutboundRequest "K" 905000 outbound)
      = outbound !! "K"
   /\ fst (ConnectedAccountSessionCache.getCachedAuthSession "K" 905000 sessions)
      = sessions !! "K"
   /\ fst (ReturnAuthzCache.getCacheItem "K" 905000 codes) = codes !! "K")
  /\ (OidcCache.getOidcRequest "K" 905001 oidc = (None, delete "K" oidc)
      /\ OutboundRequestCache.getCachedOutboundRequest "K" 905001 outbound
         = (None, delete "K" outbound)
      /\ ConnectedAccountSessionCache.getCachedAuthSession "K" 905001 sessions
         = (None, delete "K" sessions)
      /\ ReturnAuthzCache.getCacheItem "K" 905001 codes = (None, delete "K" codes)).
Proof.
  intros oidc outbound sessions codes.
  assert (Ho : oidc !! "K" = Some (fst (OidcCache.cacheOidcRequest "K" [] (Some "S1") []
                                         None None None "github" 5000 ∅)))
    by apply lookup_insert_eq.
  assert (Hb : outbound !! "K"
               = Some (fst (OutboundRequestCache.cacheOutboundRequest "K" [] (Some "S1") []
                              None "github" 5000 ∅)))
    by apply lookup_insert_eq.
  assert (Hs : sessions !! "K"
               = Some {| ConnectedAccountSessionCache.authSession := JStr "AS1";
                         ConnectedAccountSessionCache.state := "K";
                         ConnectedAccountSessionCache.oidcState := "OUT1";
                         ConnectedAccountSessionCache.userToken := JStr "LT1";
                         ConnectedAccountSessionCache.createdAt := 5000 |})
    by apply lookup_insert_eq.
  assert (Hc : codes !! "K"
               = Some (fst (ReturnAuthzCache.addToCache "K" (Some "AT1") (Some "S1")
                              "github" [] 5000 ∅)))
    by apply lookup_insert_eq.
  split.
  - destruct (correlation_entry_lifetime "K" 905000 _ _ _ _ _ _ _ _ Ho Hb Hs Hc)
      as (E1 & E2 & E3 & E4).
    rewrite E1, E2, E3, E4, Ho, Hb, Hs, Hc. repeat split.
  - destruct (correlation_entry_lifetime "K" 905001 _ _ _ _ _ _ _ _ Ho Hb Hs Hc)
      as (E1 & E2 & E3 & E4).
    rewrite E1, E2, E3, E4. repeat split.
Defined.

(* ===================================================================== *)
(** * The forwarder *)
(* ===================================================================== *)

Section ProxyClaims.
Import TenantConfig ProxyRoutes.

Lemma assoc_usp_remove_ne (p : list (string * string)) name k :
  name <> k -> assoc k (usp_remove name p) = assoc k p.
Proof.
  intros Hne. induction p as [|[k0 v0] p IH]; simpl; [reflexivity|].
  destruct (String.eqb_spec name k0) as [->|Hn]; simpl.
  - destruct (String.eqb_spec k k0) as [->|_]; [congruence | exact IH].
  - rewrite IH. reflexivity.
Qed.

Lemma assoc_usp_set_ne (p : list (string * string)) name value k :
  name <> k -> assoc k (usp_set p name value) = assoc k p.
Proof.
  intros Hne. induction p as [|[k0 v0] p IH]; simpl.
  - destruct (String.eqb_spec k name) as [->|_]; [congruence | reflexivity].
  - destruct (String.eqb_spec name k0) as [->|Hn]; simpl.
    + destruct (String.eqb_spec k k0) as [->|_]; [congruence|].
      apply assoc_usp_remove_ne, Hne.
    + rewrite IH. reflexivity.
Qed.

(** The forwarded request does not depend on the inbound bearer token. *)
Lemma backend_request_with_bearer tenantConfig req token vaultedToken :
  backend_request tenantConfig (with_bearer token req) vaultedToken
  = backend_request tenantConfig req vaultedToken.
Proof.
  unfold backend_request, backendHeaders, with_bearer. simpl.
  rewrite !assoc_usp_set_ne by discriminate. reflexivity.
Qed.

(** What the forwarder sends to the backend, and when: nothing unless the
    tenant has no vault connection or the vault exchange succeeded, and
    then one request, whose answer is relayed. *)
Lemma handler_sends tenantConfig req vault axios :
  handler tenantConfig req vault axios
  = if truthy_str (vault_connection tenantConfig) then
      match vault (req_accessToken req) with
      | Throw e => (Unhandled e, [])
      | Ok None =>
          (Unhandled (new_Error "Cannot read properties of null (reading 'success')"), [])
      | Ok (Some r) =>
          if TokenVault.success r then
            (match axios (backend_request tenantConfig req (TokenVault.accessToken r)) with
             | Ok backendResponse => Respond (relay backendResponse)
             | Throw error => Respond (proxy_error error)
             end,
             [backend_request tenantConfig req (TokenVault.accessToken r)])
          else if TokenVault.needsLinking r then (Respond linking_required, [])
          else (Respond token_request_failed, [])
      end
    else
      (match axios (backend_request tenantConfig req (JStr "")) with
       | Ok backendResponse => Respond (relay backendResponse)
       | Throw error => Respond (proxy_error error)
       end,
       [backend_request tenantConfig req (JStr "")]).
Proof. reflexivity. Qed.

(** Express gives every name that occurs once its value as a string. *)
Lemma add_value_fresh k v (seen : list (string * list string)) :
  ~ In k (map fst seen) -> Express.add_value k v seen = (seen ++ [(k, [v])])%list.
Proof.
  induction seen as [|[k' vs] seen IH]; simpl; intros Hk; [reflexivity|].
  destruct (String.eqb_spec k k') as [->|_]; [tauto|].
  rewrite IH by tauto. reflexivity.
Qed.

Lemma collect_distinct (pairs : list (string * string)) :
  forall seen,
    NoDup (map fst pairs) ->
    (forall k, In k (map fst pairs) -> ~ In k (map fst seen)) ->
    fold_left (fun seen kv => Express.add_value (fst kv) (snd kv) seen) pairs seen
    = (seen ++ map (fun kv => (fst kv, [snd kv])) pairs)%list.
Proof.
  induction pairs as [|[k v] pairs IH]; intros seen Hnd Hfresh; simpl.
  - rewrite app_nil_r. reflexivity.
  - inversion Hnd as [|? ? Hk Hnd']; subst.
    rewrite add_value_fresh by (apply Hfresh; left; reflexivity).
    rewrite IH.
    + rewrite <- app_assoc. reflexivity.
    + exact Hnd'.
    + intros k' Hk' Hin. rewrite map_app, in_app_iff in Hin. simpl in Hin.
      destruct Hin as [Hin | [<- | []]].
      * apply (Hfresh k'); [right; exact Hk' | exact Hin].
      * apply Hk, list_elem_of_In, Hk'.
Qed.

Lemma express_query_distinct (pairs : list (string * string)) q :
  Express.query pairs = Some q -> NoDup (map fst pairs) ->
  q = map (fun kv => (fst kv, QStr (snd kv))) pairs
  /\ forallb (fun kv => plain_name (fst kv)) pairs = true.
Proof.
  unfold Express.query. intros Hq Hnd.
  destruct (forallb _ pairs) eqn:Hplain; simpl in Hq; [|discriminate].
  destruct (Nat.leb _ _); [|discriminate].
  injection Hq as <-. split; [|reflexivity].
  rewrite (collect_distinct pairs [] Hnd) by (intros ? _ []).
  simpl. rewrite map_map. reflexivity.
Qed.

(** axios writes string parameters under their own names. *)
Lemma params_pairs_strings (pairs : list (string * string)) :
  forallb (fun kv => plain_name (fst kv)) pairs = true ->
  Axios.params_pairs (map (fun kv => (fst kv, QStr (snd kv))) pairs) = Some pairs.
Proof.
  induction pairs as [|[k v] pairs IH]; simpl; [reflexivity|].
  intros H. apply andb_true_iff in H as [Hk H].
  rewrite Hk, (IH H). reflexivity.
Qed.

(** C3, the claim as stated fails on the query: for the inbound query
    string [a=1&a=2] Express hands the handler the array of the two
    values under the name [a]; the handler gives that object to axios,
    which writes the pairs [a[]=1] and [a[]=2].  The request that reaches
    the backend has the parameter [a[]], not [a]. *)
Lemma repeated_query_parameter_is_renamed :
  Express.query [("a", "1"); ("a", "2")] = Some (req_query Scenario.proxied_repeated)
  /\ exists outbound,
       snd (handler Scenario.github Scenario.proxied_repeated
              (fun _ => Ok (Some Scenario.vault_ok)) Scenario.backend) = [outbound]
       /\ Axios.params_pairs (ax_params outbound) = Some [("a[]", "1"); ("a[]", "2")]
       /\ Axios.params_pairs (ax_params outbound) <> Some [("a", "1"); ("a", "2")].
Proof.
  split; [reflexivity|]. eexists. split; [reflexivity|].
  split; [reflexivity|]. intros H. discriminate H.
Qed.

(** C3 (amended).  The forwarder sends nothing to the backend unless the
    tenant has no vault connection or the vault exchange succeeded; it
    then sends exactly one request and relays the answer to it.  That
    request has the inbound method, the URL [{backend_url}/{rest}], the
    30-second timeout and exactly the headers [Content-Type] and [Accept],
    mirrored from the inbound request with the default
    [application/json], followed by an [Authorization] header only when
    the vault exchange succeeded with a non-empty token, which it then
    bears; so it has neither the inbound [Authorization] value nor a
    [Host] header.  Its body is the inbound body when the method is POST,
    PUT or PATCH and absent otherwise.  Its query is not the inbound query
    string: the handler hands [req.query], the object Express parsed, to
    axios, which writes the query anew; when every parameter has a plain
    name and occurs once, the pairs axios writes are the inbound pairs.
    Changing the inbound bearer token, with the vault answering the same,
    changes neither the reply nor the request sent. *)
Theorem forwarded_request_is_clean
    (tenantConfig : tenant_config) (req : request)
    (vault : string -> outcome (option TokenVault.vault_result))
    (axios : axios_request -> outcome backend_response) (token' : string) :
  vault token' = vault (req_accessToken req) ->
  let sent (authorization : list (string * string)) : axios_request :=
    {| ax_method := req_method req;
       ax_url := backend_url tenantConfig +:+ "/" +:+ req_params0 req;
       ax_headers :=
         ([("Content-Type",
            or_default (assoc "content-type" (req_headers req)) "application/json");
           ("Accept",
            or_default (assoc "accept" (req_headers req)) "application/json")]
          ++ authorization)%list;
       ax_data := if includes ["POST"; "PUT"; "PATCH"] (req_method req)
                  then req_body req else JUndefined;
       ax_params := req_query req;
       ax_timeout := 30000 |} in
  snd (handler tenantConfig req vault axios)
  = (if truthy_str (vault_connection tenantConfig) then
       match vault (req_accessToken req) with
       | Ok (Some r) =>
           if TokenVault.success r then
             [sent (if truthy (TokenVault.accessToken r)
                    then [("Authorization",
                           "Bearer " +:+ to_string (TokenVault.accessToken r))]
                    else [])]
           else []
       | Ok None | Throw _ => []
       end
     else [sent []])
  /\ (forall outbound,
        snd (handler tenantConfig req vault axios) = [outbound] ->
        fst (handler tenantConfig req vault axios)
        = match axios outbound with
          | Ok backendResponse => Respond (relay backendResponse)
          | Throw error => Respond (proxy_error error)
          end)
  /\ Forall
       (fun outbound =>
          assoc "Host" (ax_headers outbound) = None
          /\ assoc "host" (ax_headers outbound) = None
          /\ assoc "authorization" (ax_headers outbound) = None)
       (snd (handler tenantConfig req vault axios))
  /\ (forall pairs,
        Express.query pairs = Some (req_query req) -> NoDup (map fst pairs) ->
        Forall (fun outbound => Axios.params_pairs (ax_params outbound) = Some pairs)
          (snd (handler tenantConfig req vault axios)))
  /\ handler tenantConfig (with_bearer token' req) vault axios
     = handler tenantConfig req vault axios.
Proof.
  intros Hvault sent.
  assert (Hsent : forall tok,
            backend_request tenantConfig req tok
            = sent (if truthy tok then [("Authorization", "Bearer " +:+ to_string tok)]
                    else [])) by reflexivity.
  assert (Hlog :
    snd (handler tenantConfig req vault axios)
    = (if truthy_str (vault_connection tenantConfig) then
         match vault (req_accessToken req) with
         | Ok (Some r) =>
             if TokenVault.success r then
               [sent (if truthy (TokenVault.accessToken r)
                      then [("Authorization",
                             "Bearer " +:+ to_string (TokenVault.accessToken r))]
                      else [])]
             else []
         | Ok None | Throw _ => []
         end
       else [sent []])).
  { rewrite handler_sends.
    destruct (truthy_str (vault_connection tenantConfig)); [|reflexivity].
    destruct (vault (req_accessToken req)) as [[r|]|e]; try reflexivity.
    destruct (TokenVault.success r); [rewrite Hsent; reflexivity|].
    destruct (TokenVault.needsLinking r); reflexivity. }
  split; [exact Hlog|].
  split; [|split; [|split]].
  - intros outbound. rewrite handler_sends.
    destruct (truthy_str (vault_connection tenantConfig)).
    + destruct (vault (req_accessToken req)) as [[r|]|e]; try discriminate.
      destruct (TokenVault.success r).
      * simpl. intros [= <-]. reflexivity.
      * destruct (TokenVault.needsLinking r); discriminate.
    + simpl. intros [= <-]. reflexivity.
  - rewrite Hlog.
    destruct (truthy_str (vault_connection tenantConfig)).
    + destruct (vault (req_accessToken req)) as [[r|]|e]; try constructor.
      destruct (TokenVault.success r); constructor; [|constructor].
      destruct (truthy (TokenVault.accessToken r)); repeat split.
    + constructor; [|constructor]. repeat split.
  - intros pairs Hq Hnd.
    destruct (express_query_distinct pairs _ Hq Hnd) as [Hpairs Hplain].
    assert (Hp : Axios.params_pairs (req_query req) = Some pairs)
      by (rewrite Hpairs; apply params_pairs_strings, Hplain).
    rewrite Hlog.
    destruct (truthy_str (vault_connection tenantConfig)).
    + destruct (vault (req_accessToken req)) as [[r|]|e]; try constructor.
      destruct (TokenVault.success r); constructor; [exact Hp | constructor].
    + constructor; [exact Hp | constructor].
  - unfold handler, forward.
    change (req_accessToken (with_bearer token' req)) with token'.
    rewrite Hvault.
    destruct (truthy_str (vault_connection tenantConfig)).
    + destruct (vault (req_accessToken req)) as [[r|]|e]; try reflexivity.
      rewrite backend_request_with_bearer. reflexivity.
    + rewrite backend_request_with_bearer. reflexivity.
Qed.

(** The scenario request carries [Authorization: Bearer AT1], a [Host]
    header and the query [session=7]; the vault answers [D1].  One request
    reaches the backend, with the vaulted token and the pair [session=7];
    with the bearer replaced by [AT2] the same request is sent. *)
Lemma forwarded_request_is_clean_witness :
  snd (handler Scenario.github Scenario.proxied
         (fun _ => Ok (Some Scenario.vault_ok)) Scenario.backend)
  = [{| ax_method := "POST";
        ax_url := "https://api.github.example/mcp";
        ax_headers :=
          [("Content-Type", "application/json"); ("Accept", "text/event-stream");
           ("Authorization", "Bearer D1")];
        ax_data := JObj [("jsonrpc", JStr "2.0")];
        ax_params := [("session", QStr "7")];
        ax_timeout := 30000 |}]
  /\ Forall (fun outbound => Axios.params_pairs (ax_params outbound) = Some [("session", "7")])
       (snd (handler Scenario.github Scenario.proxied
               (fun _ => Ok (Some Scenario.vault_ok)) Scenario.backend))
  /\ snd (handler Scenario.github (with_bearer "AT2" Scenario.proxied)
            (fun _ => Ok (Some Scenario.vault_ok)) Scenario.backend)
     = snd (handler Scenario.github Scenario.proxied
              (fun _ => Ok (Some Scenario.vault_ok)) Scenario.backend).
Proof.
  destruct (forwarded_request_is_clean Scenario.github Scenario.proxied
              (fun _ => Ok (Some Scenario.vault_ok)) Scenario.backend "AT2" eq_refl)
    as (Hlog & _ & _ & Hquery & Heq).
  split; [exact Hlog|]. split.
  - apply (Hquery [("session", "7")]); [reflexivity | apply NoDup_singleton].
  - rewrite Heq. reflexivity.
Defined.

(** C7, the claim as stated fails: when the vault reports that linking is
    needed, the 401 answer has the message below, not "Account linking
    required", and carries no [WWW-Authenticate] header. *)
Lemma linking_required_answer_differs :
  fst (handler Scenario.github Scenario.proxied
         (fun _ => Ok (Some Scenario.vault_needs_linking)) Scenario.backend)
  = Respond
      {| status := 401;
         headers := [];
         body :=
           JObj [("error", JStr "Account Linking Required");
                 ("message",
                  JStr "A connected account linking is required to obtain tokens for the backend service. Please re-log in.")] |}
  /\ get_prop (body linking_required) "message"
     <> Ok (JStr "Account linking required")
  /\ assoc "WWW-Authenticate" (headers linking_required) = None.
Proof.
  split; [reflexivity|]. split; [|reflexivity].
  simpl. intros H. discriminate H.
Qed.

(** C7 (amended).  For a tenant whose [vault_connection] is set, when the
    vault exchange returns a result that is not a success, the forwarder
    sends nothing to the backend and answers 401 with error "Account
    Linking Required" and the message "A connected account linking is
    required to obtain tokens for the backend service. Please re-log in."
    if the result says that linking is needed, and 403 otherwise. *)
Theorem forwarder_vault_failure
    (tenantConfig : tenant_config) (req : request)
    (vault : string -> outcome (option TokenVault.vault_result))
    (axios : axios_request -> outcome backend_response)
    (r : TokenVault.vault_result) :
  truthy_str (vault_connection tenantConfig) = true ->
  vault (req_accessToken req) = Ok (Some r) ->
  TokenVault.success r = false ->
  handler tenantConfig req vault axios
  = (Respond
       (if TokenVault.needsLinking r then
          json 401
            [("error", JStr "Account Linking Required");
             ("message",
              JStr "A connected account linking is required to obtain tokens for the backend service. Please re-log in.")]
        else
          json 403
            [("error", JStr "Token Request Failed");
             ("message", JStr "Unable to obtain proper tokens.")]),
     []).
Proof.
  intros Hv Hr Hs. unfold handler. rewrite Hv, Hr, Hs.
  destruct (TokenVault.needsLinking r); reflexivity.
Qed.

Lemma forwarder_vault_failure_witness :
  (exists a, fst (handler Scenario.github Scenario.proxied
                    (fun _ => Ok (Some Scenario.vault_needs_linking)) Scenario.backend)
             = Respond a /\ status a = 401)
  /\ (exists a, fst (handler Scenario.github Scenario.proxied
                       (fun _ => Ok (Some Scenario.vault_failed)) Scenario.backend)
                = Respond a /\ status a = 403).
Proof.
  split.
  - rewrite (forwarder_vault_failure Scenario.github Scenario.proxied
               (fun _ => Ok (Some Scenario.vault_needs_linking)) Scenario.backend
               Scenario.vault_needs_linking eq_refl eq_refl eq_refl).
    eexists. split; reflexivity.
  - rewrite (forwarder_vault_failure Scenario.github Scenario.proxied
               (fun _ => Ok (Some Scenario.vault_failed)) Scenario.backend
               Scenario.vault_failed eq_refl eq_refl eq_refl).
    eexists. split; reflexivity.
Defined.

End ProxyClaims.


(* ===================================================================== *)
(** * Splitting and scanning strings *)
(* ===================================================================== *)

Section StringFacts.
Import JsString Url.





Lemma split_absent c a : contains c a = false -> JsString.split c a = [a].
Proof.
  induction a as [|c' a IH]; simpl; [reflexivity|].
  intros H. apply orb_false_elim in H as [Hc Ha].
  rewrite Hc, (IH Ha). reflexivity.
Qed.

Lemma split_app_absent c a b :
  contains c a = false ->
  JsString.split c (a +:+ String c b) = a :: JsString.split c b.
Proof.
  induction a as [|c' a IH]; simpl.
  - intros _. rewrite Ascii.eqb_refl. reflexivity.
  - intros H. apply orb_false_elim in H as [Hc Ha].
    rewrite Hc, (IH Ha). reflexivity.
Qed.


End StringFacts.

(* ===================================================================== *)
(** * The vault client *)
(* ===================================================================== *)

Section VaultClaims.
Import TokenVault.

Lemma exchange_not_reached first post :
  reaches_vault first = false ->
  classify (exchangeOktaAccessToken first post) = Failure.
Proof.
  unfold reaches_vault, exchangeOktaAccessToken.
  destruct first as [tok|e]; simpl; [|reflexivity].
  intros ->. reflexivity.
Qed.

(** Once the first exchange produced a token, the result is decided by
    the answer of the vault. *)
Lemma exchange_reached tok post :
  truthy tok = true ->
  exchangeOktaAccessToken (Ok tok) post
  = match post with
    | Ok data =>
        match get_prop data "access_token" with
        | Ok access_token =>
            Ok (Some {| success := true; needsLinking := false;
                        message := JStr "Token retrieved successfully!";
                        accessToken := access_token |})
        | Throw error =>
            Ok (Some {| success := false; needsLinking := false;
                        accessToken := JNull;
                        message := JStr ("Token exchange request failed: "
                                         +:+ Js.message error) |})
        end
    | Throw error =>
        match response error with
        | Some error_response =>
            if refresh_token_not_found error then
              Ok (Some {| success := false; needsLinking := true;
                          accessToken := JNull;
                          message := JStr "No credentials found in the vault." |})
            else
              match get_prop (resp_data error_response) "error" with
              | Ok e => Ok (Some {| success := false; needsLinking := false;
                                    accessToken := JNull; message := e |})
              | Throw e => Throw e
              end
        | None =>
            Ok (Some {| success := false; needsLinking := false;
                        accessToken := JNull;
                        message :=
                          JStr (if request error
                                then "Token exchange request failed: No response received"
                                else "Token exchange request failed: "
                                     +:+ Js.message error) |})
        end
    end.
Proof.
  intros Ht. unfold exchangeOktaAccessToken, refresh_token_not_found.
  simpl. rewrite Ht. simpl.
  destruct post as [data|error]; simpl.
  - destruct data; simpl; reflexivity.
  - destruct (response error) as [[st data]|]; simpl.
    + destruct (Z.eqb st 401); simpl.
      * destruct (get_prop data "error") as [e|e]; simpl; [|reflexivity].
        destruct (strict_eq_str e _); reflexivity.
      * destruct (get_prop data "error") as [e|e]; reflexivity.
    + destruct (request error); reflexivity.
Qed.

(** C4.  The vault exchange ends in the needs-linking outcome exactly
    when the vault was asked and answered with an HTTP 401 whose error
    code is [federated_connection_refresh_token_not_found].  Every other
    error of the request is a failure that is not needs-linking: an error
    response with another status or code, a request without response and
    a failure to set the request up give the failure object with the
    message shown (an error response whose body is [null] makes the
    function reject, which is a failure too).  A successful response
    gives the success object with the [access_token] of its body. *)
Theorem vault_exchange_outcomes (first post : outcome jsval) :
  (classify (exchangeOktaAccessToken first post) = NeedsLinking
   <-> reaches_vault first = true
       /\ exists error, post = Throw error /\ refresh_token_not_found error = true)
  /\ (forall error,
        post = Throw error -> refresh_token_not_found error = false ->
        classify (exchangeOktaAccessToken first post) = Failure)
  /\ (forall error,
        reaches_vault first = true -> post = Throw error -> response error = None ->
        exchangeOktaAccessToken first post
        = Ok (Some {| success := false; needsLinking := false; accessToken := JNull;
                      message :=
                        JStr (if request error
                              then "Token exchange request failed: No response received"
                              else "Token exchange request failed: "
                                   +:+ Js.message error) |}))
  /\ (forall error st data e,
        reaches_vault first = true -> post = Throw error ->
        response error = Some {| resp_status := st; resp_data := data |} ->
        refresh_token_not_found error = false -> get_prop data "error" = Ok e ->
        exchangeOktaAccessToken first post
        = Ok (Some {| success := false; needsLinking := false; accessToken := JNull;
                      message := e |}))
  /\ (forall data token,
        reaches_vault first = true -> post = Ok data ->
        get_prop data "access_token" = Ok token ->
        exchangeOktaAccessToken first post
        = Ok (Some {| success := true; needsLinking := false;
                      message := JStr "Token retrieved successfully!";
                      accessToken := token |})).
Proof.
  destruct (reaches_vault first) eqn:Hr.
  - destruct first as [tok|e0]; simpl in Hr; [|discriminate].
    rewrite (exchange_reached tok post Hr).
    split; [|split; [|split; [|split]]].
    + split.
      * intros H. split; [reflexivity|].
        destruct post as [data|error].
        -- destruct (get_prop data "access_token"); discriminate H.
        -- exists error. split; [reflexivity|].
           destruct (response error) as [r|]; [|discriminate H].
           destruct (refresh_token_not_found error); [reflexivity|].
           destruct (get_prop (resp_data r) "error"); discriminate H.
      * intros (_ & error & -> & Hnf).
        unfold refresh_token_not_found in Hnf |- *.
        destruct (response error) as [r|]; [|discriminate Hnf].
        rewrite Hnf. reflexivity.
    + intros error -> Hnf. rewrite Hnf.
      destruct (response error) as [r|]; [|reflexivity].
      destruct (get_prop (resp_data r) "error"); reflexivity.
    + intros error _ -> Hresp. rewrite Hresp. reflexivity.
    + intros error st data e _ -> Hresp Hnf He. rewrite Hresp, Hnf. simpl.
      rewrite He. reflexivity.
    + intros data token _ -> Htok. rewrite Htok. reflexivity.
  - split; [|split; [|split; [|split]]].
    + rewrite (exchange_not_reached first post Hr). split; [discriminate|].
      intros [H _]. discriminate H.
    + intros. apply exchange_not_reached, Hr.
    + intros ? H. discriminate H.
    + intros ? ? ? ? H. discriminate H.
    + intros ? ? H. discriminate H.
Qed.

(** A 401 with the code is needs-linking, a 401 with another code is not,
    and a response with an [access_token] yields it. *)
Lemma vault_exchange_outcomes_witness :
  classify (exchangeOktaAccessToken (Ok (JStr "VT"))
              (Throw (Scenario.vault_401 "federated_connection_refresh_token_not_found")))
  = NeedsLinking
  /\ classify (exchangeOktaAccessToken (Ok (JStr "VT")) (Throw (Scenario.vault_401 "invalid_grant")))
     = Failure
  /\ exchangeOktaAccessToken (Ok (JStr "VT")) (Ok (JObj [("access_token", JStr "D1")]))
     = Ok (Some {| success := true; needsLinking := false;
                   message := JStr "Token retrieved successfully!";
                   accessToken := JStr "D1" |}).
Proof.
  split; [|split].
  - apply (vault_exchange_outcomes (Ok (JStr "VT"))
             (Throw (Scenario.vault_401 "federated_connection_refresh_token_not_found"))).
    split; [reflexivity|]. eexists. split; reflexivity.
  - apply (vault_exchange_outcomes (Ok (JStr "VT")) (Throw (Scenario.vault_401 "invalid_grant"))
             ) with (error := Scenario.vault_401 "invalid_grant"); reflexivity.
  - apply (vault_exchange_outcomes (Ok (JStr "VT"))
             (Ok (JObj [("access_token", JStr "D1")])))
      with (data := JObj [("access_token", JStr "D1")]); reflexivity.
Defined.

(** The scope list of a typical tenant is rewritten as described. *)
Example finalScopes_typical :
  finalScopes ["repo"; "refresh_token"; "read:org"] = ["repo"; "offline_access"; "read:org"].
Proof. reflexivity. Qed.

(** C8 (the code departs from the claim).  The scopes sent to the connect
    endpoint are computed on the space-joined string, where only the first
    occurrence of the text [refresh_token] is replaced, wherever it starts:
    an empty list is sent as one empty scope, a scope that merely contains
    the text is rewritten, and a [refresh_token] element after another
    occurrence is sent unchanged.  The claim asks in each case for the
    list on the right. *)
Theorem refresh_token_rewrite_differs :
  (scopes (connect_requestBody (Some "github") "https://proxy.example/cb" "LS1" [])
   = [""]
   /\ scopes_as_specified [] = [])
  /\ (scopes (connect_requestBody (Some "github") "https://proxy.example/cb" "LS1"
                ["my_refresh_token"; "refresh_token"])
      = ["my_offline_access"; "refresh_token"]
      /\ scopes_as_specified ["my_refresh_token"; "refresh_token"]
         = ["my_refresh_token"; "offline_access"])
  /\ (scopes (connect_requestBody (Some "github") "https://proxy.example/cb" "LS1"
                ["refresh_token"; "refresh_token"])
      = ["offline_access"; "refresh_token"]
      /\ scopes_as_specified ["refresh_token"; "refresh_token"]
         = ["offline_access"; "offline_access"]).
Proof. repeat split. Qed.

End VaultClaims.


(* ===================================================================== *)
(** * Where the scope rewrite does what is described *)
(* ===================================================================== *)

Section ScopeRewrite.
Import JsString TokenVault.

Lemma prefix_across_separator pat a b :
  contains " " pat = false -> String.prefix pat a = false ->
  String.prefix pat (a +:+ String " " b) = false.
Proof.
  revert a. induction pat as [|c p IH]; intros a Hp Ha;
    [destruct a; discriminate Ha|].
  simpl in Hp. apply orb_false_elim in Hp as [Hc Hp].
  destruct a as [|x a]; simpl in *.
  - destruct (ascii_dec c " ") as [->|_]; [|reflexivity].
    rewrite Ascii.eqb_refl in Hc. discriminate.
  - destruct (ascii_dec c x); [|reflexivity]. apply IH; assumption.
Qed.

Lemma replace_across_separator pat rep a b :
  contains " " pat = false -> occurs pat a = false ->
  JsString.replace pat rep (a +:+ String " " b)
  = a +:+ String " " (JsString.replace pat rep b).
Proof.
  intros Hp. induction a as [|x a IH]; intros Ha;
    cbn [occurs] in Ha; apply orb_false_elim in Ha as [Hx Ha];
    pose proof (prefix_across_separator pat _ b Hp Hx) as Hpre.
  - change ("" +:+ String " " b) with (String " " b) in *.
    cbn [JsString.replace]. rewrite Hpre. reflexivity.
  - change (String x a +:+ String " " b) with (String x (a +:+ String " " b)) in *.
    cbn [JsString.replace]. rewrite Hpre, (IH Ha). reflexivity.
Qed.

Lemma replace_absent pat rep a : occurs pat a = false -> JsString.replace pat rep a = a.
Proof.
  induction a as [|x a IH]; intros Ha; cbn [occurs] in Ha;
    apply orb_false_elim in Ha as [Hx Ha]; cbn [JsString.replace]; rewrite Hx.
  - reflexivity.
  - rewrite (IH Ha). reflexivity.
Qed.

Lemma join_cons a b l :
  JsString.join " " (a :: b :: l) = a +:+ String " " (JsString.join " " (b :: l)).
Proof. reflexivity. Qed.

(** Joining plain scopes and splitting again gives the list back. *)
Lemma split_join_plain a l :
  Forall plain (a :: l) ->
  JsString.split " " (JsString.join " " (a :: l)) = a :: l.
Proof.
  revert a. induction l as [|b l IH]; intros a Hall.
  - inversion Hall as [|? ? [Ha _] _]; subst. simpl. apply split_absent, Ha.
  - inversion Hall as [|? ? [Ha _] Hrest]; subst.
    rewrite join_cons, (split_app_absent " " a _ Ha), (IH b Hrest). reflexivity.
Qed.

Lemma replace_join_plain a l :
  Forall plain (a :: l) ->
  JsString.replace "refresh_token" "offline_access" (JsString.join " " (a :: l))
  = JsString.join " " (a :: l).
Proof.
  revert a. induction l as [|b l IH]; intros a Hall.
  - inversion Hall as [|? ? [_ Ha] _]; subst. simpl. apply replace_absent, Ha.
  - inversion Hall as [|? ? [_ Ha] Hrest]; subst.
    rewrite join_cons, replace_across_separator by (assumption || reflexivity).
    rewrite (IH b Hrest). reflexivity.
Qed.

(** A non-empty list of plain scopes is sent as it is. *)
Lemma finalScopes_plain a l :
  Forall plain (a :: l) -> finalScopes (a :: l) = a :: l.
Proof.
  intros Hall. unfold finalScopes.
  rewrite (replace_join_plain a l Hall). apply split_join_plain, Hall.
Qed.

Lemma scopes_as_specified_plain l :
  Forall plain l -> scopes_as_specified l = l.
Proof.
  induction 1 as [|x l [_ Hx] _ IH]; [reflexivity|].
  simpl. rewrite IH.
  destruct (String.eqb_spec x "refresh_token") as [->|_]; [discriminate Hx | reflexivity].
Qed.

Lemma replace_join_one before after :
  Forall plain before -> Forall plain after ->
  JsString.replace "refresh_token" "offline_access"
    (JsString.join " " (before ++ "refresh_token" :: after)%list)
  = JsString.join " " (before ++ "offline_access" :: after)%list.
Proof.
  intros Hb Ha. induction Hb as [|x before [_ Hx] _ IH].
  - destruct after as [|b after]; [reflexivity|].
    cbn [app]. rewrite !join_cons. reflexivity.
  - cbn [app]. destruct before as [|y before]; cbn [app] in *.
    + rewrite !join_cons, replace_across_separator by (assumption || reflexivity).
      rewrite IH. reflexivity.
    + rewrite !join_cons, replace_across_separator by (assumption || reflexivity).
      rewrite IH. reflexivity.
Qed.

(** With one [refresh_token] among otherwise plain scopes, the list sent
    is the list described. *)
Lemma finalScopes_one_refresh_token before after :
  Forall plain before -> Forall plain after ->
  finalScopes (before ++ "refresh_token" :: after)%list
  = scopes_as_specified (before ++ "refresh_token" :: after)%list.
Proof.
  intros Hb Ha. unfold finalScopes, scopes_as_specified.
  rewrite (replace_join_one before after Hb Ha).
  rewrite map_app. cbn [map]. rewrite String.eqb_refl.
  fold (scopes_as_specified before). fold (scopes_as_specified after).
  rewrite (scopes_as_specified_plain before Hb), (scopes_as_specified_plain after Ha).
  assert (Hall : Forall plain (before ++ "offline_access" :: after)%list).
  { apply Forall_app. split; [exact Hb|]. constructor; [|exact Ha].
    split; reflexivity. }
  destruct (before ++ "offline_access" :: after)%list as [|a l] eqn:E.
  - destruct before; discriminate E.
  - apply split_join_plain, Hall.
Qed.

End ScopeRewrite.

(* ===================================================================== *)
(** * The signing-key cache *)
(* ===================================================================== *)

Section KeyCacheClaims.
Import JwtAuthorizer.

(** C9, the claim as stated fails: an unreachable JWKS document and a
    document without the wanted [kid] make the lookup fail with one and
    the same error. *)
Lemma key_lookup_failures_coincide :
  fst (getSigningKey "https://idp.example/keys" "kid1" 0 (Throw Scenario.unreachable) 0 ∅)
  = Throw generic_error
  /\ fst (getSigningKey "https://idp.example/keys" "kid1" 0
            (Ok [{| kid := "kid2"; material := "n2" |}]) 0 ∅)
     = Throw generic_error.
Proof. split; reflexivity. Qed.

(** A cached key younger than one hour is returned without a fetch. *)
Lemma getSigningKey_hit keysUrl kid_wanted now fetch now'
    (keyCache : gmap string cached_key) c :
  keyCache !! (keysUrl +:+ ":" +:+ kid_wanted) = Some c ->
  now - timestamp c < 3600 * 1000 ->
  getSigningKey keysUrl kid_wanted now fetch now' keyCache = (Ok (key c), keyCache).
Proof.
  intros Hc Hage. unfold getSigningKey, KEY_CACHE_TTL. rewrite Hc.
  replace (Z.ltb (now - timestamp c) 3600000) with true
    by (symmetry; apply Z.ltb_lt; lia).
  reflexivity.
Qed.

(** C9 (amended).  On a miss, that is when the cache has no entry for
    (url, kid) or has one that is one hour old or older, the document is
    fetched again: if it has exactly one entry with the wanted [kid], that
    key is returned and cached with the current time; if the fetch fails,
    or if the document does not have exactly one such entry, the lookup
    fails with the same error "Error retrieving signing keys from
    authorization server" and the cache is unchanged. *)
Theorem key_lookup_on_miss
    (keysUrl kid_wanted : string) (now now' : Z) (keyCache : gmap string cached_key) :
  (forall c, keyCache !! (keysUrl +:+ ":" +:+ kid_wanted) = Some c ->
             3600 * 1000 <= now - timestamp c) ->
  (forall e,
     getSigningKey keysUrl kid_wanted now (Throw e) now' keyCache
     = (Throw generic_error, keyCache))
  /\ (forall keys,
        length (List.filter (fun k => String.eqb (kid k) kid_wanted) keys) <> 1%nat ->
        getSigningKey keysUrl kid_wanted now (Ok keys) now' keyCache
        = (Throw generic_error, keyCache))
  /\ (forall keys k,
        List.filter (fun k => String.eqb (kid k) kid_wanted) keys = [k] ->
        getSigningKey keysUrl kid_wanted now (Ok keys) now' keyCache
        = (Ok k, <[keysUrl +:+ ":" +:+ kid_wanted := {| key := k; timestamp := now' |}]>
                   keyCache)).
Proof.
  intros Hmiss.
  assert (Hhit :
    match keyCache !! (keysUrl +:+ ":" +:+ kid_wanted) with
    | Some c => if Z.ltb (now - timestamp c) KEY_CACHE_TTL then Some (key c) else None
    | None => None
    end = None).
  { destruct (keyCache !! _) as [c|] eqn:E; [|reflexivity].
    specialize (Hmiss c eq_refl). unfold KEY_CACHE_TTL.
    destruct (Z.ltb_spec (now - timestamp c) 3600000); [lia | reflexivity]. }
  unfold getSigningKey. rewrite Hhit. split; [|split].
  - intros e. reflexivity.
  - intros keys Hn. simpl.
    destruct (List.filter _ keys) as [|k [|k' l]]; simpl in *; try reflexivity.
    congruence.
  - intros keys k Hk. simpl. rewrite Hk. reflexivity.
Qed.

(** A key cached at time 0 is still served at 3 599 999 ms and fetched
    again at 3 600 000 ms, where both kinds of failure give the same
    error. *)
Lemma key_lookup_on_miss_witness :
  let cache := Scenario.key_cache in
  fst (getSigningKey "https://idp.example/keys" "kid1" 3599999 (Throw Scenario.unreachable)
         3599999 cache)
  = Ok {| kid := "kid1"; material := "n1" |}
  /\ fst (getSigningKey "https://idp.example/keys" "kid1" 3600000 (Throw Scenario.unreachable)
            3600001 cache)
     = Throw generic_error
  /\ fst (getSigningKey "https://idp.example/keys" "kid1" 3600000
            (Ok [{| kid := "kid2"; material := "n2" |}]) 3600001 cache)
     = Throw generic_error
  /\ fst (getSigningKey "https://idp.example/keys" "kid1" 3600000
            (Ok [{| kid := "kid2"; material := "n2" |};
                 {| kid := "kid1"; material := "n1b" |}]) 3600001 cache)
     = Ok {| kid := "kid1"; material := "n1b" |}.
Proof.
  intros cache.
  assert (Hc : cache !! ("https://idp.example/keys" +:+ ":" +:+ "kid1")
               = Some {| key := {| kid := "kid1"; material := "n1" |}; timestamp := 0 |})
    by apply lookup_insert_eq.
  assert (Hmiss : forall c,
             cache !! ("https://idp.example/keys" +:+ ":" +:+ "kid1") = Some c ->
             3600 * 1000 <= 3600000 - timestamp c).
  { intros c Hc'. rewrite Hc in Hc'. injection Hc' as <-. simpl. lia. }
  destruct (key_lookup_on_miss "https://idp.example/keys" "kid1" 3600000 3600001
              cache Hmiss) as (H1 & H2 & H3).
  split; [|split; [|split]].
  - rewrite (getSigningKey_hit _ _ _ _ _ _ _ Hc); [reflexivity | simpl; lia].
  - rewrite H1. reflexivity.
  - rewrite H2; [reflexivity | simpl; discriminate].
  - rewrite (H3 _ {| kid := "kid1"; material := "n1b" |}); reflexivity.
Defined.

End KeyCacheClaims.

(* ===================================================================== *)
(** * The browser flow and the client's [state] *)
(* ===================================================================== *)

(** /connected_account_callback, for a live link session whose OIDC
    request is still filed: the redirect is made of the filed
    [redirect_uri], the new code and the filed state, each inserted as it
    is. *)
Lemma connected_account_callback_final_redirect
    link_state connect_code data newAuthzCode now st s e :
  link_state <> "" -> connect_code <> "" ->
  connectedAccountsCache st !! link_state = Some s ->
  now - ConnectedAccountSessionCache.createdAt s
    <= ConnectedAccountSessionCache.CACHE_TTL_MS ->
  outboundRequestsCache st !! ConnectedAccountSessionCache.oidcState s = Some e ->
  now - OutboundRequestCache.createdAt e <= OutboundRequestCache.CACHE_TTL_MS ->
  fst (ConnectedAccountsCallback.connected_account_callback
         {| ConnectedAccountsCallback.q_state := Some link_state;
            ConnectedAccountsCallback.q_connect_code := Some connect_code |}
         (Ok data) newAuthzCode now st)
  = Redirect (tpl (usp_get (OutboundRequestCache.originalParameters e) "redirect_uri")
              +:+ "?code=" +:+ newAuthzCode
              +:+ "&state=" +:+ tpl (OutboundRequestCache.originalState e)).
Proof.
  intros Hs Hc Hsess Hlive1 He Hlive2.
  unfold ConnectedAccountsCallback.connected_account_callback. simpl.
  destruct (String.eqb_spec link_state "") as [->|_]; [congruence|].
  destruct (String.eqb_spec connect_code "") as [->|_]; [congruence|]. simpl.
  unfold ConnectedAccountSessionCache.getCachedAuthSession. rewrite Hsess.
  replace (Z.gtb (now - ConnectedAccountSessionCache.createdAt s)
             ConnectedAccountSessionCache.CACHE_TTL_MS)
    with false by (symmetry; rewrite Z.gtb_ltb; apply Z.ltb_ge; exact Hlive1).
  simpl.
  unfold OutboundRequestCache.getCachedOutboundRequest. rewrite He.
  replace (Z.gtb (now - OutboundRequestCache.createdAt e) OutboundRequestCache.CACHE_TTL_MS)
    with false by (symmetry; rewrite Z.gtb_ltb; apply Z.ltb_ge; exact Hlive2).
  reflexivity.
Qed.

Section FlowClaims.
Import TenantConfig OidcCallback.

Variable env : environment.
Variable configData : outcome (list tenant_config).
Variable chain : option tenant_config -> string -> outcome agent_tokens.
Variable vault : string -> outcome (option TokenVault.vault_result).
Variable linkFirst : outcome jsval.
Variable linkPost : TokenVault.connect_request -> outcome jsval.
Variable newAuthzCode linkState : string.
Variable addToCache8 :
  string -> string -> option string -> option Z -> string -> option string ->
  string -> URLSearchParams -> Z ->
  gmap string ReturnAuthzCache.entry -> gmap string ReturnAuthzCache.entry.

(** /authorize files the client's query, and the [state] in it, under the
    outbound state. *)
Lemma authorize_files_inbound_state tenantId tenant query outboundState outboundNonce
    now st :
  getTenantConfig configData tenantId = Some tenant ->
  exists e,
    oidcCache (snd (Authorize.authorize env configData tenantId query outboundState
                      outboundNonce now st)) !! outboundState = Some e
    /\ OidcCache.originalState e = usp_get (new_URLSearchParams query) "state"
    /\ OidcCache.originalParameters e = new_URLSearchParams query
    /\ OidcCache.tenantId e = tenantId
    /\ OidcCache.createdAt e = now.
Proof.
  intros Ht. unfold Authorize.authorize. rewrite Ht. simpl.
  eexists. split; [apply lookup_insert_eq|]. repeat split.
Qed.

(** When the vault already holds the credential, /callback redirects to
    the URL made of the filed [redirect_uri], the new code and the filed
    state, each inserted as it is. *)
Lemma callback_final_redirect state code now st e tenant tokens r :
  state <> "" -> code <> "" ->
  oidcCache st !! state = Some e ->
  now - OidcCache.createdAt e <= OidcCache.CACHE_TTL_MS ->
  getTenantConfig configData (OidcCache.tenantId e) = Some tenant ->
  chain (Some tenant) code = Ok tokens ->
  vault (agentAccessToken tokens) = Ok (Some r) ->
  TokenVault.success r = true ->
  fst (callback env configData chain vault linkFirst linkPost newAuthzCode linkState
         addToCache8
         {| q_state := Some state; q_code := Some code;
            q_error := None; q_error_description := None |} now st)
  = Redirect (tpl (usp_get (OidcCache.originalParameters e) "redirect_uri")
              +:+ "?code=" +:+ newAuthzCode
              +:+ "&state=" +:+ tpl (OidcCache.originalState e)).
Proof.
  intros Hs Hc He Hlive Ht Hch Hv Hok.
  unfold callback. simpl.
  destruct (String.eqb_spec state "") as [->|_]; [congruence|].
  destruct (String.eqb_spec code "") as [->|_]; [congruence|]. simpl.
  unfold OidcCache.getOidcRequest. rewrite He.
  replace (Z.gtb (now - OidcCache.createdAt e) OidcCache.CACHE_TTL_MS) with false
    by (symmetry; rewrite Z.gtb_ltb; apply Z.ltb_ge; exact Hlive).
  simpl. rewrite Ht, Hch. simpl. rewrite Hv. simpl. rewrite Hok. reflexivity.
Qed.

(** The same on [outbound_request_cache]. *)
Lemma authorize_outbound_files_inbound_state tenantId tenant query outboundState
    outboundNonce now st :
  getTenantConfig configData tenantId = Some tenant ->
  exists e,
    outboundRequestsCache
      (snd (Authorize.authorize_outbound env configData tenantId query outboundState
              outboundNonce now st)) !! outboundState = Some e
    /\ OutboundRequestCache.originalState e = usp_get (new_URLSearchParams query) "state"
    /\ OutboundRequestCache.originalParameters e = new_URLSearchParams query
    /\ OutboundRequestCache.tenantId e = tenantId
    /\ OutboundRequestCache.createdAt e = now
    /\ connectedAccountsCache
         (snd (Authorize.authorize_outbound env configData tenantId query outboundState
                 outboundNonce now st)) = connectedAccountsCache st.
Proof.
  intros Ht. unfold Authorize.authorize_outbound. rewrite Ht. simpl.
  eexists. split; [apply lookup_insert_eq|]. repeat split.
Qed.

(** A link that starts files its session under the link state, with the
    state of the OIDC request it belongs to. *)
Lemma beginConnectedAccountFlow_files_session oidcState connection redirect scopes now
    sessions cr :
  fst (TokenVault.beginConnectedAccountFlow linkFirst linkPost linkState oidcState
         connection redirect scopes now sessions) = Ok cr ->
  TokenVault.cr_success cr = true ->
  exists s,
    snd (TokenVault.beginConnectedAccountFlow linkFirst linkPost linkState oidcState
           connection redirect scopes now sessions) !! linkState = Some s
    /\ ConnectedAccountSessionCache.oidcState s = oidcState
    /\ ConnectedAccountSessionCache.createdAt s = now.
Proof.
  unfold TokenVault.beginConnectedAccountFlow.
  destruct linkFirst as [auth0Token|err]; [|discriminate].
  match goal with
  | |- context [match ?a with Ok _ => _ | Throw _ => _ end] => destruct a as [[auth url]|error]
  end; simpl.
  - intros _ _. eexists. split; [apply lookup_insert_eq|]. split; reflexivity.
  - destruct (response error) as [er|]; simpl.
    + destruct (get_prop (resp_data er) "error_description"); simpl; [|discriminate].
      destruct (get_prop (resp_data er) "error"); simpl; [|discriminate].
      intros [= <-]. discriminate.
    + destruct (request error); simpl; intros [= <-]; discriminate.
Qed.

(** When the vault asks for linking and the link starts, /callback files
    the agent token under the same state, next to the client's state and
    parameters, and sends the browser to the link URL. *)
Lemma callback_outbound_begins_link state code now st e tenant tokens r cr :
  state <> "" -> code <> "" ->
  outboundRequestsCache st !! state = Some e ->
  now - OutboundRequestCache.createdAt e <= OutboundRequestCache.CACHE_TTL_MS ->
  getTenantConfig configData (OutboundRequestCache.tenantId e) = Some tenant ->
  chain (Some tenant) code = Ok tokens ->
  vault (agentAccessToken tokens) = Ok (Some r) ->
  TokenVault.success r = false -> TokenVault.needsLinking r = true ->
  fst (TokenVault.beginConnectedAccountFlow linkFirst linkPost linkState state
         (vault_connection tenant) (PROXY_BASE_URL env +:+ "/connected_account_callback")
         (external_scopes tenant) now (connectedAccountsCache st)) = Ok cr ->
  TokenVault.cr_success cr = true ->
  let result :=
    callback_outbound env configData chain vault linkFirst linkPost newAuthzCode linkState
      {| q_state := Some state; q_code := Some code;
         q_error := None; q_error_description := None |} now st in
  fst result = Redirect (to_string (TokenVault.connectUrl cr))
  /\ (exists e',
        outboundRequestsCache (snd result) !! state = Some e'
        /\ OutboundRequestCache.originalState e' = OutboundRequestCache.originalState e
        /\ OutboundRequestCache.originalParameters e'
           = OutboundRequestCache.originalParameters e
        /\ OutboundRequestCache.accessToken e' = Some (agentAccessToken tokens)
        /\ OutboundRequestCache.createdAt e' = now)
  /\ connectedAccountsCache (snd result)
     = snd (TokenVault.beginConnectedAccountFlow linkFirst linkPost linkState state
              (vault_connection tenant)
              (PROXY_BASE_URL env +:+ "/connected_account_callback")
              (external_scopes tenant) now (connectedAccountsCache st)).
Proof.
  intros Hs Hc He Hlive Ht Hch Hv Hok Hnl Hb Hcr result. subst result.
  unfold callback_outbound. simpl.
  destruct (String.eqb_spec state "") as [->|_]; [congruence|].
  destruct (String.eqb_spec code "") as [->|_]; [congruence|]. simpl.
  unfold OutboundRequestCache.getCachedOutboundRequest. rewrite He.
  replace (Z.gtb (now - OutboundRequestCache.createdAt e) OutboundRequestCache.CACHE_TTL_MS)
    with false by (symmetry; rewrite Z.gtb_ltb; apply Z.ltb_ge; exact Hlive).
  simpl. rewrite Ht, Hch. simpl. rewrite Hv. simpl. rewrite Hok, Hnl.
  destruct (TokenVault.beginConnectedAccountFlow _ _ _ _ _ _ _ _ _) as [o sessions2].
  simpl in Hb. subst o. simpl. rewrite Hcr. simpl.
  split; [reflexivity|]. split; [|reflexivity].
  eexists. split; [apply lookup_insert_eq|]. repeat split.
Qed.

(** The flow without linking, end to end: the final redirect is made of the
    [redirect_uri] and the [state] of the client's /authorize request and
    of the new code, each inserted as it is. *)
Lemma no_link_flow_redirect tenantId tenant query outboundState outboundNonce t0 st
    code t1 tokens r :
  getTenantConfig configData tenantId = Some tenant ->
  outboundState <> "" -> code <> "" ->
  t1 - t0 <= 900 * 1000 ->
  chain (Some tenant) code = Ok tokens ->
  vault (agentAccessToken tokens) = Ok (Some r) ->
  TokenVault.success r = true ->
  fst (callback env configData chain vault linkFirst linkPost newAuthzCode linkState
         addToCache8
         {| q_state := Some outboundState; q_code := Some code;
            q_error := None; q_error_description := None |} t1
         (snd (Authorize.authorize env configData tenantId query outboundState
                 outboundNonce t0 st)))
  = Redirect (tpl (usp_get (new_URLSearchParams query) "redirect_uri")
              +:+ "?code=" +:+ newAuthzCode
              +:+ "&state=" +:+ tpl (usp_get (new_URLSearchParams query) "state")).
Proof.
  intros Ht Hs Hc Hlive Hch Hv Hok.
  destruct (authorize_files_inbound_state tenantId tenant query outboundState
              outboundNonce t0 st Ht) as (e & He & Hst & Hps & Htid & Hct).
  rewrite (callback_final_redirect outboundState code t1 _ e tenant tokens r);
    try assumption.
  - rewrite Hst, Hps. reflexivity.
  - rewrite Hct. exact Hlive.
  - rewrite Htid. exact Ht.
Qed.

(** The flow with linking, end to end. *)
Lemma link_flow_redirect tenantId tenant query outboundState outboundNonce t0 st
    code t1 tokens r cr connect_code data finalCode t2 :
  getTenantConfig configData tenantId = Some tenant ->
  outboundState <> "" -> code <> "" -> linkState <> "" -> connect_code <> "" ->
  t1 - t0 <= 900 * 1000 -> t2 - t1 <= 900 * 1000 ->
  chain (Some tenant) code = Ok tokens ->
  vault (agentAccessToken tokens) = Ok (Some r) ->
  TokenVault.success r = false -> TokenVault.needsLinking r = true ->
  fst (TokenVault.beginConnectedAccountFlow linkFirst linkPost linkState outboundState
         (vault_connection tenant) (PROXY_BASE_URL env +:+ "/connected_account_callback")
         (external_scopes tenant) t1 (connectedAccountsCache st)) = Ok cr ->
  TokenVault.cr_success cr = true ->
  let st1 :=
    snd (Authorize.authorize_outbound env configData tenantId query outboundState
           outboundNonce t0 st) in
  let st2 :=
    snd (callback_outbound env configData chain vault linkFirst linkPost newAuthzCode
           linkState
           {| q_state := Some outboundState; q_code := Some code;
              q_error := None; q_error_description := None |} t1 st1) in
  fst (ConnectedAccountsCallback.connected_account_callback
         {| ConnectedAccountsCallback.q_state := Some linkState;
            ConnectedAccountsCallback.q_connect_code := Some connect_code |}
         (Ok data) finalCode t2 st2)
  = Redirect (tpl (usp_get (new_URLSearchParams query) "redirect_uri")
              +:+ "?code=" +:+ finalCode
              +:+ "&state=" +:+ tpl (usp_get (new_URLSearchParams query) "state")).
Proof.
  intros Ht Hs Hc Hls Hcc Hlive1 Hlive2 Hch Hv Hok Hnl Hb Hcr st1 st2.
  destruct (authorize_outbound_files_inbound_state tenantId tenant query outboundState
              outboundNonce t0 st Ht) as (e & He & Hst & Hps & Htid & Hct & Hsess).
  fold st1 in He, Hsess. rewrite <- Hsess in Hb.
  destruct (callback_outbound_begins_link outboundState code t1 st1 e tenant tokens r cr)
    as (_ & (e' & He' & Hst' & Hps' & _ & Hct') & Hsess2); try assumption.
  { rewrite Hct. exact Hlive1. }
  { rewrite Htid. exact Ht. }
  fold st2 in He', Hsess2.
  destruct (beginConnectedAccountFlow_files_session outboundState (vault_connection tenant)
              (PROXY_BASE_URL env +:+ "/connected_account_callback")
              (external_scopes tenant) t1 (connectedAccountsCache st1) cr Hb Hcr)
    as (s & Hs2 & Hoidc & Hsct).
  rewrite <- Hsess2 in Hs2.
  rewrite (connected_account_callback_final_redirect linkState connect_code data finalCode
             t2 st2 s e'); try assumption.
  - rewrite Hps', Hst', Hps, Hst. reflexivity.
  - rewrite Hsct. exact Hlive2.
  - rewrite Hoidc. exact He'.
  - rewrite Hct'. exact Hlive2.
Qed.

End FlowClaims.

Section ReadingTheRedirect.
Import JsString Url.


End ReadingTheRedirect.

(** C6 (the code departs from the claim).  The client starts both flows
    with the state [a&b]; the final redirect of the flow without linking and
    of the flow with linking is [http://c/cb?code=R1&state=a&b], whose
    [state] query parameter is [a], not [a&b]: the handlers insert the state
    into the URL as it is.  The redirect to the identity provider, built
    with [URLSearchParams], does escape such a value. *)
Theorem final_redirect_loses_state :
  usp_get (Scenario.inbound_query "a&b") "state" = Some "a&b"
  /\ fst (Scenario.no_link_flow "a&b") = Redirect "http://c/cb?code=R1&state=a&b"
  /\ fst (Scenario.link_flow "a&b")
     = (Redirect "http://v/connect?ticket=T", Redirect "http://c/cb?code=R1&state=a&b")
  /\ Url.query_param "state" "http://c/cb?code=R1&state=a&b" = Some "a"
  /\ Url.query_param "state" ("http://c/cb?" +:+ Url.serialize [("code", "R1"); ("state", "a&b")])
     = Some "a&b".
Proof. repeat split; vm_compute; reflexivity. Qed.

(* ===================================================================== *)
(** * More on POST /token *)
(* ===================================================================== *)

Section TokenExchange.
Import ReturnAuthzCache TokenRoute.




(** X2.  The handler reads [code_verifier] and [redirect_uri] for presence
    only: two requests that differ in the values of these two fields, both
    non-empty, get the same answer and leave the same cache. *)
Theorem token_reads_presence_only g k i v v' r r' now c :
  v <> "" -> v' <> "" -> r <> "" -> r' <> "" ->
  post_token {| grant_type := g; code := k; client_id := i;
                code_verifier := Some v; redirect_uri := Some r |} now c
  = post_token {| grant_type := g; code := k; client_id := i;
                  code_verifier := Some v'; redirect_uri := Some r' |} now c.
Proof.
  intros Hv Hv' Hr Hr'. unfold post_token. simpl.
  apply String.eqb_neq in Hv, Hv', Hr, Hr'.
  rewrite Hv, Hv', Hr, Hr'. reflexivity.
Qed.

Lemma token_reads_presence_only_witness :
  post_token (Scenario.token_request Scenario.verifier) 2000 Scenario.issued
  = post_token {| grant_type := Some "authorization_code"; code := Some "R1";
                  client_id := Some "C"; code_verifier := Some "x";
                  redirect_uri := Some "http://elsewhere/" |} 2000 Scenario.issued.
Proof.
  apply (token_reads_presence_only (Some "authorization_code") (Some "R1") (Some "C")
           Scenario.verifier "x" "http://c/cb" "http://elsewhere/");
    discriminate.
Defined.



End TokenExchange.

(* ===================================================================== *)
(** * The PKCE check *)
(* ===================================================================== *)

Section Pkce.
Import TokenRoute.

Lemma be_bytes_range n x : Forall (fun b => 0 <= b < 256) (Sha256.be_bytes n x).
Proof.
  induction n as [|n IH]; simpl; constructor; [|exact IH].
  change 255 with (Z.ones 8). rewrite Z.land_ones by lia.
  apply Z.mod_pos_bound. lia.
Qed.

Lemma digest_bytes msg :
  length (Sha256.digest msg) = 32%nat
  /\ Forall (fun b => 0 <= b < 256) (Sha256.digest msg).
Proof.
  unfold Sha256.digest.
  set (s := fold_left Sha256.compress _ Sha256.init). clearbody s.
  split; [reflexivity|].
  cbn [flat_map]. repeat (apply Forall_app; split); try apply be_bytes_range.
  constructor.
Qed.

Lemma sextet_length i : 0 <= i < 64 -> String.length (Base64Url.sextet i) = 1%nat.
Proof.
  intros Hi. unfold Base64Url.sextet.
  assert (Hn : (Z.to_nat i < 64)%nat) by lia.
  generalize dependent (Z.to_nat i). intros n Hn.
  do 64 (destruct n as [|n]; [reflexivity|]). lia.
Qed.

Lemma length_append (a b : string) :
  String.length (a +:+ b) = (String.length a + String.length b)%nat.
Proof. induction a as [|c a IH]; simpl; [reflexivity | rewrite IH; reflexivity]. Qed.

Lemma lor_bound x y n :
  0 < n -> 0 <= x < 2 ^ n -> 0 <= y < 2 ^ n -> 0 <= Z.lor x y < 2 ^ n.
Proof.
  intros Hn Hx Hy. split; [apply Z.lor_nonneg; lia|].
  assert (Hb : forall z, 0 <= z < 2 ^ n -> Z.log2 z < n).
  { intros z Hz. destruct (Z.eq_dec z 0) as [->|Hne]; [simpl; lia|].
    apply Z.log2_lt_pow2; lia. }
  destruct (Z.eq_dec (Z.lor x y) 0) as [->|Hne]; [lia|].
  apply Z.log2_lt_pow2.
  - assert (0 <= Z.lor x y) by (apply Z.lor_nonneg; lia). lia.
  - rewrite Z.log2_lor by lia. apply Z.max_lub_lt; apply Hb; assumption.
Qed.

Lemma sextets_in_range a b c :
  0 <= a < 256 -> 0 <= b < 256 -> 0 <= c < 256 ->
  0 <= Z.shiftr a 2 < 64
  /\ 0 <= Z.lor (Z.shiftl (Z.land a 3) 4) (Z.shiftr b 4) < 64
  /\ 0 <= Z.lor (Z.shiftl (Z.land b 15) 2) (Z.shiftr c 6) < 64
  /\ 0 <= Z.land c 63 < 64
  /\ 0 <= Z.shiftl (Z.land b 15) 2 < 64
  /\ 0 <= Z.shiftl (Z.land a 3) 4 < 64.
Proof.
  intros Ha Hb Hc.
  assert (H1 : 0 <= Z.shiftr a 2 < 64).
  { rewrite Z.shiftr_div_pow2 by lia. change (2 ^ 2) with 4.
    split; [apply Z.div_pos; lia | apply Z.div_lt_upper_bound; lia]. }
  assert (H2 : 0 <= Z.shiftl (Z.land a 3) 4 < 64).
  { change 3 with (Z.ones 2). rewrite Z.land_ones, Z.shiftl_mul_pow2 by lia.
    change (2 ^ 2) with 4. change (2 ^ 4) with 16.
    pose proof (Z.mod_pos_bound a 4). lia. }
  assert (H3 : 0 <= Z.shiftr b 4 < 64).
  { rewrite Z.shiftr_div_pow2 by lia. change (2 ^ 4) with 16.
    split; [apply Z.div_pos; lia | apply Z.div_lt_upper_bound; lia]. }
  assert (H4 : 0 <= Z.shiftl (Z.land b 15) 2 < 64).
  { change 15 with (Z.ones 4). rewrite Z.land_ones, Z.shiftl_mul_pow2 by lia.
    change (2 ^ 2) with 4. change (2 ^ 4) with 16.
    pose proof (Z.mod_pos_bound b 16). lia. }
  assert (H5 : 0 <= Z.shiftr c 6 < 64).
  { rewrite Z.shiftr_div_pow2 by lia. change (2 ^ 6) with 64.
    split; [apply Z.div_pos; lia | apply Z.div_lt_upper_bound; lia]. }
  assert (H6 : 0 <= Z.land c 63 < 64).
  { change 63 with (Z.ones 6). rewrite Z.land_ones by lia.
    change (2 ^ 6) with 64. apply Z.mod_pos_bound. lia. }
  split; [exact H1|]. split; [|split; [|split; [exact H6|split; [exact H4|exact H2]]]].
  - change 64 with (2 ^ 6) in *. apply lor_bound; lia.
  - change 64 with (2 ^ 6) in *. apply lor_bound; lia.
Qed.

(** Unpadded base64url turns [n] bytes into [(4 n + 2) / 3] characters. *)
Lemma base64url_length bytes :
  Forall (fun b => 0 <= b < 256) bytes ->
  String.length (Base64Url.encode bytes) = ((4 * length bytes + 2) / 3)%nat.
Proof.
  enough (H : forall l,
    (Forall (fun b => 0 <= b < 256) l ->
     String.length (Base64Url.encode l) = ((4 * length l + 2) / 3)%nat)
    /\ (forall a, Forall (fun b => 0 <= b < 256) (a :: l) ->
        String.length (Base64Url.encode (a :: l)) = ((4 * length (a :: l) + 2) / 3)%nat)
    /\ (forall a b, Forall (fun b => 0 <= b < 256) (a :: b :: l) ->
        String.length (Base64Url.encode (a :: b :: l))
        = ((4 * length (a :: b :: l) + 2) / 3)%nat)) by apply H.
  induction l as [|c l (IH0 & IH1 & IH2)].
  - split; [reflexivity|]. split.
    + intros a Ha. inversion Ha as [|? ? Ha' _]; subst.
      destruct (sextets_in_range a 0 0 Ha' ltac:(lia) ltac:(lia)) as (S1 & _ & _ & _ & _ & S6).
      cbn [Base64Url.encode]. rewrite length_append, !sextet_length by assumption.
      reflexivity.
    + intros a b Hab. inversion Hab as [|? ? Ha' Hb]; subst.
      inversion Hb as [|? ? Hb' _]; subst.
      destruct (sextets_in_range a b 0 Ha' Hb' ltac:(lia)) as (S1 & S2 & _ & _ & S5 & _).
      cbn [Base64Url.encode]. rewrite !length_append, !sextet_length by assumption.
      reflexivity.
  - split; [intros H; apply IH1, H|]. split; [intros a H; apply IH2, H|].
    intros a b Hab. inversion Hab as [|? ? Ha' Hb]; subst.
    inversion Hb as [|? ? Hb' Hc]; subst. inversion Hc as [|? ? Hc' Hl]; subst.
    destruct (sextets_in_range a b c Ha' Hb' Hc') as (S1 & S2 & S3 & S4 & _ & _).
    cbn [Base64Url.encode]. rewrite !length_append, !sextet_length by assumption.
    rewrite (IH0 Hl). cbn [length].
    replace (4 * S (S (S (length l))) + 2)%nat with (4 * length l + 2 + 4 * 3)%nat by lia.
    rewrite Nat.div_add by lia. lia.
Qed.

(** The base64url SHA-256 digest of any string has 43 characters. *)
Lemma sha256_base64url_length s : String.length (sha256_base64url s) = 43%nat.
Proof.
  unfold sha256_base64url.
  destruct (digest_bytes (Sha256.bytes_of_string s)) as [Hlen Hrange].
  rewrite (base64url_length _ Hrange), Hlen. reflexivity.
Qed.

(** X4.  [validatePKCE] accepts exactly when the method is [S256], the
    verifier is a non-empty string and the challenge is the unpadded
    base64url SHA-256 digest of the verifier; such a challenge always has
    43 characters, so an absent or empty challenge, the method [plain] and
    an absent method are all rejected. *)
Theorem validatePKCE_accepts_iff codeVerifier codeChallenge codeChallengeMethod :
  (validatePKCE codeVerifier codeChallenge codeChallengeMethod = true
   <-> exists v, codeVerifier = Some v /\ v <> ""
                 /\ codeChallengeMethod = Some "S256"
                 /\ codeChallenge = Some (sha256_base64url v))
  /\ (validatePKCE codeVerifier codeChallenge codeChallengeMethod = true ->
      exists c, codeChallenge = Some c /\ String.length c = 43%nat).
Proof.
  assert (Hiff :
    validatePKCE codeVerifier codeChallenge codeChallengeMethod = true
    <-> exists v, codeVerifier = Some v /\ v <> ""
                  /\ codeChallengeMethod = Some "S256"
                  /\ codeChallenge = Some (sha256_base64url v)).
  { unfold validatePKCE. split.
    - destruct codeVerifier as [v|]; cbn [truthy_str default negb orb]; [|discriminate].
      destruct (String.eqb_spec v "") as [->|Hv]; cbn [negb orb]; [discriminate|].
      destruct codeChallenge as [c|]; cbn [truthy_str default negb orb]; [|discriminate].
      destruct (String.eqb c ""); cbn [negb orb]; [discriminate|].
      destruct (opt_string_eqb codeChallengeMethod (Some "S256")) eqn:Hm; [|discriminate].
      apply opt_string_eqb_eq in Hm. intros H. apply String.eqb_eq in H. unfold id in H.
      exists v. subst. repeat split; auto.
    - intros (v & -> & Hv & -> & ->). cbn [truthy_str default negb orb opt_string_eqb].
      apply String.eqb_neq in Hv. rewrite Hv. cbn [negb orb].
      destruct (String.eqb_spec (sha256_base64url v) "") as [E|_].
      + pose proof (sha256_base64url_length v) as Hl. rewrite E in Hl. discriminate Hl.
      + cbn [negb orb]. rewrite String.eqb_refl. apply String.eqb_refl. }
  split; [exact Hiff|].
  intros H. apply Hiff in H as (v & _ & _ & _ & ->).
  eexists. split; [reflexivity | apply sha256_base64url_length].
Qed.

Lemma validatePKCE_accepts_iff_witness :
  exists c, Some Scenario.challenge = Some c /\ String.length c = 43%nat.
Proof.
  apply (validatePKCE_accepts_iff (Some Scenario.verifier) (Some Scenario.challenge)
           (Some "S256")).
  vm_compute. reflexivity.
Defined.

End Pkce.

(* ===================================================================== *)
(** * More on the correlation maps and the key cache *)
(* ===================================================================== *)

Section CacheFacts.

(** X5.  Expiry is lazy and local: a lookup in any of the four maps removes
    at most the entry under the key it was asked for.  What is filed under
    another key, however old, is in the map afterwards as it was before. *)
Theorem lookup_leaves_other_keys (key other : string) (now : Z)
    (oidc : gmap string OidcCache.entry)
    (outbound : gmap string OutboundRequestCache.entry)
    (sessions : gmap string ConnectedAccountSessionCache.entry)
    (codes : gmap string ReturnAuthzCache.entry) :
  other <> key ->
  snd (OidcCache.getOidcRequest key now oidc) !! other = oidc !! other
  /\ snd (OutboundRequestCache.getCachedOutboundRequest key now outbound) !! other
     = outbound !! other
  /\ snd (ConnectedAccountSessionCache.getCachedAuthSession key now sessions) !! other
     = sessions !! other
  /\ snd (ReturnAuthzCache.getCacheItem key now codes) !! other = codes !! other.
Proof.
  intros Hne.
  unfold OidcCache.getOidcRequest, OutboundRequestCache.getCachedOutboundRequest,
    ConnectedAccountSessionCache.getCachedAuthSession, ReturnAuthzCache.getCacheItem.
  repeat split.
  - destruct (oidc !! key) as [e|]; [|reflexivity].
    destruct (Z.gtb _ _); simpl; [apply lookup_delete_ne; congruence | reflexivity].
  - destruct (outbound !! key) as [e|]; [|reflexivity].
    destruct (Z.gtb _ _); simpl; [apply lookup_delete_ne; congruence | reflexivity].
  - destruct (sessions !! key) as [e|]; [|reflexivity].
    destruct (Z.gtb _ _); simpl; [apply lookup_delete_ne; congruence | reflexivity].
  - destruct (codes !! key) as [e|]; [|reflexivity].
    destruct (Z.gtb _ _); simpl; [apply lookup_delete_ne; congruence | reflexivity].
Qed.

(** A code minted at time 0 is still in the map after a lookup of another
    code a day later. *)
Lemma lookup_leaves_other_keys_witness :
  snd (ReturnAuthzCache.getCacheItem "R2" 86400000 Scenario.issued) !! "R1"
  = Scenario.issued !! "R1".
Proof.
  apply (lookup_leaves_other_keys "R2" "R1" 86400000 ∅ ∅ ∅ Scenario.issued).
  discriminate.
Defined.

End CacheFacts.

Section KeyCacheFacts.
Import JwtAuthorizer.

(** X6.  A key fetched on a miss is served from the cache during the hour
    that follows the moment it was stored: a lookup of the same URL and
    kid less than 3 600 000 ms later returns the same key and leaves the
    cache as it is, whatever a fetch would have produced. *)
Theorem fetched_key_is_served_for_an_hour
    (keysUrl kid_wanted : string) (now now' : Z) (keyCache : gmap string cached_key)
    (keys : list jwk) (k : jwk) (later later' : Z) (fetch : outcome (list jwk)) :
  (forall c, keyCache !! (keysUrl +:+ ":" +:+ kid_wanted) = Some c ->
             3600 * 1000 <= now - timestamp c) ->
  List.filter (fun k => String.eqb (kid k) kid_wanted) keys = [k] ->
  later - now' < 3600 * 1000 ->
  fst (getSigningKey keysUrl kid_wanted now (Ok keys) now' keyCache) = Ok k
  /\ getSigningKey keysUrl kid_wanted later fetch later'
       (snd (getSigningKey keysUrl kid_wanted now (Ok keys) now' keyCache))
     = (Ok k, snd (getSigningKey keysUrl kid_wanted now (Ok keys) now' keyCache)).
Proof.
  intros Hmiss Hk Hlater.
  assert (Hfirst :
    getSigningKey keysUrl kid_wanted now (Ok keys) now' keyCache
    = (Ok k, <[keysUrl +:+ ":" +:+ kid_wanted := {| key := k; timestamp := now' |}]>
               keyCache)).
  { unfold getSigningKey.
    assert (Hhit :
      match keyCache !! (keysUrl +:+ ":" +:+ kid_wanted) with
      | Some c => if Z.ltb (now - timestamp c) KEY_CACHE_TTL then Some (key c) else None
      | None => None
      end = None).
    { destruct (keyCache !! _) as [c|] eqn:E; [|reflexivity].
      specialize (Hmiss c eq_refl). unfold KEY_CACHE_TTL.
      destruct (Z.ltb_spec (now - timestamp c) 3600000); [lia | reflexivity]. }
    rewrite Hhit. simpl. rewrite Hk. reflexivity. }
  rewrite Hfirst. split; [reflexivity|]. simpl.
  apply (getSigningKey_hit keysUrl kid_wanted later fetch later' _
           {| key := k; timestamp := now' |}).
  - apply lookup_insert_eq.
  - exact Hlater.
Qed.

Lemma fetched_key_is_served_for_an_hour_witness :
  getSigningKey "https://idp.example/keys" "kid1" 7199999 (Throw Scenario.unreachable)
    7199999
    (snd (getSigningKey "https://idp.example/keys" "kid1" 3600000
            (Ok [{| kid := "kid1"; material := "n1b" |}]) 3600000 Scenario.key_cache))
  = (Ok {| kid := "kid1"; material := "n1b" |},
     snd (getSigningKey "https://idp.example/keys" "kid1" 3600000
            (Ok [{| kid := "kid1"; material := "n1b" |}]) 3600000 Scenario.key_cache)).
Proof.
  apply (fetched_key_is_served_for_an_hour "https://idp.example/keys" "kid1" 3600000
           3600000 Scenario.key_cache [{| kid := "kid1"; material := "n1b" |}]
           {| kid := "kid1"; material := "n1b" |} 7199999 7199999
           (Throw Scenario.unreachable)).
  - intros c Hc.
    assert (H0 : Scenario.key_cache !! ("https://idp.example/keys" +:+ ":" +:+ "kid1")
                 = Some {| key := {| kid := "kid1"; material := "n1" |}; timestamp := 0 |})
      by apply lookup_insert_eq.
    rewrite H0 in Hc. injection Hc as <-. simpl. lia.
  - reflexivity.
  - lia.
Defined.

End KeyCacheFacts.

(* ===================================================================== *)
(** * More on the vault client *)
(* ===================================================================== *)

Section VaultFacts.
Import JsString TokenVault.

(** X7.  The scopes of the connect request, for scope lists as tenants
    have them: when no scope contains a space or the text
    [refresh_token], a non-empty list is sent as it is; when exactly one
    scope is [refresh_token] and the others are such plain scopes, the
    list is sent with [offline_access] in its place. *)
Theorem connect_request_scopes connection completeRedirectUri state
    (before after : list string) :
  Forall plain before -> Forall plain after ->
  scopes (connect_requestBody connection completeRedirectUri state
            (before ++ "refresh_token" :: after)%list)
  = (before ++ "offline_access" :: after)%list
  /\ ((before ++ after)%list <> [] ->
      scopes (connect_requestBody connection completeRedirectUri state
                (before ++ after)%list)
      = (before ++ after)%list).
Proof.
  intros Hb Ha. split.
  - cbn [connect_requestBody scopes].
    rewrite (finalScopes_one_refresh_token before after Hb Ha).
    unfold scopes_as_specified. rewrite map_app. cbn [map]. rewrite String.eqb_refl.
    fold (scopes_as_specified before). fold (scopes_as_specified after).
    rewrite (scopes_as_specified_plain before Hb), (scopes_as_specified_plain after Ha).
    reflexivity.
  - intros Hne. cbn [connect_requestBody scopes].
    assert (Hall : Forall plain (before ++ after)%list) by (apply Forall_app; auto).
    destruct (before ++ after)%list as [|a l]; [congruence|].
    apply finalScopes_plain, Hall.
Qed.

Lemma connect_request_scopes_witness :
  scopes (connect_requestBody (Some "github") "https://proxy.example/cb" "LS1"
            ["repo"; "refresh_token"; "read:org"])
  = ["repo"; "offline_access"; "read:org"].
Proof.
  apply (connect_request_scopes (Some "github") "https://proxy.example/cb" "LS1"
           ["repo"] ["read:org"]);
    repeat constructor.
Defined.

(** X8.  [beginConnectedAccountFlow] files a link session exactly when it
    resolves to a success: the session is then filed under the new link
    state, with the state of the OIDC request, the [auth_session] of the
    answer and the token of the first exchange, stamped with the clock.
    When it resolves to a failure, or rejects, the session map is left as
    it was. *)
Theorem link_session_filed_on_success_only
    (first : outcome jsval) (axios_post : connect_request -> outcome jsval)
    (state oidcState : string) (connection : option string)
    (completeRedirectUri : string) (externalScopes : list string)
    (now : Z) (sessions : gmap string ConnectedAccountSessionCache.entry) :
  match fst (beginConnectedAccountFlow first axios_post state oidcState connection
               completeRedirectUri externalScopes now sessions) with
  | Ok result =>
      if cr_success result then
        exists auth0Token,
          first = Ok auth0Token
          /\ cr_state result = Some state
          /\ snd (beginConnectedAccountFlow first axios_post state oidcState connection
                    completeRedirectUri externalScopes now sessions)
             = <[state := {| ConnectedAccountSessionCache.authSession :=
                               cr_authSession result;
                             ConnectedAccountSessionCache.state := state;
                             ConnectedAccountSessionCache.oidcState := oidcState;
                             ConnectedAccountSessionCache.userToken := auth0Token;
                             ConnectedAccountSessionCache.createdAt := now |}]> sessions
      else
        snd (beginConnectedAccountFlow first axios_post state oidcState connection
               completeRedirectUri externalScopes now sessions) = sessions
  | Throw _ =>
      snd (beginConnectedAccountFlow first axios_post state oidcState connection
             completeRedirectUri externalScopes now sessions) = sessions
  end.
Proof.
  unfold beginConnectedAccountFlow.
  destruct first as [auth0Token|err]; [|reflexivity].
  match goal with
  | |- context [fst (match ?a with Ok _ => _ | Throw _ => _ end)] =>
      destruct a as [[auth url]|error]
  end; simpl.
  - exists auth0Token. repeat split.
  - destruct (response error) as [er|]; simpl.
    + destruct (get_prop (resp_data er) "error_description"); simpl; [|reflexivity].
      destruct (get_prop (resp_data er) "error"); reflexivity.
    + destruct (request error); reflexivity.
Qed.

End VaultFacts.

(* ===================================================================== *)
(** * More on the forwarder *)
(* ===================================================================== *)

Section ForwarderFacts.
Import TenantConfig ProxyRoutes.

(** X9.  For a tenant without a vault connection the forwarder that knows
    the vault behaves as the earlier revision that does not: the same
    reply and the same request to the backend, and the vault is not
    consulted. *)
Theorem forwarder_without_vault_is_plain
    (tenantConfig : tenant_config) (req : request)
    (vault : string -> outcome (option TokenVault.vault_result))
    (axios : axios_request -> outcome backend_response) :
  truthy_str (vault_connection tenantConfig) = false ->
  handler tenantConfig req vault axios = ProxyRoutesPlain.handler tenantConfig req axios.
Proof. intros Hv. unfold handler. rewrite Hv. reflexivity. Qed.

Lemma forwarder_without_vault_is_plain_witness :
  handler Examples.direct Scenario.proxied (fun _ => Throw Scenario.unreachable)
    Scenario.backend
  = ProxyRoutesPlain.handler Examples.direct Scenario.proxied Scenario.backend.
Proof.
  apply (forwarder_without_vault_is_plain Examples.direct Scenario.proxied
           (fun _ => Throw Scenario.unreachable) Scenario.backend).
  reflexivity.
Defined.

(** X10.  The forwarder has no handler for a vault exchange that does not
    resolve to a result.  For a tenant with a vault connection, when the
    first exchange (inbound token for a vault token) fails, the exchange
    rejects with the message [Token exchange request failed: ...], and
    when it yields no token, the exchange resolves to [null]; in both
    cases the forwarder neither answers nor sends anything to the
    backend: its handler ends with the error shown. *)
Theorem forwarder_first_exchange_failure
    (tenantConfig : tenant_config) (req : request)
    (first post : string -> outcome jsval)
    (axios : axios_request -> outcome backend_response) :
  truthy_str (vault_connection tenantConfig) = true ->
  TokenVault.reaches_vault (first (req_accessToken req)) = false ->
  handler tenantConfig req
    (fun subjectToken =>
       TokenVault.exchangeOktaAccessToken (first subjectToken) (post subjectToken))
    axios
  = (Unhandled
       (new_Error
          match first (req_accessToken req) with
          | Throw err => "Token exchange request failed: " +:+ Js.message err
          | Ok _ => "Cannot read properties of null (reading 'success')"
          end),
     []).
Proof.
  intros Hv Hr. unfold handler. rewrite Hv.
  unfold TokenVault.exchangeOktaAccessToken.
  destruct (first (req_accessToken req)) as [tok|err]; simpl in *.
  - rewrite Hr. reflexivity.
  - reflexivity.
Qed.

Lemma forwarder_first_exchange_failure_witness :
  handler Scenario.github Scenario.proxied
    (fun subjectToken =>
       TokenVault.exchangeOktaAccessToken (Throw Scenario.unreachable)
         (Ok (JObj [("access_token", JStr "D1")])))
    Scenario.backend
  = (Unhandled (new_Error "Token exchange request failed: connect ECONNREFUSED"), []).
Proof.
  apply (forwarder_first_exchange_failure Scenario.github Scenario.proxied
           (fun _ => Throw Scenario.unreachable)
           (fun _ => Ok (JObj [("access_token", JStr "D1")])) Scenario.backend);
    reflexivity.
Defined.


End ForwarderFacts.

(* ===================================================================== *)
(** * The route with its middlewares, and the metadata documents *)
(* ===================================================================== *)

Section RouteFacts.
Import TenantConfig Middleware ProxyRoute.

Variable env : environment.
Variable configData : outcome (list tenant_config).
Variable authorizeRequest :
  tenant_config -> list (string * string) -> Authorizer.auth_result.
Variable vault : string -> outcome (option TokenVault.vault_result).
Variable axios : ProxyRoutes.axios_request -> outcome ProxyRoutes.backend_response.

Lemma getTenantConfig_id tenantId tenantConfig :
  getTenantConfig configData tenantId = Some tenantConfig -> id tenantConfig = tenantId.
Proof.
  unfold getTenantConfig. destruct configData as [l|e]; [|discriminate].
  destruct (List.filter _ l) as [|c rest] eqn:E; [discriminate|].
  intros [= <-].
  assert (Hin : In c (List.filter (fun config => String.eqb (id config) tenantId) l))
    by (rewrite E; left; reflexivity).
  apply filter_In in Hin as [_ Hc]. apply String.eqb_eq, Hc.
Qed.

(** X12.  The route sends a request to the backend only for a request that
    names a configured tenant and that the authorizer accepted for this
    tenant; the handler then runs with the token the authorizer
    returned. *)
Theorem route_forwards_authorized_only (req : inbound) :
  snd (route env configData authorizeRequest vault axios req) <> [] ->
  exists tenantId tenantConfig token,
    in_tenantId req = Some tenantId
    /\ getTenantConfig configData tenantId = Some tenantConfig
    /\ authorizeRequest tenantConfig (in_headers req) = Authorizer.Authorized token
    /\ route env configData authorizeRequest vault axios req
       = ProxyRoutes.handler tenantConfig
           {| ProxyRoutes.req_method := in_method req;
              ProxyRoutes.req_params0 := in_params0 req;
              ProxyRoutes.req_headers := in_headers req;
              ProxyRoutes.req_body := in_body req;
              ProxyRoutes.req_query := in_query req;
              ProxyRoutes.req_accessToken := token |}
           vault axios.
Proof.
  unfold route, tenantMiddleware.
  destruct (in_tenantId req) as [tenantId|]; simpl; [|congruence].
  destruct (String.eqb tenantId ""); simpl; [congruence|].
  destruct (getTenantConfig configData tenantId) as [tenantConfig|] eqn:Ht; simpl;
    [|congruence].
  destruct (authorizeRequest tenantConfig (in_headers req)) as [token|st msg] eqn:Ha;
    simpl; [|congruence].
  intros _. exists tenantId, tenantConfig, token. auto.
Qed.

(** X13.  A request that the authorizer denies for a configured tenant is
    answered with the status the authorizer chose and a [WWW-Authenticate]
    challenge, and nothing is sent to the vault or the backend.  The
    [resource_metadata] of the challenge is the address at which the
    protected-resource document of this tenant and path is served, and
    the one address the authorization-server document lists under
    [protected_resources]; the protected-resource document names the
    requested resource as its own authorization server. *)
Theorem denied_request_is_challenged (req : inbound) tenantId tenantConfig
    statusCode message :
  in_tenantId req = Some tenantId -> tenantId <> "" ->
  getTenantConfig configData tenantId = Some tenantConfig ->
  authorizeRequest tenantConfig (in_headers req) = Authorizer.Denied statusCode message ->
  let resource_metadata :=
    PROXY_BASE_URL env +:+ "/.well-known/oauth-protected-resource/" +:+ tenantId
    +:+ "/" +:+ in_params0 req in
  let resource := PROXY_BASE_URL env +:+ "/" +:+ tenantId +:+ "/" +:+ in_params0 req in
  route env configData authorizeRequest vault axios req
  = (Respond
       {| status := statusCode;
          headers :=
            [("WWW-Authenticate",
              "Bearer error=" +:+ dquote +:+ "invalid_or_misssing_jwt" +:+ dquote
              +:+ ", error_description=" +:+ dquote +:+ message +:+ dquote
              +:+ ", resource_metadata=" +:+ dquote +:+ resource_metadata +:+ dquote)];
          body :=
            JObj [("error",
                   JStr (if Z.eqb statusCode 401 then "Unauthorized" else "Forbidden"));
                  ("message", JStr message)] |},
     [])
  /\ (exists document,
        Metadata.protected_resource_metadata env configData tenantId (in_params0 req)
        = Metadata.Document document
        /\ Metadata.resource document = resource
        /\ Metadata.authorization_servers document = [resource])
  /\ (exists document,
        Metadata.authorization_server_metadata env configData tenantId (in_params0 req)
        = Metadata.Document document
        /\ Metadata.protected_resources document = [resource_metadata]
        /\ Metadata.issuer document = issuer tenantConfig
        /\ Metadata.jwks_uri document = keys_endpoint tenantConfig
        /\ Metadata.authorization_endpoint document
           = PROXY_BASE_URL env +:+ "/authorize/" +:+ tenantId
        /\ Metadata.token_endpoint document = PROXY_BASE_URL env +:+ "/token").
Proof.
  intros Hid Hne Ht Ha resource_metadata resource.
  pose proof (getTenantConfig_id tenantId tenantConfig Ht) as Hc.
  split; [|split].
  - unfold route, tenantMiddleware. rewrite Hid. simpl.
    apply String.eqb_neq in Hne. rewrite Hne. simpl. rewrite Ht.
    unfold authMiddleware. rewrite Ha.
    unfold wwwAuthValue, resourceMetadataUrl. rewrite Hc. reflexivity.
  - unfold Metadata.protected_resource_metadata. rewrite Ht.
    eexists. split; [reflexivity|]. split; reflexivity.
  - unfold Metadata.authorization_server_metadata. rewrite Ht.
    eexists. split; [reflexivity|]. repeat split.
Qed.

End RouteFacts.

Lemma route_forwards_authorized_only_witness :
  exists tenantId tenantConfig token,
    ProxyRoute.in_tenantId (Examples.inbound "Bearer AT1") = Some tenantId
    /\ TenantConfig.getTenantConfig Scenario.configData tenantId = Some tenantConfig
    /\ Examples.authorizer tenantConfig (ProxyRoute.in_headers (Examples.inbound "Bearer AT1"))
       = Authorizer.Authorized token
    /\ ProxyRoute.route Scenario.env Scenario.configData Examples.authorizer
         (fun _ => Ok (Some Scenario.vault_ok)) Scenario.backend
         (Examples.inbound "Bearer AT1")
       = ProxyRoutes.handler tenantConfig
           {| ProxyRoutes.req_method := "POST";
              ProxyRoutes.req_params0 := "mcp";
              ProxyRoutes.req_headers :=
                ProxyRoute.in_headers (Examples.inbound "Bearer AT1");
              ProxyRoutes.req_body := JObj [("jsonrpc", JStr "2.0")];
              ProxyRoutes.req_query := [("session", QStr "7")];
              ProxyRoutes.req_accessToken := token |}
           (fun _ => Ok (Some Scenario.vault_ok)) Scenario.backend.
Proof.
  apply (route_forwards_authorized_only Scenario.env Scenario.configData
           Examples.authorizer (fun _ => Ok (Some Scenario.vault_ok)) Scenario.backend
           (Examples.inbound "Bearer AT1")).
  vm_compute. discriminate.
Defined.

Lemma denied_request_is_challenged_witness :
  fst (ProxyRoute.route Scenario.env Scenario.configData Examples.authorizer
         (fun _ => Ok (Some Scenario.vault_ok)) Scenario.backend
         (Examples.inbound "Bearer other"))
  = Respond
      {| status := 401;
         headers :=
           [("WWW-Authenticate",
             "Bearer error=" +:+ Middleware.dquote +:+ "invalid_or_misssing_jwt"
             +:+ Middleware.dquote +:+ ", error_description=" +:+ Middleware.dquote
             +:+ "Invalid or expired access token." +:+ Middleware.dquote
             +:+ ", resource_metadata=" +:+ Middleware.dquote
             +:+ "https://proxy.example/.well-known/oauth-protected-resource/github/mcp"
             +:+ Middleware.dquote)];
         body := JObj [("error", JStr "Unauthorized");
                       ("message", JStr "Invalid or expired access token.")] |}.
Proof.
  destruct (denied_request_is_challenged Scenario.env Scenario.configData
              Examples.authorizer (fun _ => Ok (Some Scenario.vault_ok)) Scenario.backend
              (Examples.inbound "Bearer other") "github" Scenario.github 401
              "Invalid or expired access token." eq_refl ltac:(discriminate) eq_refl eq_refl)
    as [Hroute _].
  rewrite Hroute. reflexivity.
Defined.

(* ===================================================================== *)
(** * The authorizer *)
(* ===================================================================== *)

Section AuthorizerFacts.
Import TenantConfig JwtAuthorizer Authorizer.

Variable parse_segment : string -> outcome jsval.
Variable verify : string -> jwk -> outcome jwt_body.
Variable API_BASE_URL : option string.

Lemma strict_eq_str_true v s : strict_eq_str v s = true <-> v = JStr s.
Proof.
  destruct v; simpl; split; try discriminate.
  - intros H. apply String.eqb_eq in H. congruence.
  - intros [= ->]. apply String.eqb_refl.
Qed.

(** Past the verification of the signature only the audience decides. *)
Lemma authorizeRequest_verified tenantConfig httpMethod headers now fetch now' keyCache
    token iss kid_found key keyCache' body :
  match_bearer (authHeader headers) = Some token ->
  getTokenIssuer parse_segment token = Ok iss ->
  validateIssuer iss tenantConfig = true ->
  getTokenKid parse_segment token = Ok kid_found ->
  getSigningKey_for (keys_endpoint tenantConfig) kid_found now fetch now' keyCache
  = (Ok key, keyCache') ->
  verify token key = Ok body ->
  authorizeRequest parse_segment verify API_BASE_URL tenantConfig httpMethod headers
    now fetch now' keyCache
  = (if audienceRejected API_BASE_URL tenantConfig body then wrong_audience
     else Authorized token,
     keyCache').
Proof.
  intros Hm Hi Hv Hk Hs Hok. unfold authorizeRequest.
  rewrite Hm, Hi, Hv. cbn [negb]. rewrite Hk, Hs.
  cbn [mbind outcome_bind Js.bind]. rewrite Hok.
  unfold validateScopes.
  destruct (audienceRejected API_BASE_URL tenantConfig body); reflexivity.
Qed.

(** X14.  The authorizer accepts a request exactly when the
    [Authorization] header matches the bearer pattern, the [iss] of the
    token it carries is the string configured as the issuer of the
    tenant, a signing key is found for the [kid] of the token at the keys
    endpoint of the tenant, the token verifies under that key, and the
    audience test does not fail.  The token it returns is the one
    captured from the header. *)
Theorem authorization_granted_iff tenantConfig httpMethod headers now fetch now' keyCache
    token :
  fst (authorizeRequest parse_segment verify API_BASE_URL tenantConfig httpMethod headers
         now fetch now' keyCache) = Authorized token
  <-> match_bearer (authHeader headers) = Some token
      /\ getTokenIssuer parse_segment token = Ok (JStr (issuer tenantConfig))
      /\ exists kid_found key body,
           getTokenKid parse_segment token = Ok kid_found
           /\ fst (getSigningKey_for (keys_endpoint tenantConfig) kid_found now fetch now'
                     keyCache) = Ok key
           /\ verify token key = Ok body
           /\ audienceRejected API_BASE_URL tenantConfig body = false.
Proof.
  split.
  - unfold authorizeRequest.
    destruct (match_bearer (authHeader headers)) as [tok|]; [|discriminate].
    destruct (getTokenIssuer parse_segment tok) as [iss|e] eqn:Hi; [|discriminate].
    destruct (validateIssuer iss tenantConfig) eqn:Hv; cbn [negb]; [|discriminate].
    apply strict_eq_str_true in Hv. subst iss.
    destruct (getTokenKid parse_segment tok) as [kid_found|e] eqn:Hk; [|discriminate].
    destruct (getSigningKey_for _ kid_found now fetch now' keyCache) as [[key|e] c'] eqn:Hs;
      cbn [mbind outcome_bind Js.bind]; [|discriminate].
    destruct (verify tok key) as [body|e] eqn:Hok; [|discriminate].
    destruct (audienceRejected API_BASE_URL tenantConfig body) eqn:Ha; [discriminate|].
    unfold validateScopes. cbn [negb fst]. intros [= <-].
    split; [reflexivity|]. split; [exact Hi|].
    exists kid_found, key, body. rewrite Hs. repeat split; assumption.
  - intros (Hm & Hi & kid_found & key & body & Hk & Hs & Hok & Ha).
    destruct (getSigningKey_for _ kid_found now fetch now' keyCache) as [o c'] eqn:E.
    simpl in Hs. subst o.
    rewrite (authorizeRequest_verified tenantConfig httpMethod headers now fetch now'
               keyCache token _ kid_found key c' body Hm Hi
               (proj2 (strict_eq_str_true _ _) eq_refl) Hk E Hok).
    rewrite Ha. reflexivity.
Qed.

(** X15.  The authorizer does not look at the method of the request and
    never denies a request for its scopes: its answer is the same for
    every method, and it is always an acceptance or one of four denials
    (no bearer token, invalid token, untrusted issuer, wrong audience). *)
Theorem scopes_and_method_are_not_checked tenantConfig headers now fetch now' keyCache
    httpMethod httpMethod' :
  authorizeRequest parse_segment verify API_BASE_URL tenantConfig httpMethod headers
    now fetch now' keyCache
  = authorizeRequest parse_segment verify API_BASE_URL tenantConfig httpMethod' headers
      now fetch now' keyCache
  /\ (let result :=
        fst (authorizeRequest parse_segment verify API_BASE_URL tenantConfig httpMethod
               headers now fetch now' keyCache) in
      (exists token, result = Authorized token)
      \/ result = missing_header \/ result = invalid_token
      \/ result = untrusted_issuer \/ result = wrong_audience).
Proof.
  split.
  - unfold authorizeRequest, validateScopes. reflexivity.
  - unfold authorizeRequest.
    destruct (match_bearer (authHeader headers)) as [tok|]; [|simpl; auto].
    destruct (getTokenIssuer parse_segment tok) as [iss|e]; [|simpl; auto].
    destruct (validateIssuer iss tenantConfig); cbn [negb]; [|simpl; auto 6].
    destruct (getTokenKid parse_segment tok) as [kid_found|e]; [|simpl; auto].
    destruct (getSigningKey_for _ kid_found now fetch now' keyCache) as [[key|e] c'];
      cbn [mbind outcome_bind Js.bind]; [|simpl; auto].
    destruct (verify tok key) as [body|e]; [|simpl; auto].
    destruct (audienceRejected API_BASE_URL tenantConfig body); [simpl; auto 6|].
    simpl. left. eexists. reflexivity.
Qed.

(** X16.  A token is turned away before any key is looked up when its
    issuer cannot be read or is not the issuer of the tenant: the answer
    is 401 in the first case and 403 in the second, the key cache is
    unchanged and the JWKS document plays no part. *)
Theorem untrusted_issuer_is_denied_before_the_keys tenantConfig httpMethod headers now
    fetch now' keyCache token :
  match_bearer (authHeader headers) = Some token ->
  getTokenIssuer parse_segment token <> Ok (JStr (issuer tenantConfig)) ->
  authorizeRequest parse_segment verify API_BASE_URL tenantConfig httpMethod headers
    now fetch now' keyCache
  = (match getTokenIssuer parse_segment token with
     | Ok _ => Denied 403 "Access token was not issued by a trusted issuer for this tenant."
     | Throw _ => Denied 401 "Invalid or expired access token."
     end,
     keyCache).
Proof.
  intros Hm Hi. unfold authorizeRequest. rewrite Hm.
  destruct (getTokenIssuer parse_segment token) as [iss|e]; [|reflexivity].
  destruct (validateIssuer iss tenantConfig) eqn:Hv; [|reflexivity].
  apply strict_eq_str_true in Hv. subst iss. congruence.
Qed.

Lemma append_assoc (a b c : string) : (a +:+ b) +:+ c = a +:+ (b +:+ c).
Proof.
  induction a as [|x a IH]; [reflexivity|].
  change (String x ((a +:+ b) +:+ c) = String x (a +:+ (b +:+ c))). f_equal. exact IH.
Qed.

Lemma prefix_app (a b : string) : String.prefix a (a +:+ b) = true.
Proof.
  induction a as [|c a IH]; simpl; [destruct b; reflexivity|].
  destruct (ascii_dec c c); [exact IH | congruence].
Qed.

(** X17.  The audience test is a prefix test, and it is skipped when there
    is nothing to compare.  A verified token is accepted when
    [API_BASE_URL] is not set, when the token has no [aud], when its [aud]
    is a string that starts with [{API_BASE_URL}/{tenant id}], whatever
    follows, or an array that has this string among its elements. *)
Theorem audience_test_is_a_prefix_test tenantConfig httpMethod headers now fetch now'
    keyCache token kid_found key keyCache' body :
  match_bearer (authHeader headers) = Some token ->
  getTokenIssuer parse_segment token = Ok (JStr (issuer tenantConfig)) ->
  getTokenKid parse_segment token = Ok kid_found ->
  getSigningKey_for (keys_endpoint tenantConfig) kid_found now fetch now' keyCache
  = (Ok key, keyCache') ->
  verify token key = Ok body ->
  truthy_str API_BASE_URL = false
  \/ aud body = ClaimMissing
  \/ (exists base rest,
        API_BASE_URL = Some base
        /\ aud body = ClaimString (base +:+ "/" +:+ id tenantConfig +:+ rest))
  \/ (exists base l,
        API_BASE_URL = Some base /\ aud body = ClaimArray l
        /\ In (base +:+ "/" +:+ id tenantConfig) l) ->
  authorizeRequest parse_segment verify API_BASE_URL tenantConfig httpMethod headers
    now fetch now' keyCache
  = (Authorized token, keyCache').
Proof.
  intros Hm Hi Hk Hs Hok Haud.
  rewrite (authorizeRequest_verified tenantConfig httpMethod headers now fetch now'
             keyCache token _ kid_found key keyCache' body Hm Hi
             (proj2 (strict_eq_str_true _ _) eq_refl) Hk Hs Hok).
  assert (Ha : audienceRejected API_BASE_URL tenantConfig body = false).
  { unfold audienceRejected, expectedAudience.
    destruct Haud as [H | [H | [(base & rest & Hb & H) | (base & l & Hb & H & Hin)]]].
    - rewrite H. reflexivity.
    - rewrite H. destruct (truthy_str API_BASE_URL); reflexivity.
    - rewrite H, Hb. destruct (truthy_str (Some base)); [|reflexivity].
      cbn [default from_option id validAudience].
      replace (base +:+ "/" +:+ TenantConfig.id tenantConfig +:+ rest)
        with ((base +:+ "/" +:+ TenantConfig.id tenantConfig) +:+ rest).
      + unfold id. rewrite prefix_app, orb_true_r, andb_false_r. reflexivity.
      + rewrite !append_assoc. reflexivity.
    - rewrite H, Hb. destruct (truthy_str (Some base)); [|reflexivity].
      cbn [default from_option id validAudience claim_truthy andb]. unfold id.
      replace (existsb _ l) with true; [reflexivity|].
      symmetry. apply existsb_exists.
      exists (base +:+ "/" +:+ TenantConfig.id tenantConfig).
      split; [exact Hin | apply String.eqb_refl]. }
  rewrite Ha. reflexivity.
Qed.

End AuthorizerFacts.

(* ===================================================================== *)
(** * Query strings written with [URLSearchParams] read back *)
(* ===================================================================== *)

Section FormEncoding.
Import JsString Url.












End FormEncoding.

(* ===================================================================== *)
(** * More on the browser flow *)
(* ===================================================================== *)

Section FlowFacts.
Import TenantConfig OidcCallback.

Variable env : environment.
Variable configData : outcome (list tenant_config).
Variable chain : option tenant_config -> string -> outcome agent_tokens.
Variable vault : string -> outcome (option TokenVault.vault_result).
Variable linkFirst : outcome jsval.
Variable linkPost : TokenVault.connect_request -> outcome jsval.
Variable newAuthzCode linkState : string.



Ltac enter_callback Hs Hc He Hlive :=
  unfold callback_outbound; simpl;
  match type of Hs with
  | ?s <> "" => destruct (String.eqb_spec s "") as [->|_]; [congruence|]
  end;
  match type of Hc with
  | ?c <> "" => destruct (String.eqb_spec c "") as [->|_]; [congruence|]
  end;
  simpl; unfold OutboundRequestCache.getCachedOutboundRequest; rewrite He;
  match type of Hlive with
  | ?a <= ?b =>
      replace (Z.gtb a b) with false
        by (symmetry; rewrite Z.gtb_ltb; apply Z.ltb_ge; exact Hlive)
  end;
  simpl.

(** X19.  When the exchange of the authorization code fails with an error,
    /callback removes the filed request, so the state cannot be used
    again, and leaves the other maps as they are.  It answers with the
    status and the body of the upstream answer when there is one, with 502
    when the request got no answer, and with 500 and the message of the
    error otherwise. *)
Theorem callback_exchange_failure state code now st e error :
  state <> "" -> code <> "" ->
  outboundRequestsCache st !! state = Some e ->
  now - OutboundRequestCache.createdAt e <= OutboundRequestCache.CACHE_TTL_MS ->
  chain (getTenantConfig configData (OutboundRequestCache.tenantId e)) code = Throw error ->
  let result :=
    callback_outbound env configData chain vault linkFirst linkPost newAuthzCode linkState
      {| q_state := Some state; q_code := Some code;
         q_error := None; q_error_description := None |} now st in
  snd result = set_outboundRequestsCache (delete state (outboundRequestsCache st)) st
  /\ (forall upstream fields,
        response error = Some upstream -> resp_data upstream = JObj fields ->
        exists a, fst result = Respond a
                  /\ status a = resp_status upstream
                  /\ get_prop (body a) "details" = Ok (JObj fields))
  /\ (response error = None ->
      fst result
      = Respond
          (if request error then
             json 502
               [("error", JStr "bad_gateway");
                ("error_description",
                 JStr "No response received from the authorization server during token exchange.")]
           else
             json 500
               [("error", JStr "server_error");
                ("error_description",
                 JStr ("Failed to exchange authorization code: " +:+ Js.message error))])).
Proof.
  intros Hs Hc He Hlive Hch result. subst result.
  destruct st as [oidc outbound sessions codes]. simpl in He, Hch |- *.
  enter_callback Hs Hc He Hlive.
  rewrite Hch. simpl.
  unfold OutboundRequestCache.clearCachedOutboundRequest.
  split; [|split].
  - destruct (exchange_failure error); reflexivity.
  - intros upstream fields Hr Hd. unfold exchange_failure. rewrite Hr, Hd. simpl.
    eexists. split; [reflexivity|]. split; reflexivity.
  - intros Hr. unfold exchange_failure. rewrite Hr.
    destruct (request error); reflexivity.
Qed.

(** X20.  When the vault refuses the agent token for a reason other than a
    missing credential, /callback answers 403 and changes none of the
    maps: the filed request stays, and the same state is accepted again
    until it expires. *)
Theorem callback_vault_failure_keeps_request state code now st e tenant tokens r :
  state <> "" -> code <> "" ->
  outboundRequestsCache st !! state = Some e ->
  now - OutboundRequestCache.createdAt e <= OutboundRequestCache.CACHE_TTL_MS ->
  getTenantConfig configData (OutboundRequestCache.tenantId e) = Some tenant ->
  chain (Some tenant) code = Ok tokens ->
  vault (agentAccessToken tokens) = Ok (Some r) ->
  TokenVault.success r = false -> TokenVault.needsLinking r = false ->
  callback_outbound env configData chain vault linkFirst linkPost newAuthzCode linkState
    {| q_state := Some state; q_code := Some code;
       q_error := None; q_error_description := None |} now st
  = (Respond
       (json 403 [("error", JStr "Token Request Failed");
                  ("message", JStr "Unable to obtain proper tokens.")]),
     st).
Proof.
  intros Hs Hc He Hlive Ht Hch Hv Hok Hnl.
  destruct st as [oidc outbound sessions codes]. simpl in He |- *.
  enter_callback Hs Hc He Hlive.
  rewrite Ht, Hch. simpl. rewrite Hv. simpl. rewrite Hok, Hnl.
  reflexivity.
Qed.

(** What /callback does when the vault already holds the credential. *)
Lemma callback_outbound_success state code now st e tenant tokens r :
  state <> "" -> code <> "" ->
  outboundRequestsCache st !! state = Some e ->
  now - OutboundRequestCache.createdAt e <= OutboundRequestCache.CACHE_TTL_MS ->
  getTenantConfig configData (OutboundRequestCache.tenantId e) = Some tenant ->
  chain (Some tenant) code = Ok tokens ->
  vault (agentAccessToken tokens) = Ok (Some r) ->
  TokenVault.success r = true ->
  callback_outbound env configData chain vault linkFirst linkPost newAuthzCode linkState
    {| q_state := Some state; q_code := Some code;
       q_error := None; q_error_description := None |} now st
  = (Redirect (finalRedirectUrl (OutboundRequestCache.originalParameters e) newAuthzCode
                 (OutboundRequestCache.originalState e)),
     set_returningAuthorizationCache
       (snd (ReturnAuthzCache.addToCache newAuthzCode (Some (agentAccessToken tokens))
               (OutboundRequestCache.originalState e) (OutboundRequestCache.tenantId e)
               (OutboundRequestCache.originalParameters e) now
               (returningAuthorizationCache st)))
       (set_outboundRequestsCache (delete state (outboundRequestsCache st)) st)).
Proof.
  intros Hs Hc He Hlive Ht Hch Hv Hok.
  destruct st as [oidc outbound sessions codes]. simpl in He |- *.
  enter_callback Hs Hc He Hlive.
  rewrite Ht, Hch. simpl. rewrite Hv. simpl. rewrite Hok.
  reflexivity.
Qed.

(** X21.  A state is good for one successful callback: after /callback
    has redirected the browser back to the client, a second /callback
    with the same state, whatever code it carries and whenever it
    arrives, is answered 400 [invalid_state]. *)
Theorem callback_state_is_single_use state code now st e tenant tokens r code' now' :
  state <> "" -> code <> "" -> code' <> "" ->
  outboundRequestsCache st !! state = Some e ->
  now - OutboundRequestCache.createdAt e <= OutboundRequestCache.CACHE_TTL_MS ->
  getTenantConfig configData (OutboundRequestCache.tenantId e) = Some tenant ->
  chain (Some tenant) code = Ok tokens ->
  vault (agentAccessToken tokens) = Ok (Some r) ->
  TokenVault.success r = true ->
  fst (callback_outbound env configData chain vault linkFirst linkPost newAuthzCode
         linkState
         {| q_state := Some state; q_code := Some code';
            q_error := None; q_error_description := None |} now'
         (snd (callback_outbound env configData chain vault linkFirst linkPost
                 newAuthzCode linkState
                 {| q_state := Some state; q_code := Some code;
                    q_error := None; q_error_description := None |} now st)))
  = Respond
      (json 400
         [("error", JStr "invalid_state");
          ("error_description",
           JStr "The state parameter is invalid or has expired. Please restart the authorization flow.")]).
Proof.
  intros Hs Hc Hc' He Hlive Ht Hch Hv Hok.
  rewrite (callback_outbound_success state code now st e tenant tokens r); try assumption.
  unfold callback_outbound. simpl.
  destruct (String.eqb_spec state "") as [->|_]; [congruence|].
  destruct (String.eqb_spec code' "") as [->|_]; [congruence|]. simpl.
  unfold OutboundRequestCache.getCachedOutboundRequest.
  rewrite lookup_delete_eq. reflexivity.
Qed.

(** X22.  A /callback that arrives more than 900 seconds after the
    /authorize that filed its state is answered 400 [invalid_state]
    without any call to the identity provider or the vault, and the filed
    request is removed. *)
Theorem callback_after_expiry tenantId tenant query outboundState outboundNonce t0 st
    code t1 :
  getTenantConfig configData tenantId = Some tenant ->
  outboundState <> "" -> code <> "" ->
  900 * 1000 < t1 - t0 ->
  let st1 :=
    snd (Authorize.authorize_outbound env configData tenantId query outboundState
           outboundNonce t0 st) in
  callback_outbound env configData chain vault linkFirst linkPost newAuthzCode linkState
    {| q_state := Some outboundState; q_code := Some code;
       q_error := None; q_error_description := None |} t1 st1
  = (Respond
       (json 400
          [("error", JStr "invalid_state");
           ("error_description",
            JStr "The state parameter is invalid or has expired. Please restart the authorization flow.")]),
     set_outboundRequestsCache (delete outboundState (outboundRequestsCache st1)) st1).
Proof.
  intros Ht Hs Hc Hlate st1.
  destruct (authorize_outbound_files_inbound_state env configData tenantId tenant query
              outboundState outboundNonce t0 st Ht)
    as (e & He & _ & _ & _ & Hct & _).
  fold st1 in He.
  unfold callback_outbound. simpl.
  destruct (String.eqb_spec outboundState "") as [->|_]; [congruence|].
  destruct (String.eqb_spec code "") as [->|_]; [congruence|]. simpl.
  unfold OutboundRequestCache.getCachedOutboundRequest. rewrite He, Hct.
  replace (Z.gtb (t1 - t0) OutboundRequestCache.CACHE_TTL_MS) with true
    by (symmetry; rewrite Z.gtb_ltb; apply Z.ltb_lt;
        unfold OutboundRequestCache.CACHE_TTL_MS; lia).
  reflexivity.
Qed.

End FlowFacts.

Section LinkFacts.
Import ConnectedAccountsCallback.

Ltac case_failure :=
  match goal with
  | |- context [complete_failure ?error] => destruct (complete_failure error)
  end.

(** X23.  A link state is good for one /connected_account_callback:
    whatever such a request with a state and a connect code leads to, the
    session filed under its state is gone afterwards, and a second request
    with the same state is answered 400 [Invalid or Expired State].  A
    return code is filed only by a request that ends in the redirect to the
    client. *)
Theorem link_state_is_single_use state connect_code complete finalCode now st :
  state <> "" -> connect_code <> "" ->
  let result :=
    connected_account_callback
      {| q_state := Some state; q_connect_code := Some connect_code |}
      complete finalCode now st in
  connectedAccountsCache (snd result) !! state = None
  /\ ((forall url, fst result <> Redirect url) ->
      returningAuthorizationCache (snd result) = returningAuthorizationCache st)
  /\ (forall connect_code' complete' finalCode' now',
        connect_code' <> "" ->
        fst (connected_account_callback
               {| q_state := Some state; q_connect_code := Some connect_code' |}
               complete' finalCode' now' (snd result))
        = Respond
            (json 400
               [("error", JStr "Invalid or Expired State");
                ("message",
                 JStr "The state parameter is invalid or has expired. Please restart the connection flow.")])).
Proof.
  intros Hs Hc result.
  assert (Hgone : connectedAccountsCache (snd result) !! state = None).
  { subst result. unfold connected_account_callback. simpl.
    destruct (String.eqb_spec state "") as [->|_]; [congruence|].
    destruct (String.eqb_spec connect_code "") as [->|_]; [congruence|]. simpl.
    destruct st as [oidc outbound sessions codes]. simpl.
    unfold ConnectedAccountSessionCache.getCachedAuthSession,
      ConnectedAccountSessionCache.clearCachedAuthSession.
    destruct (sessions !! state) as [s|] eqn:Es; simpl.
    - destruct (Z.gtb _ _); simpl; [rewrite delete_delete_eq; apply lookup_delete_eq|].
      destruct complete as [data|error]; simpl.
      + destruct (OutboundRequestCache.getCachedOutboundRequest _ _ _) as [[e|] out1];
          simpl.
        * apply lookup_delete_eq.
        * try case_failure; simpl; rewrite delete_delete_eq;
            apply lookup_delete_eq.
      + case_failure; simpl; rewrite delete_delete_eq;
          apply lookup_delete_eq.
    - apply lookup_delete_eq. }
  split; [exact Hgone|]. split.
  - subst result. unfold connected_account_callback. simpl.
    destruct (String.eqb_spec state "") as [->|_]; [congruence|].
    destruct (String.eqb_spec connect_code "") as [->|_]; [congruence|]. simpl.
    destruct st as [oidc outbound sessions codes]. simpl.
    destruct (ConnectedAccountSessionCache.getCachedAuthSession _ _ _) as [[s|] s1];
      simpl; [|reflexivity].
    destruct complete as [data|error]; simpl.
    + destruct (OutboundRequestCache.getCachedOutboundRequest _ _ _) as [[e|] out1];
        simpl.
      * intros H. exfalso. eapply H. reflexivity.
      * try case_failure; reflexivity.
    + case_failure; reflexivity.
  - intros connect_code' complete' finalCode' now' Hc'.
    unfold connected_account_callback at 1. simpl.
    destruct (String.eqb_spec state "") as [->|_]; [congruence|].
    destruct (String.eqb_spec connect_code' "") as [->|_]; [congruence|]. simpl.
    unfold ConnectedAccountSessionCache.getCachedAuthSession at 1.
    rewrite Hgone. reflexivity.
Qed.

Lemma link_state_is_single_use_witness :
  connectedAccountsCache
    (snd (connected_account_callback
            {| q_state := Some "LS1"; q_connect_code := Some "CC" |}
            (Throw Scenario.unreachable) "R1" 2000 empty_stores)) !! "LS1" = None.
Proof.
  apply (link_state_is_single_use "LS1" "CC" (Throw Scenario.unreachable) "R1" 2000
           empty_stores);
    discriminate.
Defined.

End LinkFacts.

Section EndToEnd.
Import TenantConfig OidcCallback.

Variable env : environment.
Variable configData : outcome (list tenant_config).
Variable chain : option tenant_config -> string -> outcome agent_tokens.
Variable vault : string -> outcome (option TokenVault.vault_result).
Variable linkFirst : outcome jsval.
Variable linkPost : TokenVault.connect_request -> outcome jsval.
Variable newAuthzCode linkState : string.





End EndToEnd.

(* ===================================================================== *)
(** * The exchanges with the identity provider and the vault *)
(* ===================================================================== *)

Section ExchangeFacts.
Import TenantConfig OktaAuth0Exchange.

Variable readFileSync : string -> outcome string.
Variable sign : assertion_payload -> string -> string -> outcome string.
Variable post_json : string -> exchange_request -> outcome jsval.
Variable post_form : string -> string -> outcome jsval.

Lemma id_jag_failure_is_local {A} what error :
  exists msg, @id_jag_failure A what error = Throw (new_Error msg).
Proof.
  unfold id_jag_failure.
  destruct (response error) as [[st data]|]; simpl.
  - destruct data; simpl; try destruct b; try destruct nonzero;
      try (eexists; reflexivity).
    destruct (negb (String.eqb s "")); eexists; reflexivity.
  - eexists. reflexivity.
Qed.

(** X26.  The two ID-JAG exchanges replace every failure of their token
    request by a new error that carries only a message: once the client
    assertion is signed, an error they throw has no upstream response
    attached, so /callback answers it with 500 and the message, never
    with the status the identity provider answered.  The login exchange,
    in contrast, lets the error of its request through as it is. *)
Theorem id_jag_failures_lose_the_upstream_answer
    (tokenEndpoint : string) (tenantConfig : option tenant_config) (token : jsval)
    (clientId clientSecretKeyFile kid : string) (now : Z) (jti : string)
    (code : string) (redirectUri : option string) (scope client_id client_secret : string) :
  (forall assertion error,
     generateClientAssertion readFileSync sign clientId tokenEndpoint clientSecretKeyFile
       kid now jti = Ok assertion ->
     getIdJagFromOkta readFileSync sign post_form tokenEndpoint tenantConfig token clientId
       clientSecretKeyFile kid now jti = Throw error ->
     response error = None /\ request error = false
     /\ OidcCallback.exchange_failure error
        = Ok (json 500
                [("error", JStr "server_error");
                 ("error_description",
                  JStr ("Failed to exchange authorization code: " +:+ Js.message error))]))
  /\ (forall tenant assertion error,
        tenantConfig = Some tenant ->
        generateClientAssertion readFileSync sign clientId (issuer tenant +:+ "/v1/token")
          clientSecretKeyFile kid now jti = Ok assertion ->
        getAccessTokenFromIDJag readFileSync sign post_form tenantConfig token clientId
          clientSecretKeyFile kid now jti = Throw error ->
        response error = None /\ request error = false
        /\ OidcCallback.exchange_failure error
           = Ok (json 500
                   [("error", JStr "server_error");
                    ("error_description",
                     JStr ("Failed to exchange authorization code: "
                           +:+ Js.message error))]))
  /\ (forall body error,
        post_form tokenEndpoint body = Throw error ->
        body = Url.serialize
                 [("grant_type", "authorization_code"); ("code", code);
                  ("redirect_uri", tpl redirectUri); ("client_id", client_id);
                  ("client_secret", client_secret); ("scope", scope)] ->
        completeOktaOIDCLogin post_form tokenEndpoint code redirectUri scope client_id
          client_secret = Throw error).
Proof.
  assert (Hlocal : forall error : js_error,
            (exists msg, error = new_Error msg) ->
            response error = None /\ request error = false
            /\ OidcCallback.exchange_failure error
               = Ok (json 500
                       [("error", JStr "server_error");
                        ("error_description",
                         JStr ("Failed to exchange authorization code: "
                               +:+ Js.message error))])).
  { intros error [msg ->]. repeat split. }
  split; [|split].
  - intros assertion error Ha Hg. apply Hlocal.
    unfold getIdJagFromOkta in Hg.
    destruct tenantConfig as [tenant|]; [|injection Hg as <-; eexists; reflexivity].
    destruct (truthy token); cbn [negb] in Hg; [|injection Hg as <-; eexists; reflexivity].
    rewrite Ha in Hg. cbn [mbind outcome_bind Js.bind] in Hg.
    unfold try_catch in Hg.
    match type of Hg with
    | match ?attempt with Ok _ => _ | Throw _ => _ end = _ =>
        destruct attempt as [v|err]; [discriminate|]
    end.
    destruct (@id_jag_failure_is_local jsval "ID-JAG exchange" err) as [msg Hm].
    rewrite Hm in Hg. injection Hg as <-. eexists. reflexivity.
  - intros tenant assertion error -> Ha Hg. apply Hlocal.
    unfold getAccessTokenFromIDJag in Hg.
    destruct (truthy token); cbn [negb] in Hg; [|injection Hg as <-; eexists; reflexivity].
    rewrite Ha in Hg. cbn [mbind outcome_bind Js.bind] in Hg.
    unfold try_catch in Hg.
    match type of Hg with
    | match ?attempt with Ok _ => _ | Throw _ => _ end = _ =>
        destruct attempt as [v|err]; [discriminate|]
    end.
    destruct (@id_jag_failure_is_local jsval "ID-JAG Access exchange" err) as [msg Hm].
    rewrite Hm in Hg. injection Hg as <-. eexists. reflexivity.
  - intros body error Hp ->. unfold completeOktaOIDCLogin.
    change (usp_set (usp_set (usp_set (usp_set (usp_set (usp_set []
              "grant_type" "authorization_code") "code" code)
              "redirect_uri" (tpl redirectUri)) "client_id" client_id)
              "client_secret" client_secret) "scope" scope)
      with [("grant_type", "authorization_code"); ("code", code);
            ("redirect_uri", tpl redirectUri); ("client_id", client_id);
            ("client_secret", client_secret); ("scope", scope)].
    rewrite Hp. reflexivity.
Qed.

(** X27.  The first leg of the vault exchange.  The vault client asks the
    token endpoint of the vault to exchange the inbound token, named as a
    subject token of the type of the tenant's connection.  When that
    request fails, the vault exchange rejects with the message [Token
    exchange request failed: ...]; when its answer has no
    [access_token], the vault exchange resolves to [null]; in neither case
    is the vault asked for the external token. *)
Theorem vault_exchange_first_leg
    (domain subjectToken cteClientId cteClientSecret vaultScope vaultAudience
       connection : string)
    (post : outcome jsval) :
  let first_request :=
    {| grant_type := "urn:ietf:params:oauth:grant-type:token-exchange";
       subject_token := subjectToken;
       subject_token_type := "https://danc-ai-beta/gateway/" +:+ connection;
       client_id := cteClientId;
       client_secret := cteClientSecret;
       audience := vaultAudience;
       scope := vaultScope |} in
  let exchange :=
    TokenVault.exchangeOktaAccessToken
      (getAuth0VaultTokenFromOktaToken post_json domain subjectToken cteClientId
         cteClientSecret vaultScope vaultAudience connection)
      post in
  (forall err,
     post_json ("https://" +:+ domain +:+ "/oauth/token") first_request = Throw err ->
     exchange = Throw (new_Error ("Token exchange request failed: " +:+ Js.message err)))
  /\ (forall data token,
        post_json ("https://" +:+ domain +:+ "/oauth/token") first_request = Ok data ->
        get_prop data "access_token" = Ok token -> truthy token = false ->
        exchange = Ok None).
Proof.
  intros first_request exchange. subst exchange.
  unfold getAuth0VaultTokenFromOktaToken, getExchangedAuth0Token.
  fold first_request. split.
  - intros err ->. reflexivity.
  - intros data token -> Ht Hf. unfold TokenVault.exchangeOktaAccessToken.
    cbn [mbind outcome_bind Js.bind]. rewrite Ht. cbn [try_catch mbind outcome_bind Js.bind].
    rewrite Hf. reflexivity.
Qed.

End ExchangeFacts.

(* ===================================================================== *)
(** * Worked examples of the properties above *)
(* ===================================================================== *)

(** A token whose body names another issuer is denied with 403; the key
    cache stays empty although the keys endpoint is unreachable. *)
Lemma untrusted_issuer_is_denied_before_the_keys_witness :
  Authorizer.authorizeRequest Examples.parse_segment Examples.verify
    (Some "https://proxy.example") Scenario.github "GET"
    [("authorization", "Bearer H.Q.S")] 0 (Throw Scenario.unreachable) 0 ∅
  = (Authorizer.Denied 403
       "Access token was not issued by a trusted issuer for this tenant.", ∅).
Proof.
  apply (untrusted_issuer_is_denied_before_the_keys Examples.parse_segment
           Examples.verify (Some "https://proxy.example") Scenario.github "GET"
           [("authorization", "Bearer H.Q.S")] 0 (Throw Scenario.unreachable) 0 ∅
           "H.Q.S").
  - reflexivity.
  - vm_compute. discriminate.
Defined.

(** A token issued for the audience [.../github-admin] is accepted for
    the tenant [github]. *)
Lemma audience_test_is_a_prefix_test_witness :
  fst (Authorizer.authorizeRequest Examples.parse_segment Examples.verify
         (Some "https://proxy.example") Scenario.github "GET"
         [("authorization", "Bearer H.P.S")] 0 (Ok [Examples.signing_key]) 0 ∅)
  = Authorizer.Authorized "H.P.S".
Proof.
  rewrite (audience_test_is_a_prefix_test Examples.parse_segment Examples.verify
             (Some "https://proxy.example") Scenario.github "GET"
             [("authorization", "Bearer H.P.S")] 0 (Ok [Examples.signing_key]) 0 ∅
             "H.P.S" (JStr "kid1") Examples.signing_key
             (snd (Authorizer.getSigningKey_for
                     (TenantConfig.keys_endpoint Scenario.github) (JStr "kid1") 0
                     (Ok [Examples.signing_key]) 0 ∅))
             {| Authorizer.aud :=
                  Authorizer.ClaimString "https://proxy.example/github-admin";
                Authorizer.scope := Authorizer.ClaimString "repo" |}).
  - reflexivity.
  - reflexivity.
  - reflexivity.
  - reflexivity.
  - reflexivity.
  - reflexivity.
  - right. right. left. exists "https://proxy.example", "-admin". split; reflexivity.
Defined.


Lemma filed_request_is_live :
  outboundRequestsCache Examples.filed !! "OUT1" = Some Examples.filed_request
  /\ 1000 - OutboundRequestCache.createdAt Examples.filed_request
     <= OutboundRequestCache.CACHE_TTL_MS.
Proof. split; [apply lookup_insert_eq | vm_compute; discriminate]. Qed.

(** The identity provider answers the code exchange with 401: /callback
    removes the filed request. *)
Lemma callback_exchange_failure_witness :
  snd (OidcCallback.callback_outbound Scenario.env Scenario.configData
         (fun _ _ => Throw (Scenario.vault_401 "invalid_grant"))
         (fun _ => Ok (Some Scenario.vault_ok)) (Ok (JStr "LT1")) Scenario.connect_response
         "R1" "LS1" (Examples.callback_query "AUTH1") 1000 Examples.filed)
  = set_outboundRequestsCache (delete "OUT1" (outboundRequestsCache Examples.filed))
      Examples.filed.
Proof.
  destruct filed_request_is_live as [He Hlive].
  apply (callback_exchange_failure Scenario.env Scenario.configData
           (fun _ _ => Throw (Scenario.vault_401 "invalid_grant"))
           (fun _ => Ok (Some Scenario.vault_ok)) (Ok (JStr "LT1"))
           Scenario.connect_response "R1" "LS1" "OUT1" "AUTH1" 1000 Examples.filed
           Examples.filed_request (Scenario.vault_401 "invalid_grant"));
    try assumption; try discriminate; reflexivity.
Defined.

Lemma callback_vault_failure_keeps_request_witness :
  OidcCallback.callback_outbound Scenario.env Scenario.configData Scenario.chain
    (fun _ => Ok (Some Scenario.vault_failed)) (Ok (JStr "LT1")) Scenario.connect_response
    "R1" "LS1" (Examples.callback_query "AUTH1") 1000 Examples.filed
  = (Respond
       (json 403 [("error", JStr "Token Request Failed");
                  ("message", JStr "Unable to obtain proper tokens.")]),
     Examples.filed).
Proof.
  destruct filed_request_is_live as [He Hlive].
  apply (callback_vault_failure_keeps_request Scenario.env Scenario.configData
           Scenario.chain (fun _ => Ok (Some Scenario.vault_failed)) (Ok (JStr "LT1"))
           Scenario.connect_response "R1" "LS1" "OUT1" "AUTH1" 1000 Examples.filed
           Examples.filed_request Scenario.github Scenario.tokens Scenario.vault_failed);
    try assumption; try discriminate; reflexivity.
Defined.

Lemma callback_state_is_single_use_witness :
  fst (OidcCallback.callback_outbound Scenario.env Scenario.configData Scenario.chain
         (fun _ => Ok (Some Scenario.vault_ok)) (Ok (JStr "LT1")) Scenario.connect_response
         "R1" "LS1" (Examples.callback_query "AUTH2") 2000
         (snd (OidcCallback.callback_outbound Scenario.env Scenario.configData
                 Scenario.chain (fun _ => Ok (Some Scenario.vault_ok)) (Ok (JStr "LT1"))
                 Scenario.connect_response "R1" "LS1" (Examples.callback_query "AUTH1")
                 1000 Examples.filed)))
  = Respond
      (json 400
         [("error", JStr "invalid_state");
          ("error_description",
           JStr "The state parameter is invalid or has expired. Please restart the authorization flow.")]).
Proof.
  destruct filed_request_is_live as [He Hlive].
  apply (callback_state_is_single_use Scenario.env Scenario.configData Scenario.chain
           (fun _ => Ok (Some Scenario.vault_ok)) (Ok (JStr "LT1"))
           Scenario.connect_response "R1" "LS1" "OUT1" "AUTH1" 1000 Examples.filed
           Examples.filed_request Scenario.github Scenario.tokens Scenario.vault_ok
           "AUTH2" 2000);
    try assumption; try discriminate; reflexivity.
Defined.

Lemma callback_after_expiry_witness :
  OidcCallback.callback_outbound Scenario.env Scenario.configData Scenario.chain
    (fun _ => Ok (Some Scenario.vault_ok)) (Ok (JStr "LT1")) Scenario.connect_response
    "R1" "LS1" (Examples.callback_query "AUTH1") 900001
    (snd (Authorize.authorize_outbound Scenario.env Scenario.configData "github"
            (Scenario.inbound_req_query "S1") "OUT1" "N1" 0 empty_stores))
  = (Respond
       (json 400
          [("error", JStr "invalid_state");
           ("error_description",
            JStr "The state parameter is invalid or has expired. Please restart the authorization flow.")]),
     set_outboundRequestsCache
       (delete "OUT1"
          (outboundRequestsCache
             (snd (Authorize.authorize_outbound Scenario.env Scenario.configData "github"
                     (Scenario.inbound_req_query "S1") "OUT1" "N1" 0 empty_stores))))
       (snd (Authorize.authorize_outbound Scenario.env Scenario.configData "github"
               (Scenario.inbound_req_query "S1") "OUT1" "N1" 0 empty_stores))).
Proof.
  apply (callback_after_expiry Scenario.env Scenario.configData Scenario.chain
           (fun _ => Ok (Some Scenario.vault_ok)) (Ok (JStr "LT1"))
           Scenario.connect_response "R1" "LS1" "github" Scenario.github
           (Scenario.inbound_req_query "S1") "OUT1" "N1" 0 empty_stores "AUTH1" 900001);
    try discriminate; try reflexivity.
Defined.




(** With the identity provider answering 401 to the ID-JAG request, the
    error that reaches /callback has no response attached. *)
Lemma id_jag_failures_lose_the_upstream_answer_witness :
  exists error,
    OktaAuth0Exchange.getIdJagFromOkta Examples.readFileSync Examples.sign
      Examples.post_form_401 "https://idp.example/oauth2/v1/token" (Some Scenario.github)
      (JStr "ID1") "agent" "agent.pem" "k1" 0 "J1" = Throw error
    /\ response error = None /\ Js.message error = "ID-JAG exchange failed: invalid_grant".
Proof.
  exists (new_Error "ID-JAG exchange failed: invalid_grant").
  split; [reflexivity|]. split; [|reflexivity].
  destruct (id_jag_failures_lose_the_upstream_answer Examples.readFileSync Examples.sign
              Examples.post_form_401 "https://idp.example/oauth2/v1/token"
              (Some Scenario.github) (JStr "ID1") "agent" "agent.pem" "k1" 0 "J1"
              "AUTH1" None "openid" "vscode" "secret") as [H _].
  apply (H "ASSERTION" (new_Error "ID-JAG exchange failed: invalid_grant"));
    reflexivity.
Defined.

Lemma vault_exchange_first_leg_witness :
  TokenVault.exchangeOktaAccessToken
    (OktaAuth0Exchange.getAuth0VaultTokenFromOktaToken Examples.post_json_down
       "vault.example" "AT1" "cte" "secret" "openid" "https://vault.example/api/"
       "github")
    (Ok (JObj [("access_token", JStr "D1")]))
  = Throw (new_Error "Token exchange request failed: connect ECONNREFUSED").
Proof.
  pose proof (vault_exchange_first_leg Examples.post_json_down "vault.example" "AT1"
                "cte" "secret" "openid" "https://vault.example/api/" "github"
                (Ok (JObj [("access_token", JStr "D1")]))) as H.
  cbv zeta in H. destruct H as [H _].
  apply (H Scenario.unreachable). reflexivity.
Defined.
